(** * MnemonicNexus: event-sourcing spine, projectors and memory->EMO translator

    A shallow embedding of the Python services of the MnemonicNexus repository
    (gateway persistence and validation, CDC publisher, projector SDK, the
    relational projector and the memory->EMO translator), with the properties
    of the specification stated and settled against it.

    Python strings are modelled as Rocq [string]s whose characters are the
    Unicode code points below 256; [hashlib.sha256], [hashlib.sha1] and
    [uuid.uuid5] are implemented bit for bit so that digests can be evaluated. *)

From Stdlib Require Import ZArith List String Ascii Bool Lia.
From stdpp Require Import base gmap strings.
Import ListNotations.
Open Scope string_scope.
#[local] Set Warnings "-register-all".

(* ------------------------------------------------------------------ *)
(** ** Byte strings and the hashlib digests *)

Module Hashlib.

Local Open Scope Z_scope.

Definition mask32 : Z := Z.ones 32.
Definition add32 (a b : Z) : Z := Z.land (a + b) mask32.
Definition rotr32 (n x : Z) : Z :=
  Z.lor (Z.shiftr x n) (Z.land (Z.shiftl x (32 - n)) mask32).
Definition rotl32 (n x : Z) : Z := rotr32 (32 - n) x.
Definition not32 (x : Z) : Z := Z.lxor x mask32.

(** Big-endian encoding of [x] on [n] bytes. *)
Fixpoint be_bytes (n : nat) (x : Z) : list Z :=
  match n with
  | O => []
  | S k => be_bytes k (Z.shiftr x 8) ++ [Z.land x 255]
  end.

(** Message padding shared by SHA-1 and SHA-256 (FIPS 180-4, 5.1.1). *)
Definition pad (msg : list Z) : list Z :=
  let len := Z.of_nat (length msg) in
  let zeros := Z.to_nat ((55 - len) mod 64) in
  msg ++ [128] ++ repeat 0 zeros ++ be_bytes 8 (8 * len).

Fixpoint words_of (fuel : nat) (bs : list Z) : list Z :=
  match fuel, bs with
  | S f, b0 :: b1 :: b2 :: b3 :: rest =>
      (b0 * 16777216 + b1 * 65536 + b2 * 256 + b3) :: words_of f rest
  | _, _ => []
  end.

Fixpoint blocks_of (fuel : nat) (ws : list Z) : list (list Z) :=
  match fuel with
  | O => []
  | S f =>
      match ws with
      | [] => []
      | _ => firstn 16 ws :: blocks_of f (skipn 16 ws)
      end
  end.

Definition message_blocks (msg : list Z) : list (list Z) :=
  let p := pad msg in
  blocks_of (length p) (words_of (length p) p).

(** Message schedule: extend the 16 block words to [n] words with [f]. *)
Fixpoint schedule (k : nat) (f : list Z -> Z) (w : list Z) : list Z :=
  match k with
  | O => w
  | S k' => schedule k' f (w ++ [f w])
  end.

Definition sha256_K : list Z :=
  [ 1116352408; 1899447441; 3049323471; 3921009573; 961987163; 1508970993;
    2453635748; 2870763221; 3624381080; 310598401; 607225278; 1426881987;
    1925078388; 2162078206; 2614888103; 3248222580; 3835390401; 4022224774;
    264347078; 604807628; 770255983; 1249150122; 1555081692; 1996064986;
    2554220882; 2821834349; 2952996808; 3210313671; 3336571891; 3584528711;
    113926993; 338241895; 666307205; 773529912; 1294757372; 1396182291;
    1695183700; 1986661051; 2177026350; 2456956037; 2730485921; 2820302411;
    3259730800; 3345764771; 3516065817; 3600352804; 4094571909; 275423344;
    430227734; 506948616; 659060556; 883997877; 958139571; 1322822218;
    1537002063; 1747873779; 1955562222; 2024104815; 2227730452; 2361852424;
    2428436474; 2756734187; 3204031479; 3329325298 ].

Definition sha256_step (w : list Z) : Z :=
  let n := length w in
  let w2 := nth (n - 2) w 0 in
  let w7 := nth (n - 7) w 0 in
  let w15 := nth (n - 15) w 0 in
  let w16 := nth (n - 16) w 0 in
  let s0 := Z.lxor (Z.lxor (rotr32 7 w15) (rotr32 18 w15)) (Z.shiftr w15 3) in
  let s1 := Z.lxor (Z.lxor (rotr32 17 w2) (rotr32 19 w2)) (Z.shiftr w2 10) in
  add32 (add32 (add32 w16 s0) w7) s1.

Record regs := Regs { ra : Z; rb : Z; rc : Z; rd : Z; re : Z; rf : Z; rg : Z; rh : Z }.

Definition sha256_round (r : regs) (kw : Z * Z) : regs :=
  let '(k, w) := kw in
  let '(Regs a b c d e f g h) := r in
  let S1 := Z.lxor (Z.lxor (rotr32 6 e) (rotr32 11 e)) (rotr32 25 e) in
  let ch := Z.lxor (Z.land e f) (Z.land (not32 e) g) in
  let t1 := add32 (add32 (add32 (add32 h S1) ch) k) w in
  let S0 := Z.lxor (Z.lxor (rotr32 2 a) (rotr32 13 a)) (rotr32 22 a) in
  let maj := Z.lxor (Z.lxor (Z.land a b) (Z.land a c)) (Z.land b c) in
  let t2 := add32 S0 maj in
  Regs (add32 t1 t2) a b c (add32 d t1) e f g.

Definition regs_add (x y : regs) : regs :=
  Regs (add32 (ra x) (ra y)) (add32 (rb x) (rb y)) (add32 (rc x) (rc y))
       (add32 (rd x) (rd y)) (add32 (re x) (re y)) (add32 (rf x) (rf y))
       (add32 (rg x) (rg y)) (add32 (rh x) (rh y)).

Definition sha256_block (hv : regs) (blk : list Z) : regs :=
  let w := schedule 48 sha256_step blk in
  regs_add hv (fold_left sha256_round (combine sha256_K w) hv).

Definition sha256_H0 : regs :=
  Regs 0x6a09e667 0xbb67ae85 0x3c6ef372 0xa54ff53a
       0x510e527f 0x9b05688c 0x1f83d9ab 0x5be0cd19.

(** [hashlib.sha256(data).digest()] *)
Definition sha256 (msg : list Z) : list Z :=
  let '(Regs a b c d e f g h) := fold_left sha256_block (message_blocks msg) sha256_H0 in
  flat_map (be_bytes 4) [a; b; c; d; e; f; g; h].

(** SHA-1 (FIPS 180-4, 6.1), used by [uuid.uuid5]. *)
Definition sha1_step (w : list Z) : Z :=
  let n := length w in
  rotl32 1 (Z.lxor (Z.lxor (nth (n - 3) w 0) (nth (n - 8) w 0))
                   (Z.lxor (nth (n - 14) w 0) (nth (n - 16) w 0))).

Definition sha1_round (r : Z * Z * Z * Z * Z) (tw : nat * Z) : Z * Z * Z * Z * Z :=
  let '(t, w) := tw in
  let '(a, b, c, d, e) := r in
  let '(f, k) :=
    if (t <? 20)%nat then (Z.lor (Z.land b c) (Z.land (not32 b) d), 0x5a827999)
    else if (t <? 40)%nat then (Z.lxor (Z.lxor b c) d, 0x6ed9eba1)
    else if (t <? 60)%nat then
      (Z.lor (Z.lor (Z.land b c) (Z.land b d)) (Z.land c d), 0x8f1bbcdc)
    else (Z.lxor (Z.lxor b c) d, 0xca62c1d6) in
  let tmp := add32 (add32 (add32 (add32 (rotl32 5 a) f) e) k) w in
  (tmp, a, rotl32 30 b, c, d).

Definition sha1_block (hv : Z * Z * Z * Z * Z) (blk : list Z) : Z * Z * Z * Z * Z :=
  let w := schedule 64 sha1_step blk in
  let '(a, b, c, d, e) := fold_left sha1_round (combine (seq 0 80) w) hv in
  let '(h0, h1, h2, h3, h4) := hv in
  (add32 h0 a, add32 h1 b, add32 h2 c, add32 h3 d, add32 h4 e).

(** [hashlib.sha1(data).digest()] *)
Definition sha1 (msg : list Z) : list Z :=
  let '(a, b, c, d, e) :=
    fold_left sha1_block (message_blocks msg)
      (0x67452301, 0xefcdab89, 0x98badcfe, 0x10325476, 0xc3d2e1f0) in
  flat_map (be_bytes 4) [a; b; c; d; e].

Definition hex_digit (n : Z) : ascii :=
  if n <? 10 then ascii_of_nat (Z.to_nat (48 + n)) else ascii_of_nat (Z.to_nat (87 + n)).

(** Lower-case hexadecimal rendering, as [.hexdigest()]. *)
Fixpoint hex (bs : list Z) : string :=
  match bs with
  | [] => EmptyString
  | b :: rest => String (hex_digit (Z.shiftr b 4)) (String (hex_digit (Z.land b 15)) (hex rest))
  end.

(** [s.encode("utf-8")] for code points below 256. *)
Fixpoint utf8 (s : string) : list Z :=
  match s with
  | EmptyString => []
  | String c rest =>
      let n := Z.of_nat (nat_of_ascii c) in
      (if n <? 128 then [n] else [Z.lor 192 (Z.shiftr n 6); Z.lor 128 (Z.land n 63)])
        ++ utf8 rest
  end.

Definition sha256_hexdigest (s : string) : string := hex (sha256 (utf8 s)).

End Hashlib.





(* ------------------------------------------------------------------ *)
(** ** JSON values, Python's [str()] and [json.dumps] *)

Module Json.

Local Open Scope Z_scope.

(** A decoded JSON document as the services hold it: a Python dict is an
    association list in insertion order with distinct keys. *)
Inductive json : Type :=
  | JNull
  | JBool (b : bool)
  | JInt (z : Z)
  | JStr (s : string)
  | JList (l : list json)
  | JObj (kv : list (string * json)).

Definition code (c : ascii) : Z := Z.of_nat (nat_of_ascii c).
Definition chr (n : Z) : ascii := ascii_of_nat (Z.to_nat n).

(** Code-point order on strings, Python's [<] on [str]. *)
Fixpoint str_ltb (s t : string) : bool :=
  match s, t with
  | EmptyString, String _ _ => true
  | String c s', String d t' =>
      if code c <? code d then true else if code d <? code c then false else str_ltb s' t'
  | _, EmptyString => false
  end.

Fixpoint insert_by_key {A} (kv : string * A) (l : list (string * A)) : list (string * A) :=
  match l with
  | [] => [kv]
  | kv' :: rest => if str_ltb (fst kv') (fst kv) then kv' :: insert_by_key kv rest else kv :: l
  end.

(** [sorted(d.items())] *)
Definition sort_items {A} (l : list (string * A)) : list (string * A) :=
  fold_right insert_by_key [] l.

Fixpoint digits (fuel : nat) (n : Z) (acc : string) : string :=
  match fuel with
  | O => acc
  | S f =>
      let acc' := String (chr (48 + n mod 10)) acc in
      if n <? 10 then acc' else digits f (n / 10) acc'
  end.

(** [str(n)] for a Python [int]. *)
Definition int_str (n : Z) : string :=
  if n <? 0 then "-" ++ digits (Z.to_nat (Z.log2_up (- n) + 2)) (- n) ""
  else digits (Z.to_nat (Z.log2_up n + 2)) n "".

Definition hex4 (n : Z) : string :=
  String (Hashlib.hex_digit (Z.land (Z.shiftr n 12) 15))
    (String (Hashlib.hex_digit (Z.land (Z.shiftr n 8) 15))
      (String (Hashlib.hex_digit (Z.land (Z.shiftr n 4) 15))
        (String (Hashlib.hex_digit (Z.land n 15)) EmptyString))).

(** The double quote character. *)
Definition dq : string := String (ascii_of_nat 34) EmptyString.

(** [json.encoder.py_encode_basestring_ascii] without the quotes: every
    character outside [' '..'~'] is escaped. *)
Fixpoint escape_ascii (s : string) : string :=
  match s with
  | EmptyString => EmptyString
  | String c rest =>
      let n := code c in
      let e :=
        if n =? 92 then "\\" else if n =? 34 then "\" ++ dq
        else if n =? 8 then "\b" else if n =? 12 then "\f"
        else if n =? 10 then "\n" else if n =? 13 then "\r"
        else if n =? 9 then "\t"
        else if (32 <=? n) && (n <=? 126) then String c EmptyString
        else "\u" ++ hex4 n in
      e ++ escape_ascii rest
  end.

Definition quote (s : string) : string := dq ++ escape_ascii s ++ dq.

Fixpoint join (sep : string) (l : list string) : string :=
  match l with
  | [] => ""
  | [x] => x
  | x :: rest => x ++ sep ++ join sep rest
  end.

(** [json.dumps(v, sort_keys=sk, separators=(isep, ksep))] *)
Fixpoint dumps (sk : bool) (isep ksep : string) (v : json) : string :=
  match v with
  | JNull => "null"
  | JBool true => "true"
  | JBool false => "false"
  | JInt z => int_str z
  | JStr s => quote s
  | JList l =>
      let fix items (l : list json) : string :=
        match l with
        | [] => ""
        | [x] => dumps sk isep ksep x
        | x :: rest => dumps sk isep ksep x ++ isep ++ items rest
        end in
      "[" ++ items l ++ "]"
  | JObj kv =>
      let fix members (kv : list (string * json)) : list (string * string) :=
        match kv with
        | [] => []
        | (k, x) :: rest => (k, dumps sk isep ksep x) :: members rest
        end in
      let items := if sk then sort_items (members kv) else members kv in
      "{" ++ join isep (map (fun kx => quote (fst kx) ++ ksep ++ snd kx) items) ++ "}"
  end.

(** [json.dumps(v, sort_keys=True, separators=(",", ":"))], the canonical
    form used by the gateway and the projector SDK. *)
Definition canonical (v : json) : string := dumps true "," ":" v.

(** [json.dumps(v)] and [json.dumps(v, sort_keys=True)]: default separators. *)
Definition dumps_default (v : json) : string := dumps false ", " ": " v.
Definition dumps_sorted (v : json) : string := dumps true ", " ": " v.

(** Python's [repr] of a [str]. *)
Definition printable (n : Z) : bool :=
  ((32 <=? n) && (n <=? 126)) || ((161 <=? n) && negb (n =? 173)).

Fixpoint repr_body (q : Z) (s : string) : string :=
  match s with
  | EmptyString => EmptyString
  | String c rest =>
      let n := code c in
      let e :=
        if n =? 92 then "\\" else if n =? q then String "\"%char (String c EmptyString)
        else if n =? 10 then "\n" else if n =? 13 then "\r"
        else if n =? 9 then "\t"
        else if printable n then String c EmptyString
        else "\x" ++ String (Hashlib.hex_digit (n / 16)) (String (Hashlib.hex_digit (n mod 16)) EmptyString) in
      e ++ repr_body q rest
  end.

Fixpoint has_code (n : Z) (s : string) : bool :=
  match s with
  | EmptyString => false
  | String c rest => (code c =? n) || has_code n rest
  end.

Definition str_repr (s : string) : string :=
  if has_code 39 s && negb (has_code 34 s)
  then dq ++ repr_body 34 s ++ dq
  else "'" ++ repr_body 39 s ++ "'".

Fixpoint repr (v : json) : string :=
  match v with
  | JNull => "None"
  | JBool true => "True"
  | JBool false => "False"
  | JInt z => int_str z
  | JStr s => str_repr s
  | JList l =>
      let fix items (l : list json) : string :=
        match l with
        | [] => ""
        | [x] => repr x
        | x :: rest => repr x ++ ", " ++ items rest
        end in
      "[" ++ items l ++ "]"
  | JObj kv =>
      let fix members (kv : list (string * json)) : string :=
        match kv with
        | [] => ""
        | [(k, x)] => str_repr k ++ ": " ++ repr x
        | (k, x) :: rest => str_repr k ++ ": " ++ repr x ++ ", " ++ members rest
        end in
      "{" ++ members kv ++ "}"
  end.

(** [str(v)], as used by f-strings. *)
Definition py_str (v : json) : string :=
  match v with
  | JStr s => s
  | _ => repr v
  end.

(** Python's [==] on decoded JSON values (dicts compare as sets of items). *)
Fixpoint json_eqb (a b : json) : bool :=
  let fix list_eqb (l1 l2 : list json) : bool :=
    match l1, l2 with
    | [], [] => true
    | x :: r1, y :: r2 => json_eqb x y && list_eqb r1 r2
    | _, _ => false
    end in
  let fix lookup_eqb (k : string) (v : json) (kv : list (string * json)) : bool :=
    match kv with
    | [] => false
    | (k', v') :: rest => if String.eqb k k' then json_eqb v v' else lookup_eqb k v rest
    end in
  let fix sub_eqb (kv1 : list (string * json)) (kv2 : list (string * json)) : bool :=
    match kv1 with
    | [] => true
    | (k, v) :: rest => lookup_eqb k v kv2 && sub_eqb rest kv2
    end in
  match a, b with
  | JNull, JNull => true
  | JBool x, JBool y => Bool.eqb x y
  | JInt x, JInt y => Z.eqb x y
  | JStr x, JStr y => String.eqb x y
  | JList l1, JList l2 => list_eqb l1 l2
  | JObj kv1, JObj kv2 => (length kv1 =? length kv2)%nat && sub_eqb kv1 kv2
  | _, _ => false
  end.

(** Truthiness of a decoded JSON value. *)
Definition truthy (v : json) : bool :=
  match v with
  | JNull => false
  | JBool b => b
  | JInt z => negb (z =? 0)
  | JStr s => negb (String.eqb s "")
  | JList l => negb (length l =? 0)%nat
  | JObj kv => negb (length kv =? 0)%nat
  end.

Fixpoint assoc (k : string) (kv : list (string * json)) : option json :=
  match kv with
  | [] => None
  | (k', v) :: rest => if String.eqb k k' then Some v else assoc k rest
  end.

(** [d[k] = v]: in place when the key exists, appended otherwise. *)
Fixpoint set_key (k : string) (v : json) (kv : list (string * json)) : list (string * json) :=
  match kv with
  | [] => [(k, v)]
  | (k', v') :: rest => if String.eqb k k' then (k', v) :: rest else (k', v') :: set_key k v rest
  end.

(** PostgreSQL's [jsonb] order of object keys: shorter keys first, keys of
    the same length bytewise. *)
Definition jsonb_key_ltb (a b : string) : bool :=
  (String.length a <? String.length b)%nat
  || ((String.length a =? String.length b)%nat && str_ltb a b).

(** Adding a member to a [jsonb] object: a repeated key keeps the last value. *)
Fixpoint jsonb_insert (kv : string * json) (l : list (string * json)) : list (string * json) :=
  match l with
  | [] => [kv]
  | kv' :: rest =>
      if String.eqb (fst kv') (fst kv) then kv :: rest
      else if jsonb_key_ltb (fst kv') (fst kv) then kv' :: jsonb_insert kv rest
      else kv :: l
  end.

(** A JSON text stored in a [jsonb] column and read back with [json.loads]. *)
Fixpoint jsonb (v : json) : json :=
  match v with
  | JList l =>
      let fix items (l : list json) : list json :=
        match l with
        | [] => []
        | x :: rest => jsonb x :: items rest
        end in
      JList (items l)
  | JObj kv =>
      let fix members (kv : list (string * json)) : list (string * json) :=
        match kv with
        | [] => []
        | (k, x) :: rest => (k, jsonb x) :: members rest
        end in
      JObj (fold_left (fun acc kx => jsonb_insert kx acc) (members kv) [])
  | _ => v
  end.

(** [{**base, **extra}]: a key of [extra] already in [base] keeps its place
    and takes the new value, the others are appended in order. *)
Definition dict_merge (base extra : list (string * json)) : list (string * json) :=
  fold_left (fun acc kx => set_key (fst kx) (snd kx) acc) extra base.

End Json.

Export Json.


(* ------------------------------------------------------------------ *)
(** ** Python string helpers *)

Module Py.

Local Open Scope Z_scope.

(** [c.isspace()] for code points below 256. *)
Definition isspace (c : ascii) : bool :=
  let n := code c in
  ((9 <=? n) && (n <=? 13)) || ((28 <=? n) && (n <=? 32)) || (n =? 133) || (n =? 160).

Fixpoint lstrip (s : string) : string :=
  match s with
  | String c rest => if isspace c then lstrip rest else s
  | EmptyString => EmptyString
  end.

Definition rstrip (s : string) : string :=
  string_of_list_ascii (rev (list_ascii_of_string (lstrip (string_of_list_ascii (rev (list_ascii_of_string s)))))).

(** [s.strip()] *)
Definition strip (s : string) : string := rstrip (lstrip s).

(** [c.lower()] for code points below 256. *)
Definition lower_char (c : ascii) : ascii :=
  let n := code c in
  if ((65 <=? n) && (n <=? 90)) || ((192 <=? n) && (n <=? 222) && negb (n =? 215))
  then chr (n + 32) else c.

Fixpoint lower (s : string) : string :=
  match s with
  | EmptyString => EmptyString
  | String c rest => String (lower_char c) (lower rest)
  end.

(** [sub in s] for strings. *)
Fixpoint contains (sub s : string) : bool :=
  match s with
  | EmptyString => String.eqb sub ""
  | String _ rest => String.prefix sub s || contains sub rest
  end.

Definition is_hex (c : ascii) : bool :=
  let n := code c in
  ((48 <=? n) && (n <=? 57)) || ((97 <=? n) && (n <=? 102)) || ((65 <=? n) && (n <=? 70)).

Fixpoint drop_char (d : Z) (s : string) : string :=
  match s with
  | EmptyString => EmptyString
  | String c rest => if code c =? d then drop_char d rest else String c (drop_char d rest)
  end.

(** [s.replace(pat, "")] *)
Fixpoint remove_all (fuel : nat) (pat s : string) : string :=
  match fuel, s with
  | O, _ => s
  | _, EmptyString => EmptyString
  | S f, String c rest =>
      if String.prefix pat s && negb (String.eqb pat "")
      then remove_all f pat (substring (String.length pat) (String.length s) s)
      else String c (remove_all f pat rest)
  end.

Fixpoint strip_braces_l (s : string) : string :=
  match s with
  | String c rest => if (code c =? 123) || (code c =? 125) then strip_braces_l rest else s
  | EmptyString => EmptyString
  end.

Definition strip_braces (s : string) : string :=
  string_of_list_ascii (rev (list_ascii_of_string
    (strip_braces_l (string_of_list_ascii (rev (list_ascii_of_string (strip_braces_l s))))))).

Fixpoint all_hex (s : string) : bool :=
  match s with
  | EmptyString => true
  | String c rest => is_hex c && all_hex rest
  end.

(** [str(uuid.UUID(s))] on the hexadecimal spellings [uuid.UUID] accepts:
    [urn:]/[uuid:] prefixes, surrounding braces and hyphens removed, then 32
    hexadecimal digits (the sign, [0x] and underscore spellings that
    [int(hex, 16)] would also take are not accepted here). *)
Definition uuid_parse (s : string) : option string :=
  let h := drop_char 45 (strip_braces
             (remove_all (String.length s) "uuid:" (remove_all (String.length s) "urn:" s))) in
  if (String.length h =? 32)%nat && all_hex h then
    let h := lower h in
    Some (substring 0 8 h ++ "-" ++ substring 8 4 h ++ "-" ++ substring 12 4 h ++ "-"
          ++ substring 16 4 h ++ "-" ++ substring 20 12 h)
  else None.

End Py.


(* ------------------------------------------------------------------ *)
(** ** Gateway: header validation, envelope rules and event persistence
    (services/gateway/{models,validation,persistence,main}.py) *)

Module Gateway.

Local Open Scope Z_scope.

(** [models.EventEnvelope] after pydantic parsing (its validators on
    [world_id], [by] and [occurred_at] have run when the request was decoded). *)
Record EventEnvelope := {
  world_id : string;
  branch : string;
  kind : string;
  payload : list (string * json);
  by_ : list (string * json);
  version : Z;
  occurred_at : option string;
  causation_id : option string }.

Definition opt_str (o : option string) : json :=
  match o with Some s => JStr s | None => JNull end.

(** [envelope.dict()], fields in declaration order. *)
Definition envelope_dict (e : EventEnvelope) : list (string * json) :=
  [("world_id", JStr (world_id e)); ("branch", JStr (branch e)); ("kind", JStr (kind e));
   ("payload", JObj (payload e)); ("by", JObj (by_ e)); ("version", JInt (version e));
   ("occurred_at", opt_str (occurred_at e)); ("causation_id", opt_str (causation_id e))].

Inductive GatewayError :=
  | ValidationError (msg : string)
  | ConflictError (msg : string)
  | InternalError (msg : string).

Record Headers := { idempotency_key : option string; correlation_id : string }.

Definition truthy_opt (o : option string) : bool :=
  match o with Some s => negb (String.eqb s "") | None => false end.

(** [EventValidationMiddleware.validate_headers]; [fresh] is the value
    [str(uuid.uuid4())] would produce. *)
Definition validate_headers (idem corr : option string) (fresh : string)
  : GatewayError + Headers :=
  if truthy_opt idem && (String.length (Py.strip (default "" idem)) =? 0)%nat
  then inl (ValidationError "Idempotency-Key cannot be empty string")
  else if truthy_opt corr && negb (bool_decide (is_Some (Py.uuid_parse (default "" corr))))
  then inl (ValidationError "X-Correlation-Id must be valid UUID format")
  else inr {| idempotency_key := if truthy_opt idem then Some (Py.strip (default "" idem)) else None;
              correlation_id := if truthy_opt corr then default "" corr else fresh |}.

(** [re.match(r"^[a-zA-Z0-9_-]+$", s)]: [$] also matches before a final newline. *)
Definition branch_char (c : ascii) : bool :=
  let n := code c in
  ((48 <=? n) && (n <=? 57)) || ((65 <=? n) && (n <=? 90)) || ((97 <=? n) && (n <=? 122))
  || (n =? 95) || (n =? 45).

Fixpoint all_branch_chars (s : string) : bool :=
  match s with
  | EmptyString => true
  | String c rest => branch_char c && all_branch_chars rest
  end.

Definition branch_matches (s : string) : bool :=
  let l := list_ascii_of_string s in
  let body := match rev l with
              | c :: r => if code c =? 10 then string_of_list_ascii (rev r) else s
              | [] => s
              end in
  negb (String.eqb body "") && all_branch_chars body.

Fixpoint count_dots (s : string) : nat :=
  match s with
  | EmptyString => O
  | String c rest => Nat.add (if code c =? 46 then 1%nat else 0%nat) (count_dots rest)
  end.

Fixpoint split_dot (s : string) : string * string :=
  match s with
  | EmptyString => ("", "")
  | String c rest =>
      if code c =? 46 then ("", rest)
      else let '(a, b) := split_dot rest in (String c a, b)
  end.

(** [EventValidationMiddleware._validate_business_rules], whose exceptions
    [validate_envelope] turns into [ValidationError]. *)
Definition validate_business_rules (e : EventEnvelope) : option string :=
  if negb (branch_matches (branch e)) then Some "Branch name must be alphanumeric with hyphens/underscores"
  else if negb (count_dots (kind e) =? 1)%nat then Some "Event kind must be in format 'category.action'"
  else if (length (payload e) =? 0)%nat then Some "Event payload cannot be empty"
  else if (version e <? 1) || (2 <? version e) then Some "Event envelope version must be 1 or 2"
  else if (100 <? Z.of_nat (String.length (branch e))) then Some "Branch name cannot exceed 100 characters"
  else let '(category, action) := split_dot (kind e) in
  if String.eqb category "" || String.eqb action "" then Some "Event kind category and action cannot be empty"
  else match assoc "agent" (by_ e) with
       | None | Some JNull => Some "Audit agent cannot be empty"
       | Some (JStr a) => if (String.length (Py.strip a) =? 0)%nat then Some "Audit agent cannot be empty" else None
       | Some v => if truthy v then Some "'agent' has no attribute 'strip'" else Some "Audit agent cannot be empty"
       end.

Definition validate_envelope (e : EventEnvelope) : GatewayError + EventEnvelope :=
  match validate_business_rules e with
  | Some m => inl (ValidationError ("Envelope validation failed: " ++ m))
  | None => inr e
  end.

(** A row of [event_core.event_log]. *)
Record LogRow := {
  lr_global_seq : Z;
  lr_event_id : string;
  lr_world_id : string;
  lr_branch : string;
  lr_kind : string;
  lr_envelope : json;
  lr_idempotency_key : option string }.

Record Store := { event_log : list LogRow; outbox : list Z; next_seq : Z }.

(** Modelled from the spec: [event_core.insert_event_with_outbox], the SQL
    function of the event store (C1) that is not among the Python sources:
    in one transaction it takes the next value of the monotonic sequence as
    [global_seq], appends the log row and the outbox row, and returns it. *)
Definition insert_event_with_outbox (st : Store) (w b eid k : string) (env : json)
  (idem : option string) : Z * Store :=
  let seq := next_seq st in
  (seq, {| event_log := (event_log st ++ [{| lr_global_seq := seq; lr_event_id := eid;
             lr_world_id := w; lr_branch := b; lr_kind := k; lr_envelope := env;
             lr_idempotency_key := idem |}])%list;
           outbox := (outbox st ++ [seq])%list; next_seq := seq + 1 |}).

(** [EventPersistence._compute_payload_hash] *)
Definition compute_payload_hash (env : list (string * json)) : string :=
  Hashlib.sha256_hexdigest (canonical (JObj env)).

(** [EventPersistence._check_idempotency] *)
Definition check_idempotency (st : Store) (w b k : string) : option LogRow :=
  List.find (fun r => String.eqb (lr_world_id r) w && String.eqb (lr_branch r) b
                      && bool_decide (lr_idempotency_key r = Some k)) (event_log st).

(** The enriched envelope of [store_event]: [received_at] is set first,
    then [payload_hash] is computed over the dict as it is at that point. *)
Definition enrich (e : EventEnvelope) (received_at : string) : list (string * json) :=
  let d := (envelope_dict e ++ [("received_at", JStr received_at)])%list in
  (d ++ [("payload_hash", JStr (compute_payload_hash d))])%list.

Record Stored := { st_event_id : string; st_global_seq : Z; st_received_at : string }.

(** [EventPersistence.store_event]; [now] is [datetime.utcnow().isoformat() + "Z"]
    and [eid] the value of [uuid.uuid4()]. *)
Definition store_event (st : Store) (e : EventEnvelope) (h : Headers) (now eid : string)
  : (GatewayError + Stored) * Store :=
  let enriched := enrich e now in
  match Py.uuid_parse (world_id e) with
  | None => (inl (InternalError "badly formed hexadecimal UUID string"), st)
  | Some w =>
      let conflict :=
        match idempotency_key h with
        | Some k => if truthy_opt (Some k) then check_idempotency st w (branch e) k else None
        | None => None
        end in
      match conflict with
      | Some _ => (inl (ConflictError ("Duplicate idempotency key: " ++ default "" (idempotency_key h))), st)
      | None =>
          let '(seq, st') := insert_event_with_outbox st w (branch e) eid (kind e)
                                (JObj enriched) (idempotency_key h) in
          (inr {| st_event_id := eid; st_global_seq := seq; st_received_at := now |}, st')
      end
  end.

Inductive Response :=
  | Accepted (event_id : string) (global_seq : Z) (received_at : string) (correlation_id : string)
  | ErrorResponse (status : Z) (code message correlation_id : string).

(** [create_event], the [POST /v1/events] handler; [fresh_corr] and
    [fresh_eid] are the values of the two [uuid.uuid4()] calls. *)
Definition create_event (st : Store) (e : EventEnvelope) (idem corr : option string)
  (fresh_corr now fresh_eid : string) : Response * Store :=
  let correlation := if truthy_opt corr then default "" corr else fresh_corr in
  let fail err st :=
    match err with
    | ConflictError m => (ErrorResponse 409 "idempotency_conflict" m correlation, st)
    | ValidationError m => (ErrorResponse 400 "validation_error" m correlation, st)
    | InternalError _ => (ErrorResponse 500 "internal_error" "Internal server error" correlation, st)
    end in
  match validate_headers idem (Some correlation) fresh_corr with
  | inl err => fail err st
  | inr h =>
      match validate_envelope e with
      | inl err => fail err st
      | inr e' =>
          match store_event st e' h now fresh_eid with
          | (inl err, st') => fail err st'
          | (inr r, st') =>
              (Accepted (st_event_id r) (st_global_seq r) (st_received_at r) correlation, st')
          end
      end
  end.

(** [RequestValidator.validate_pagination_params] *)
Definition validate_pagination_params (after_global_seq : option Z) (limit : Z)
  : GatewayError + (option Z * Z) :=
  if limit <=? 0 then inl (ValidationError "Limit must be positive integer")
  else if 1000 <? limit then inl (ValidationError "Limit cannot exceed 1000")
  else if match after_global_seq with Some a => a <? 0 | None => false end
  then inl (ValidationError "after_global_seq must be non-negative")
  else inr (after_global_seq, Z.min limit 1000).

(** [RequestValidator.validate_world_id]: the string itself when [uuid.UUID]
    accepts it. *)
Definition validate_world_id (world_id : string) : GatewayError + string :=
  if bool_decide (is_Some (Py.uuid_parse world_id)) then inr world_id
  else inl (ValidationError "world_id must be a valid UUID").

(** [RequestValidator.validate_event_id] *)
Definition validate_event_id (event_id : string) : GatewayError + string :=
  if bool_decide (is_Some (Py.uuid_parse event_id)) then inr event_id
  else inl (ValidationError "event_id must be a valid UUID").

(** The read side of [EventPersistence]. *)
Module Persistence.

Section Reads.

(** [row["received_at"].isoformat()], the timestamp column the database
    sets for a row. *)
Variable received_at_col : LogRow -> string.

(** [ORDER BY global_seq] *)
Fixpoint insert_by_seq (r : LogRow) (l : list LogRow) : list LogRow :=
  match l with
  | [] => [r]
  | r' :: rest => if lr_global_seq r' <=? lr_global_seq r then r' :: insert_by_seq r rest else r :: l
  end.

Definition order_by_seq (l : list LogRow) : list LogRow := fold_right insert_by_seq [] l.

(** The dict [list_events] and [get_event_by_id] build from a row:
    the row's columns, then [**json.loads(row["envelope"])]. *)
Definition row_item (r : LogRow) : string + list (string * json) :=
  match jsonb (lr_envelope r) with
  | JObj kv =>
      inr (dict_merge [("event_id", JStr (lr_event_id r)); ("world_id", JStr (lr_world_id r));
                       ("branch", JStr (lr_branch r)); ("kind", JStr (lr_kind r));
                       ("global_seq", JInt (lr_global_seq r));
                       ("received_at", JStr (received_at_col r ++ "Z"))] kv)
  | _ => inl "argument after ** must be a mapping"
  end.

Fixpoint row_items (rs : list LogRow) : string + list (list (string * json)) :=
  match rs with
  | [] => inr []
  | r :: rest =>
      match row_item r with
      | inl e => inl e
      | inr d => match row_items rest with inl e => inl e | inr ds => inr (d :: ds) end
      end
  end.

(** The rows the query of [list_events] selects, in the order it returns them. *)
Definition select_events (st : Store) (w branch : string) (kind : option string)
    (after_global_seq : option Z) (limit : Z) : list LogRow :=
  firstn (Z.to_nat limit) (order_by_seq (filter (fun r =>
    String.eqb (lr_world_id r) w && String.eqb (lr_branch r) branch
    && (if truthy_opt kind then String.eqb (lr_kind r) (default "" kind) else true)
    && (match after_global_seq with
        | Some a => if a =? 0 then true else a <? lr_global_seq r
        | None => true
        end)) (event_log st))).

(** [EventPersistence.list_events]: [if kind:] and [if after_global_seq:]
    add their conditions only for truthy values. *)
Definition list_events (st : Store) (world_id branch : string) (kind : option string)
    (after_global_seq : option Z) (limit : Z) : string + list (list (string * json)) :=
  match Py.uuid_parse world_id with
  | None => inl "badly formed hexadecimal UUID string"
  | Some w =>
      if limit <? 0 then inl "LIMIT must not be negative"
      else row_items (select_events st w branch kind after_global_seq limit)
  end.

(** [EventPersistence.get_event_by_id] *)
Definition get_event_by_id (st : Store) (event_id : string)
    : string + option (list (string * json)) :=
  match Py.uuid_parse event_id with
  | None => inl "badly formed hexadecimal UUID string"
  | Some u =>
      match List.find (fun r => String.eqb (lr_event_id r) u) (event_log st) with
      | None => inr None
      | Some r => match row_item r with inl e => inl e | inr d => inr (Some d) end
      end
  end.

End Reads.

End Persistence.

(** What a route hands back: a body, or an [HTTPException(status, detail)]. *)
Inductive Reply :=
  | Ok (body : json)
  | HttpException (status : Z) (detail : json).

Section Routes.

Variable received_at_col : LogRow -> string.

(** [list_events], the [GET /v1/events] handler. *)
Definition list_events (st : Store) (world_id branch : string) (kind : option string)
    (after_global_seq : option Z) (limit : Z) : Reply :=
  let fail (err : GatewayError) :=
    match err with
    | ValidationError m => HttpException 400 (JStr m)
    | _ => HttpException 500 (JStr "Internal server error")
    end in
  match validate_world_id world_id with
  | inl err => fail err
  | inr _ =>
      match validate_pagination_params after_global_seq limit with
      | inl err => fail err
      | inr (after, lim) =>
          match Persistence.list_events received_at_col st world_id branch kind after lim with
          | inl _ => HttpException 500 (JStr "Internal server error")
          | inr events =>
              let next := match last events with
                          | None => inr JNull
                          | Some d => match assoc "global_seq" d with
                                 | Some v => inr v
                                 | None => inl "'global_seq'"
                                 end
                          end in
              match next with
              | inl _ => HttpException 500 (JStr "Internal server error")
              | inr n =>
                  Ok (JObj [("items", JList (map JObj events)); ("next_after_global_seq", n);
                            ("has_more", JBool (Z.of_nat (length events) =? lim))])
              end
          end
      end
  end.

(** [get_event], the [GET /v1/events/{event_id}] handler. *)
Definition get_event (st : Store) (event_id : string) : Reply :=
  match validate_event_id event_id with
  | inl (ValidationError m) => HttpException 400 (JStr m)
  | inl _ => HttpException 500 (JStr "Internal server error")
  | inr _ =>
      match Persistence.get_event_by_id received_at_col st event_id with
      | inl _ => HttpException 500 (JStr "Internal server error")
      | inr None => HttpException 404 (JStr "Event not found")
      | inr (Some d) => if truthy (JObj d) then Ok (JObj d) else HttpException 404 (JStr "Event not found")
      end
  end.

End Routes.

(** [http_exception_handler]: the JSON body of an [HTTPException].
    [getattr] on a dict looks up attributes, not keys, so for a dict detail
    the three [getattr] calls give their defaults, the same values as the
    other branch gives. *)
Definition http_exception_handler (status : Z) (detail : json) : Z * json :=
  match detail with
  | JObj _ => (status, JObj [("code", JStr "http_error"); ("message", JStr (py_str detail));
                             ("correlation_id", JNull)])
  | _ => (status, JObj [("code", JStr "http_error"); ("message", JStr (py_str detail));
                        ("correlation_id", JNull)])
  end.

(** The HTTP answer of [POST /v1/events]: the [EventAccepted] body with the
    route's default status 200, or the [HTTPException] [create_event] raises
    with its [detail] dict, rendered by [http_exception_handler]. *)
Definition create_event_http (r : Response) : Z * json :=
  match r with
  | Accepted eid seq ra corr =>
      (200, JObj [("event_id", JStr eid); ("global_seq", JInt seq); ("received_at", JStr ra);
                  ("correlation_id", JStr corr)])
  | ErrorResponse status c m corr =>
      http_exception_handler status (JObj [("code", JStr c); ("message", JStr m);
                                           ("correlation_id", JStr corr)])
  end.

End Gateway.

(* ------------------------------------------------------------------ *)
(** ** Effects: state passing with Python exceptions

    A handler runs against the database state [S] and either returns or
    raises an exception (its message); writes done before the exception
    stay, as each [conn.execute] of the handlers commits on its own. *)

Module Eff.

Definition M (S A : Type) : Type := S -> (string + A) * S.

Definition ret {S A} (a : A) : M S A := fun s => (inr a, s).
Definition raise {S A} (msg : string) : M S A := fun s => (inl msg, s).
Definition bind {S A B} (m : M S A) (k : A -> M S B) : M S B :=
  fun s => match m s with
           | (inl e, s') => (inl e, s')
           | (inr a, s') => k a s'
           end.
Definition get {S} : M S S := fun s => (inr s, s).
Definition put {S} (s : S) : M S unit := fun _ => (inr tt, s).
Definition modify {S} (f : S -> S) : M S unit := fun s => (inr tt, f s).

(** [try: m except Exception as e: h(str(e))] *)
Definition catch {S A} (m : M S A) (h : string -> M S A) : M S A :=
  fun s => match m s with
           | (inl e, s') => h e s'
           | r => r
           end.

(** Run a computation on one component of a larger state. *)
Definition focus {S T A} (getf : T -> S) (setf : S -> T -> T) (m : M S A) : M T A :=
  fun t => let '(r, s') := m (getf t) in (r, setf s' t).

End Eff.

Notation "'let*' x ':=' m 'in' k" := (Eff.bind m (fun x => k))
  (at level 200, x pattern, m at level 100, k at level 200).

(** Python dictionary access on decoded JSON. *)
Module Dict.

(** [d[k]] *)
Definition getitem {S} (d : json) (k : string) : Eff.M S json :=
  match d with
  | JObj kv => match assoc k kv with
               | Some v => Eff.ret v
               | None => Eff.raise ("'" ++ k ++ "'")
               end
  | JList _ => Eff.raise "list indices must be integers or slices, not str"
  | JStr _ => Eff.raise "string indices must be integers, not 'str'"
  | _ => Eff.raise "object is not subscriptable"
  end.

(** [d.get(k, default)] *)
Definition get {S} (d : json) (k : string) (dflt : json) : Eff.M S json :=
  match d with
  | JObj kv => Eff.ret (default dflt (assoc k kv))
  | _ => Eff.raise "object has no attribute 'get'"
  end.

(** A value used where a [str] method is called. *)
Definition as_str {S} (v : json) : Eff.M S string :=
  match v with
  | JStr s => Eff.ret s
  | _ => Eff.raise "object has no attribute of str"
  end.

End Dict.

(* ------------------------------------------------------------------ *)
(** ** Tenancy (services/common/tenancy.py) *)

Module Tenancy.

(** A Python value passed to asyncpg as a query argument, where it is not a
    decoded JSON value: a [str] or a [uuid.UUID] object. *)
Inductive pyarg :=
  | PyStr (s : string)
  | PyUUID (u : string).

(** asyncpg's encoder for a [text] parameter: only a [str] is accepted; any
    other object makes [execute] raise [DataError] before the statement runs. *)
Definition encode_text (n : string) (a : pyarg) : string + string :=
  match a with
  | PyStr s => inr s
  | PyUUID _ => inl ("invalid input for query argument $" ++ n ++ " (expected str, got UUID)")
  end.

(** [TenancyManager.set_world_context]: [SELECT set_config('app.world_id', $1,
    false)], whose [$1] is [set_config]'s [text] argument; an exception is
    logged and re-raised. The setting lives on the pooled connection and
    changes nothing a lens holds. *)
Definition set_world_context {S} (world_id : pyarg) : Eff.M S unit :=
  match encode_text "1" world_id with
  | inl e => Eff.raise e
  | inr _ => Eff.ret tt
  end.

End Tenancy.

(* ------------------------------------------------------------------ *)
(** ** Projector SDK (projectors/sdk/projector.py) *)

Module ProjectorSDK.

Local Open Scope Z_scope.

(** [EventPayload], the body the CDC publisher posts to [/events]. *)
Record EventPayload := {
  global_seq : Z;
  event_id : string;
  envelope : list (string * json);
  payload_hash : option string }.

Inductive EventResponse :=
  | Processed (global_seq : Z)
  | HttpError (status : Z) (detail : string).

(** [ProjectorSDK._verify_payload_hash] *)
Definition verify_payload_hash (env : list (string * json)) (expected_hash : string) : bool :=
  let canonical_envelope :=
    filter (fun kv => negb (String.eqb (fst kv) "received_at" || String.eqb (fst kv) "payload_hash")) env in
  String.eqb (Hashlib.sha256_hexdigest (canonical (JObj canonical_envelope))) expected_hash.

(** [event_core.projector_watermarks]: (projector_name, world_id, branch) -> last_processed_seq. *)
Abbreviation Watermarks := (gmap (string * string * string) Z).

(** [ProjectorSDK.set_watermark]: [INSERT ... ON CONFLICT DO UPDATE SET
    last_processed_seq = EXCLUDED.last_processed_seq]. *)
Definition set_watermark (wm : Watermarks) (name world_id branch : string) (seq : Z) : Watermarks :=
  <[(name, world_id, branch) := seq]> wm.

(** [ProjectorSDK.get_watermark]: [result or 0]. *)
Definition get_watermark (wm : Watermarks) (name world_id branch : string) : Z :=
  default 0 (wm !! (name, world_id, branch)).

(** [ProjectorSDK.compute_state_hash] over the snapshot [_get_state_snapshot] returned. *)
Definition compute_state_hash (state_data : json) : string :=
  Hashlib.sha256_hexdigest (canonical state_data).

Section Reception.

Context {L : Type}.
(** The projector's [name] and its [apply] on the lens state [L]. *)
Variable name : string.
Variable apply : list (string * json) -> Z -> Eff.M L unit.
(** [TenancyManager is not None and self.db_pool is not None]: the import of
    [services.common.tenancy] succeeded and the pool is open. *)
Variable tenancy_manager : bool.

Record PState := { lens : L; watermarks : Watermarks }.

Definition set_lens (l : L) (p : PState) : PState := {| lens := l; watermarks := watermarks p |}.

Definition receive_body (ev : EventPayload) : Eff.M PState EventResponse :=
  let env := JObj (envelope ev) in
  let* _ := (if Gateway.truthy_opt (payload_hash ev)
             then if verify_payload_hash (envelope ev) (default "" (payload_hash ev))
                  then Eff.ret tt else Eff.raise "400: Payload hash mismatch"
             else Eff.ret tt) in
  let* w := Dict.getitem env "world_id" in
  let* ws := Dict.as_str w in
  let* u := (match Py.uuid_parse ws with
             | Some u => Eff.ret u
             | None => Eff.raise "badly formed hexadecimal UUID string"
             end) in
  let* _ := (if tenancy_manager then Tenancy.set_world_context (Tenancy.PyUUID u) else Eff.ret tt) in
  let* _ := Eff.focus lens set_lens (apply (envelope ev) (global_seq ev)) in
  let* b := Dict.getitem env "branch" in
  let* bs := Dict.as_str b in
  let* _ := Eff.modify (fun p => {| lens := lens p;
                                    watermarks := set_watermark (watermarks p) name ws bs (global_seq ev) |}) in
  let* _ := Dict.getitem env "kind" in
  Eff.ret (Processed (global_seq ev)).

(** [receive_event], the [POST /events] route: every exception becomes a 500. *)
Definition receive_event (ev : EventPayload) : Eff.M PState EventResponse :=
  Eff.catch (receive_body ev) (fun e => Eff.ret (HttpError 500 e)).

End Reception.

End ProjectorSDK.

(* ------------------------------------------------------------------ *)
(** ** Relational projector (projectors/relational/projector.py) *)

Module Relational.

Local Open Scope Z_scope.

Record NoteRow := {
  n_world : string; n_branch : string; note_id : string;
  title : json; body : json; created_at : string; updated_at : string }.

Record TagRow := {
  t_world : string; t_branch : string; t_note_id : string; tag : string; applied_at : string }.

Record LinkRow := {
  l_world : string; l_branch : string; src_id : string; dst_id : string;
  link_type : string; l_created_at : string }.

(** A row of [lens_emo.emo_current]. *)
Record EmoRow := {
  emo_id : string; emo_type : json; emo_version : json; tenant_id : json;
  e_world : string; e_branch : string; mime_type : json; content : json; tags : json;
  source_kind : json; source_uri : json; e_updated_at : string;
  deleted : bool; deleted_at : option string; deletion_reason : json }.

(** A row of [lens_emo.emo_history]. *)
Record HistoryRow := {
  h_emo_id : string; h_emo_version : json; h_world : string; h_branch : string;
  h_content_hash : string; h_operation : option string; h_idempotency_key : json }.

(** A row of [lens_emo.emo_links]. *)
Record EmoLinkRow := {
  el_emo_id : string; el_world : string; el_branch : string; rel : string;
  target_emo_id : option string; target_uri : option string }.

(** The lens tables, and the value [now()] has for the statements of the
    event being applied. *)
Record Lens := {
  notes : list NoteRow; note_tags : list TagRow; links : list LinkRow;
  emo_current : list EmoRow; emo_history : list HistoryRow; emo_links : list EmoLinkRow;
  now : string }.

Definition empty_lens (clock : string) : Lens :=
  {| notes := []; note_tags := []; links := []; emo_current := []; emo_history := [];
     emo_links := []; now := clock |}.

(** The name of a decoded JSON value's Python type. *)
Definition py_type_name (v : json) : string :=
  match v with
  | JNull => "NoneType"
  | JBool _ => "bool"
  | JInt _ => "int"
  | JStr _ => "str"
  | JList _ => "list"
  | JObj _ => "dict"
  end.

(** asyncpg's encoders for the parameters of the [lens_emo] statements, on
    the values a decoded payload holds: the value the column receives, or the
    encoder's error. [None] is sent as NULL. The repository holds no DDL for
    [lens_emo]; the parameter types are the ones the statements give them:
    [uuid] for the [$n::uuid] casts, [integer] for [emo_version], [text[]]
    for [tags] (read back with [array_to_string] and [= ANY]) and [text] for
    the other strings. *)

(** [text]: a [str]. *)
Definition encode_text (v : json) : string + json :=
  match v with
  | JNull | JStr _ => inr v
  | _ => inl ("expected str, got " ++ py_type_name v)
  end.

(** [int4]: an [int] in the 32-bit range; a [bool] goes through [int()]. *)
Definition encode_int4 (v : json) : string + json :=
  match v with
  | JNull => inr JNull
  | JBool b => inr (JInt (if b then 1 else 0))
  | JInt z => if (-2147483648 <=? z) && (z <=? 2147483647) then inr (JInt z)
              else inl "value out of int32 range"
  | _ => inl ("'" ++ py_type_name v ++ "' object cannot be interpreted as an integer")
  end.

(** [uuid]: a [str] spelling a UUID, stored in canonical form. *)
Definition encode_uuid (v : json) : string + json :=
  match v with
  | JNull => inr JNull
  | JStr s => match Py.uuid_parse s with
              | Some u => inr (JStr u)
              | None => inl "invalid UUID"
              end
  | _ => inl ("'" ++ py_type_name v ++ "' object has no attribute 'bytes'")
  end.

(** [for x in v], where asyncpg's array writer iterates. *)
Definition py_items (v : json) : option (list json) :=
  match v with
  | JList l => Some l
  | JObj kv => Some (map (fun kx => JStr (fst kx)) kv)
  | JStr s => Some (map (fun c => JStr (String c EmptyString)) (list_ascii_of_string s))
  | _ => None
  end.

(** [_get_array_shape]: the number of dimensions, counted along the first
    element that is a list; a list next to a non-list, or a list whose length
    differs from the first list's, makes the array non-homogeneous; at most
    6 dimensions. *)
Fixpoint array_shape (v : json) (ndims : nat) : string + nat :=
  match v with
  | JList l =>
      if (6 <? ndims)%nat then inl "number of array dimensions exceed the maximum expected (6)" else
      let fix elems (l : list json) (elemlen : option (option nat)) (nd : nat) : string + nat :=
        match l with
        | [] => inr nd
        | x :: rest =>
            match x with
            | JList e =>
                match elemlen with
                | None => match array_shape x (S nd) with
                          | inl m => inl m
                          | inr nd' => elems rest (Some (Some (length e))) nd'
                          end
                | Some (Some k) => if (length e =? k)%nat then elems rest elemlen nd
                                   else inl "non-homogeneous array"
                | Some None => inl "non-homogeneous array"
                end
            | _ =>
                match elemlen with
                | Some (Some _) => inl "non-homogeneous array"
                | _ => elems rest (Some None) nd
                end
            end
        end in
      elems l None ndims
  | _ => inr ndims
  end.

Fixpoint all_ok {A} (f : A -> string + unit) (l : list A) : string + unit :=
  match l with
  | [] => inr tt
  | x :: rest => match f x with
                 | inl m => inl m
                 | inr _ => all_ok f rest
                 end
  end.

(** [_write_array_data]: above the last dimension each element is iterated,
    in the last one each element goes through the [text] encoder. *)
Fixpoint array_data (d : nat) (v : json) : string + unit :=
  match py_items v with
  | None => inl ("'" ++ py_type_name v ++ "' object is not iterable")
  | Some items =>
      match d with
      | O => all_ok (fun x => match encode_text x with
                              | inl m => inl ("invalid array element: " ++ m)
                              | inr _ => inr tt
                              end) items
      | S d' => all_ok (array_data d') items
      end
  end.

(** [text[]]: a list, not a [str] or a dict, of the shape above. *)
Definition encode_text_array (v : json) : string + json :=
  match v with
  | JNull => inr JNull
  | JList _ => match array_shape v 1 with
               | inl m => inl m
               | inr nd => match array_data (pred nd) v with
                           | inl m => inl m
                           | inr _ => inr v
                           end
               end
  | _ => inl ("a sized iterable container expected (got type '" ++ py_type_name v ++ "')")
  end.

(** The [DataError] [execute] raises, before the statement runs, when
    argument [$n] fails its encoder. *)
Definition param (n : string) (enc : json -> string + json) (v : json) : Eff.M Lens json :=
  match enc v with
  | inr x => Eff.ret x
  | inl m => Eff.raise ("invalid input for query argument $" ++ n ++ " (" ++ m ++ ")")
  end.

Section Handlers.

(** [$n::timestamptz] on a text value, rendered back by [datetime.isoformat()];
    [None] when PostgreSQL rejects the text. *)
Variable pg_timestamptz : string -> option string.

Definition text_param (v : json) : Eff.M Lens json :=
  match v with
  | JStr _ | JNull => Eff.ret v
  | _ => Eff.raise "invalid input for query argument: expected str"
  end.

(** [COALESCE($n::timestamptz, now())] *)
Definition ts_or_now (v : json) : Eff.M Lens string :=
  match v with
  | JNull => let* l := Eff.get in Eff.ret (now l)
  | JStr s => match pg_timestamptz s with
              | Some t => Eff.ret t
              | None => Eff.raise "invalid input syntax for type timestamp with time zone"
              end
  | _ => Eff.raise "invalid input for query argument: expected str"
  end.

Definition uuid_param (v : json) : Eff.M Lens string :=
  let* s := Dict.as_str v in
  match Py.uuid_parse s with
  | Some u => Eff.ret u
  | None => Eff.raise "invalid input syntax for type uuid"
  end.

Definition set_notes (f : list NoteRow -> list NoteRow) (l : Lens) : Lens :=
  {| notes := f (notes l); note_tags := note_tags l; links := links l; emo_current := emo_current l;
     emo_history := emo_history l; emo_links := emo_links l; now := now l |}.
Definition set_tags (f : list TagRow -> list TagRow) (l : Lens) : Lens :=
  {| notes := notes l; note_tags := f (note_tags l); links := links l; emo_current := emo_current l;
     emo_history := emo_history l; emo_links := emo_links l; now := now l |}.
Definition set_links (f : list LinkRow -> list LinkRow) (l : Lens) : Lens :=
  {| notes := notes l; note_tags := note_tags l; links := f (links l); emo_current := emo_current l;
     emo_history := emo_history l; emo_links := emo_links l; now := now l |}.
Definition set_emos (f : list EmoRow -> list EmoRow) (l : Lens) : Lens :=
  {| notes := notes l; note_tags := note_tags l; links := links l; emo_current := f (emo_current l);
     emo_history := emo_history l; emo_links := emo_links l; now := now l |}.
Definition set_history (f : list HistoryRow -> list HistoryRow) (l : Lens) : Lens :=
  {| notes := notes l; note_tags := note_tags l; links := links l; emo_current := emo_current l;
     emo_history := f (emo_history l); emo_links := emo_links l; now := now l |}.
Definition set_emo_links (f : list EmoLinkRow -> list EmoLinkRow) (l : Lens) : Lens :=
  {| notes := notes l; note_tags := note_tags l; links := links l; emo_current := emo_current l;
     emo_history := emo_history l; emo_links := f (emo_links l); now := now l |}.

(** [_handle_note_created]: [INSERT ... ON CONFLICT (world_id, branch, note_id) DO NOTHING]. *)
Definition handle_note_created (w b : string) (p : json) : Eff.M Lens unit :=
  let* id := Dict.getitem p "id" in
  let* id := Dict.as_str id in
  let* t := Dict.getitem p "title" in
  let* t := text_param t in
  let* bd := Dict.get p "body" (JStr "") in
  let* bd := text_param bd in
  let* c := Dict.get p "created_at" JNull in
  let* ts := ts_or_now c in
  Eff.modify (set_notes (fun ns =>
    if existsb (fun n => String.eqb (n_world n) w && String.eqb (n_branch n) b && String.eqb (note_id n) id) ns
    then ns
    else (ns ++ [{| n_world := w; n_branch := b; note_id := id; title := t; body := bd;
                    created_at := ts; updated_at := ts |}])%list)).

(** [_handle_note_updated] *)
Definition handle_note_updated (w b : string) (p : json) : Eff.M Lens unit :=
  let* id := Dict.getitem p "id" in
  let* id := Dict.as_str id in
  let* t := Dict.getitem p "title" in
  let* t := text_param t in
  let* bd := Dict.get p "body" (JStr "") in
  let* bd := text_param bd in
  let* u := Dict.get p "updated_at" JNull in
  let* ts := ts_or_now u in
  Eff.modify (set_notes (map (fun n =>
    if String.eqb (n_world n) w && String.eqb (n_branch n) b && String.eqb (note_id n) id
    then {| n_world := w; n_branch := b; note_id := id; title := t; body := bd;
            created_at := created_at n; updated_at := ts |}
    else n))).

(** [_handle_note_deleted]: touch [updated_at], drop the note's tags and links. *)
Definition handle_note_deleted (w b : string) (p : json) : Eff.M Lens unit :=
  let* id := Dict.getitem p "id" in
  let* id := Dict.as_str id in
  let* l := Eff.get in
  let* _ := Eff.modify (set_notes (map (fun n =>
    if String.eqb (n_world n) w && String.eqb (n_branch n) b && String.eqb (note_id n) id
    then {| n_world := w; n_branch := b; note_id := id; title := title n; body := body n;
            created_at := created_at n; updated_at := now l |}
    else n))) in
  let* _ := Eff.modify (set_tags (filter (fun r =>
    negb (String.eqb (t_world r) w && String.eqb (t_branch r) b && String.eqb (t_note_id r) id)))) in
  Eff.modify (set_links (filter (fun r =>
    negb (String.eqb (l_world r) w && String.eqb (l_branch r) b
          && (String.eqb (src_id r) id || String.eqb (dst_id r) id))))).

(** [_handle_tag_added] *)
Definition handle_tag_added (w b : string) (p : json) : Eff.M Lens unit :=
  let* id := Dict.getitem p "id" in
  let* id := Dict.as_str id in
  let* tg := Dict.getitem p "tag" in
  let* tg := Dict.as_str tg in
  let* a := Dict.get p "applied_at" JNull in
  let* ts := ts_or_now a in
  Eff.modify (set_tags (fun rs =>
    if existsb (fun r => String.eqb (t_world r) w && String.eqb (t_branch r) b
                         && String.eqb (t_note_id r) id && String.eqb (tag r) tg) rs
    then rs
    else (rs ++ [{| t_world := w; t_branch := b; t_note_id := id; tag := tg; applied_at := ts |}])%list)).

(** [_handle_tag_removed] *)
Definition handle_tag_removed (w b : string) (p : json) : Eff.M Lens unit :=
  let* id := Dict.getitem p "id" in
  let* id := Dict.as_str id in
  let* tg := Dict.getitem p "tag" in
  let* tg := Dict.as_str tg in
  Eff.modify (set_tags (filter (fun r =>
    negb (String.eqb (t_world r) w && String.eqb (t_branch r) b
          && String.eqb (t_note_id r) id && String.eqb (tag r) tg)))).

(** [_handle_link_added] *)
Definition handle_link_added (w b : string) (p : json) : Eff.M Lens unit :=
  let* s := Dict.getitem p "src" in
  let* s := Dict.as_str s in
  let* d := Dict.getitem p "dst" in
  let* d := Dict.as_str d in
  let* lt := Dict.get p "link_type" (JStr "default") in
  let* lt := Dict.as_str lt in
  let* c := Dict.get p "created_at" JNull in
  let* ts := ts_or_now c in
  Eff.modify (set_links (fun rs =>
    if existsb (fun r => String.eqb (l_world r) w && String.eqb (l_branch r) b && String.eqb (src_id r) s
                         && String.eqb (dst_id r) d && String.eqb (link_type r) lt) rs
    then rs
    else (rs ++ [{| l_world := w; l_branch := b; src_id := s; dst_id := d; link_type := lt;
                    l_created_at := ts |}])%list)).

(** [_handle_link_removed] *)
Definition handle_link_removed (w b : string) (p : json) : Eff.M Lens unit :=
  let* s := Dict.getitem p "src" in
  let* s := Dict.as_str s in
  let* d := Dict.getitem p "dst" in
  let* d := Dict.as_str d in
  let* lt := Dict.get p "link_type" (JStr "default") in
  let* lt := Dict.as_str lt in
  Eff.modify (set_links (filter (fun r =>
    negb (String.eqb (l_world r) w && String.eqb (l_branch r) b && String.eqb (src_id r) s
          && String.eqb (dst_id r) d && String.eqb (link_type r) lt)))).


(** Iterating a decoded JSON value with [for x in v]. *)
Definition py_iter (v : json) : Eff.M Lens (list json) :=
  match v with
  | JList l => Eff.ret l
  | JObj kv => Eff.ret (map (fun kx => JStr (fst kx)) kv)
  | JStr s => Eff.ret (map (fun c => JStr (String c EmptyString)) (list_ascii_of_string s))
  | _ => Eff.raise "object is not iterable"
  end.

Fixpoint for_each {A} (l : list A) (body : A -> Eff.M Lens unit) : Eff.M Lens unit :=
  match l with
  | [] => Eff.ret tt
  | x :: rest => let* _ := body x in for_each rest body
  end.

Definition add_emo_link (r : EmoLinkRow) : Eff.M Lens unit :=
  Eff.modify (set_emo_links (fun rs => (rs ++ [r])%list)).

(** [_handle_emo_links]: clear the EMO's edges, then insert parents and links. *)
Definition handle_emo_links (w b : string) (p : json) : Eff.M Lens unit :=
  let* eid := Dict.getitem p "emo_id" in
  let* eid := uuid_param eid in
  let* _ := Eff.modify (set_emo_links (filter (fun r =>
    negb (String.eqb (el_emo_id r) eid && String.eqb (el_world r) w && String.eqb (el_branch r) b)))) in
  let* parents := Dict.get p "parents" (JList []) in
  let* parents := py_iter parents in
  let* _ := for_each parents (fun parent =>
    let* r := Dict.getitem parent "rel" in
    let* r := Dict.as_str r in
    let* t := Dict.getitem parent "emo_id" in
    let* t := uuid_param t in
    add_emo_link {| el_emo_id := eid; el_world := w; el_branch := b; rel := r;
                    target_emo_id := Some t; target_uri := None |}) in
  let* ls := Dict.get p "links" (JList []) in
  let* ls := py_iter ls in
  for_each ls (fun link =>
    let* k := Dict.getitem link "kind" in
    if json_eqb k (JStr "emo") then
      let* t := Dict.getitem link "ref" in
      let* t := uuid_param t in
      add_emo_link {| el_emo_id := eid; el_world := w; el_branch := b; rel := "linked";
                      target_emo_id := Some t; target_uri := None |}
    else if json_eqb k (JStr "uri") then
      let* t := Dict.getitem link "ref" in
      let* t := Dict.as_str t in
      add_emo_link {| el_emo_id := eid; el_world := w; el_branch := b; rel := "linked";
                      target_emo_id := None; target_uri := Some t |}
    else Eff.ret tt).

(** [_compute_emo_content_hash] *)
Definition compute_emo_content_hash (content : json) : Eff.M Lens string :=
  let* c := Dict.as_str content in
  Eff.ret (Hashlib.sha256_hexdigest c).

Definition same_emo (eid w b : string) (r : EmoRow) : bool :=
  String.eqb (emo_id r) eid && String.eqb (e_world r) w && String.eqb (e_branch r) b.

(** History insert [ON CONFLICT (emo_id, emo_version, world_id, branch) DO NOTHING]. *)
Definition add_history (eid : string) (v : json) (w b h : string) : Eff.M Lens unit :=
  Eff.modify (set_history (fun hs =>
    if existsb (fun r => String.eqb (h_emo_id r) eid && json_eqb (h_emo_version r) v
                         && String.eqb (h_world r) w && String.eqb (h_branch r) b) hs
    then hs
    else (hs ++ [{| h_emo_id := eid; h_emo_version := v; h_world := w; h_branch := b;
                    h_content_hash := h; h_operation := None; h_idempotency_key := JNull |}])%list)).

(** [_handle_emo_created]: [INSERT ... ON CONFLICT (emo_id, world_id, branch) DO NOTHING]. *)
Definition handle_emo_created (w b : string) (p : json) : Eff.M Lens unit :=
  let* eid := Dict.getitem p "emo_id" in
  let* et := Dict.getitem p "emo_type" in
  let* ev := Dict.getitem p "emo_version" in
  let* tn := Dict.getitem p "tenant_id" in
  let* mt := Dict.get p "mime_type" (JStr "text/markdown") in
  let* ct := Dict.get p "content" JNull in
  let* tg := Dict.get p "tags" (JList []) in
  let* src := Dict.getitem p "source" in
  let* sk := Dict.getitem src "kind" in
  let* su := Dict.get src "uri" JNull in
  let* eid := uuid_param eid in
  let* et := param "2" encode_text et in
  let* ev := param "3" encode_int4 ev in
  let* tn := param "4" encode_uuid tn in
  let* mt := param "7" encode_text mt in
  let* ct := param "8" encode_text ct in
  let* tg := param "9" encode_text_array tg in
  let* sk := param "10" encode_text sk in
  let* su := param "11" encode_text su in
  let* l := Eff.get in
  let* _ := Eff.modify (set_emos (fun rs =>
    if existsb (same_emo eid w b) rs then rs
    else (rs ++ [{| emo_id := eid; emo_type := et; emo_version := ev; tenant_id := tn;
                    e_world := w; e_branch := b; mime_type := mt; content := ct; tags := tg;
                    source_kind := sk; source_uri := su; e_updated_at := now l;
                    deleted := false; deleted_at := None; deletion_reason := JNull |}])%list)) in
  let* c := Dict.get p "content" (JStr "") in
  let* h := compute_emo_content_hash c in
  let* _ := add_history eid ev w b h in
  handle_emo_links w b p.

(** [_handle_emo_updated]: an [UPDATE] keyed on the identity only; no
    comparison with the stored [emo_version]. *)
Definition handle_emo_updated (w b : string) (p : json) : Eff.M Lens unit :=
  let* eid := Dict.getitem p "emo_id" in
  let* ev := Dict.getitem p "emo_version" in
  let* ct := Dict.get p "content" JNull in
  let* tg := Dict.get p "tags" (JList []) in
  let* mt := Dict.get p "mime_type" (JStr "text/markdown") in
  let* eid := uuid_param eid in
  let* ev := param "3" encode_int4 ev in
  let* ct := param "4" encode_text ct in
  let* tg := param "5" encode_text_array tg in
  let* mt := param "6" encode_text mt in
  let* l := Eff.get in
  let* _ := Eff.modify (set_emos (map (fun r =>
    if same_emo eid w b r
    then {| emo_id := emo_id r; emo_type := emo_type r; emo_version := ev; tenant_id := tenant_id r;
            e_world := e_world r; e_branch := e_branch r; mime_type := mt; content := ct; tags := tg;
            source_kind := source_kind r; source_uri := source_uri r; e_updated_at := now l;
            deleted := deleted r; deleted_at := deleted_at r; deletion_reason := deletion_reason r |}
    else r))) in
  let* c := Dict.get p "content" (JStr "") in
  let* h := compute_emo_content_hash c in
  let* _ := add_history eid ev w b h in
  handle_emo_links w b p.

(** [_handle_emo_linked] *)
Definition handle_emo_linked (w b : string) (p : json) : Eff.M Lens unit :=
  handle_emo_links w b p.

(** [_handle_emo_deleted]: soft delete; the history insert is guarded by a
    [try/except] that only logs, so an argument its encoders reject ([$3]
    [emo_version], [$7] [idempotency_key]) only drops the history row.
    [change_id] ([$1]) is not modelled. *)
Definition handle_emo_deleted (w b : string) (p : json) : Eff.M Lens unit :=
  let* eid := Dict.getitem p "emo_id" in
  let* ev := Dict.get p "emo_version" (JInt 1) in
  let* reason := Dict.get p "deletion_reason" JNull in
  let* ik := Dict.get p "idempotency_key" JNull in
  let* eid := uuid_param eid in
  let* reason := param "4" encode_text reason in
  let* l := Eff.get in
  let* _ := Eff.modify (set_emos (map (fun r =>
    if same_emo eid w b r
    then {| emo_id := emo_id r; emo_type := emo_type r; emo_version := emo_version r;
            tenant_id := tenant_id r; e_world := e_world r; e_branch := e_branch r;
            mime_type := mime_type r; content := content r; tags := tags r;
            source_kind := source_kind r; source_uri := source_uri r; e_updated_at := now l;
            deleted := true; deleted_at := Some (now l); deletion_reason := reason |}
    else r))) in
  let h := Hashlib.sha256_hexdigest "" in
  Eff.catch
    (let* ev := param "3" encode_int4 ev in
     let* ik := param "7" encode_text ik in
     Eff.modify (set_history (fun hs =>
       if negb (json_eqb ik JNull) && existsb (fun r => json_eqb (h_idempotency_key r) ik) hs
       then hs
       else (hs ++ [{| h_emo_id := eid; h_emo_version := ev; h_world := w; h_branch := b;
                       h_content_hash := h; h_operation := Some "deleted";
                       h_idempotency_key := ik |}])%list)))
    (fun _ => Eff.ret tt).

(** [RelationalProjector.apply] *)
Definition apply (envelope : list (string * json)) (global_seq : Z) : Eff.M Lens unit :=
  let env := JObj envelope in
  let* k := Dict.getitem env "kind" in
  let* p := Dict.getitem env "payload" in
  let* w := Dict.getitem env "world_id" in
  let* b := Dict.getitem env "branch" in
  let* ws := Dict.as_str w in
  let* bs := Dict.as_str b in
  let handlers : list (string * (string -> string -> json -> Eff.M Lens unit)) :=
    [("note.created", handle_note_created); ("note.updated", handle_note_updated);
     ("note.deleted", handle_note_deleted); ("tag.added", handle_tag_added);
     ("tag.removed", handle_tag_removed); ("link.added", handle_link_added);
     ("link.removed", handle_link_removed)] in
  let emo_handlers : list (string * (string -> string -> json -> Eff.M Lens unit)) :=
    [("emo.created", handle_emo_created); ("emo.updated", handle_emo_updated);
     ("emo.linked", handle_emo_linked); ("emo.deleted", handle_emo_deleted)] in
  match k with
  | JStr ks =>
      match List.find (fun h => String.eqb (fst h) ks) handlers with
      | Some (_, h) => h ws bs p
      | None =>
          match List.find (fun h => String.eqb (fst h) ks) emo_handlers with
          | Some (_, h) =>
              match Py.uuid_parse ws with
              | Some wu => h wu bs p
              | None => Eff.raise "invalid input syntax for type uuid"
              end
          | None => Eff.ret tt
          end
      end
  | _ => Eff.ret tt
  end.


(** [ORDER BY] on text columns (C collation) and uuid columns. *)
Fixpoint keys_ltb (a b : list string) : bool :=
  match a, b with
  | x :: a', y :: b' => if str_ltb x y then true else if str_ltb y x then false else keys_ltb a' b'
  | [], _ :: _ => true
  | _, _ => false
  end.

Fixpoint insert_sorted {A} (key : A -> list string) (x : A) (l : list A) : list A :=
  match l with
  | [] => [x]
  | y :: rest => if keys_ltb (key y) (key x) || negb (keys_ltb (key x) (key y))
                 then y :: insert_sorted key x rest else x :: l
  end.

Definition order_by {A} (key : A -> list string) (l : list A) : list A :=
  fold_left (fun acc x => insert_sorted key x acc) l [].

(** [RelationalProjector._get_state_snapshot]; each row is [serialize_record]
    of the selected columns, timestamps rendered by [isoformat()]. *)
Definition get_state_snapshot (world_id branch : string) : Eff.M Lens json :=
  let* l := Eff.get in
  match Py.uuid_parse world_id with
  | None => Eff.raise "invalid input syntax for type uuid"
  | Some wu =>
      let ns := order_by (fun n => [note_id n])
                  (filter (fun n => String.eqb (n_world n) world_id && String.eqb (n_branch n) branch) (notes l)) in
      let ts := order_by (fun t => [t_note_id t; tag t])
                  (filter (fun t => String.eqb (t_world t) world_id && String.eqb (t_branch t) branch) (note_tags l)) in
      let ls := order_by (fun r => [src_id r; dst_id r; link_type r])
                  (filter (fun r => String.eqb (l_world r) world_id && String.eqb (l_branch r) branch) (links l)) in
      let es := order_by (fun e => [emo_id e])
                  (filter (fun e => String.eqb (e_world e) wu && String.eqb (e_branch e) branch) (emo_current l)) in
      Eff.ret (JObj
        [("lens", JStr "relational"); ("world_id", JStr world_id); ("branch", JStr branch);
         ("notes", JList (map (fun n => JObj [("note_id", JStr (note_id n)); ("title", title n);
                     ("body", body n); ("created_at", JStr (created_at n));
                     ("updated_at", JStr (updated_at n))]) ns));
         ("tags", JList (map (fun t => JObj [("note_id", JStr (t_note_id t)); ("tag", JStr (tag t));
                     ("applied_at", JStr (applied_at t))]) ts));
         ("links", JList (map (fun r => JObj [("src_id", JStr (src_id r)); ("dst_id", JStr (dst_id r));
                     ("link_type", JStr (link_type r)); ("created_at", JStr (l_created_at r))]) ls));
         ("emos", JList (map (fun e => JObj [("emo_id", JStr (emo_id e)); ("emo_type", emo_type e);
                     ("emo_version", emo_version e); ("updated_at", JStr (e_updated_at e));
                     ("deleted", JBool (deleted e))]) es))])
  end.

(** A projector run: each event is delivered on its own and applied with
    [now()] at its processing time; a failing apply leaves the next events
    to their own deliveries. *)
Fixpoint run (evs : list (list (string * json) * Z * string)) : Eff.M Lens unit :=
  match evs with
  | [] => Eff.ret tt
  | (env, seq, clock) :: rest =>
      let* _ := Eff.modify (fun l => {| notes := notes l; note_tags := note_tags l; links := links l;
                                         emo_current := emo_current l; emo_history := emo_history l;
                                         emo_links := emo_links l; now := clock |}) in
      let* _ := Eff.catch (apply env seq) (fun _ => Eff.ret tt) in
      run rest
  end.

End Handlers.

End Relational.

(* ------------------------------------------------------------------ *)
(** ** CDC publisher delivery (services/publisher/main.py) *)

Module Publisher.

Local Open Scope Z_scope.

(** What one HTTP delivery to a projector endpoint ends with. *)
Inductive Delivery :=
  | Status (code : Z) (text : string)
  | TransportError (msg : string).

(** [CDCPublisher._send_to_projector]: returns normally or raises. *)
Definition send_to_projector (d : Delivery) : string + unit :=
  match d with
  | Status c text => if (c =? 200) || (c =? 202) then inr tt
                     else inl ("Projector returned " ++ Json.int_str c ++ ": " ++ text)
  | TransportError m => inl m
  end.

(** [CDCPublisher._publish_event]: every endpoint is tried; the event
    succeeds when no delivery raised. *)
Definition publish_event (deliveries : list Delivery) : bool :=
  forallb (fun d => match send_to_projector d with inr _ => true | inl _ => false end) deliveries.

Inductive Outcome := MarkPublished | MarkRetry (err : string).

(** [CDCPublisher._update_publish_status] for one event of the batch. *)
Definition publish_status (deliveries : list Delivery) : Outcome :=
  if publish_event deliveries then MarkPublished else MarkRetry "False".

(** An event of [get_unpublished_batch] with how its delivery to each
    configured endpoint ends. *)
Record OutboxEvent := { ob_global_seq : Z; ob_deliveries : list Delivery }.

(** The calls [_update_publish_status] makes on [event_core]. *)
Inductive Action :=
  | MarkPublishedCall (global_seq : Z)
  | MarkRetryCall (global_seq : Z) (err : string) (delay_s : Z)
  | MoveToDlqCall (global_seq : Z) (err : string).

Section Batch.

(** The answer of [event_core.mark_retry(seq, err, 60)]. *)
Variable mark_retry : Z -> string -> bool.

(** [CDCPublisher._update_publish_status]: [zip(batch, results)]; a result
    other than [True] is retried with [str(result)], and moved to the DLQ
    when [mark_retry] refuses. *)
Definition update_publish_status (batch : list OutboxEvent) (results : list bool) : list Action :=
  flat_map (fun (er : OutboxEvent * bool) =>
    let '(ev, result) := er in
    if result then [MarkPublishedCall (ob_global_seq ev)]
    else let err := "False" in
         if mark_retry (ob_global_seq ev) err then [MarkRetryCall (ob_global_seq ev) err 60]
         else [MarkRetryCall (ob_global_seq ev) err 60; MoveToDlqCall (ob_global_seq ev) err])
    (combine batch results).

(** [CDCPublisher._process_batch]: one [_publish_event] per event. *)
Definition process_batch (batch : list OutboxEvent) : list Action :=
  update_publish_status batch (map (fun ev => publish_event (ob_deliveries ev)) batch).

End Batch.

End Publisher.

(* ------------------------------------------------------------------ *)
(** ** [uuid.uuid5] *)

Module UUID.

Local Open Scope Z_scope.

Definition hexval (c : ascii) : Z :=
  let n := code c in if n <=? 57 then n - 48 else if n <=? 70 then n - 55 else n - 87.

Fixpoint hex_bytes (fuel : nat) (s : string) : list Z :=
  match fuel, s with
  | S f, String a (String b rest) => (hexval a * 16 + hexval b) :: hex_bytes f rest
  | _, _ => []
  end.

(** [UUID(s).bytes] of a canonical UUID string. *)
Definition bytes_of (u : string) : list Z :=
  let h := Py.drop_char 45 u in hex_bytes (String.length h) h.

(** [str(UUID(bytes=b))] *)
Definition to_str (b : list Z) : string :=
  let h := Hashlib.hex b in
  substring 0 8 h ++ "-" ++ substring 8 4 h ++ "-" ++ substring 12 4 h ++ "-"
  ++ substring 16 4 h ++ "-" ++ substring 20 12 h.

(** [uuid.uuid5(namespace, name)]: SHA-1 of the namespace bytes and the
    UTF-8 name, truncated to 16 bytes, version 5 and RFC 4122 variant bits set. *)
Definition uuid5 (namespace name : string) : string :=
  let h := firstn 16 (Hashlib.sha1 (bytes_of namespace ++ Hashlib.utf8 name)%list) in
  let h := imap (fun i x => if (i =? 6)%nat then Z.lor (Z.land x 15) 80
                            else if (i =? 8)%nat then Z.lor (Z.land x 63) 128 else x) h in
  to_str h.

End UUID.

(* ------------------------------------------------------------------ *)
(** ** Memory-to-EMO translator
    (projectors/translator_memory_to_emo/translator_memory_to_emo.py) *)

Module Translator.

Local Open Scope Z_scope.

(** A computation that raises or returns without touching any state, run
    inside a stateful one. *)
Definition lift {S A} (m : Eff.M unit A) : Eff.M S A := fun s => (fst (m tt), s).

(** [for x in v] over a decoded JSON value. *)
Definition iter (v : json) : Eff.M unit (list json) :=
  match v with
  | JList l => Eff.ret l
  | JObj kv => Eff.ret (map (fun kx => JStr (fst kx)) kv)
  | JStr s => Eff.ret (map (fun c => JStr (String c EmptyString)) (list_ascii_of_string s))
  | _ => Eff.raise "object is not iterable"
  end.

Fixpoint mapM {A B} (f : A -> Eff.M unit B) (l : list A) : Eff.M unit (list B) :=
  match l with
  | [] => Eff.ret []
  | x :: rest => let* y := f x in let* ys := mapM f rest in Eff.ret (y :: ys)
  end.

(** [len(v)] *)
Definition py_len (v : json) : Eff.M unit Z :=
  match v with
  | JStr s => Eff.ret (Z.of_nat (String.length s))
  | JList l => Eff.ret (Z.of_nat (length l))
  | JObj kv => Eff.ret (Z.of_nat (length kv))
  | _ => Eff.raise "object has no len()"
  end.

(** [sub in v] for a string [sub]. *)
Definition py_in (sub : string) (v : json) : Eff.M unit bool :=
  match v with
  | JStr s => Eff.ret (Py.contains sub s)
  | JList l => Eff.ret (existsb (json_eqb (JStr sub)) l)
  | JObj kv => Eff.ret (bool_decide (is_Some (assoc sub kv)))
  | _ => Eff.raise "argument is not iterable"
  end.

Definition namespace_dns : string := "6ba7b810-9dad-11d1-80b4-00c04fd430c8".

(** [_derive_emo_id]: [uuid5(namespace, f"memory:{memory_id}")], as its [str]. *)
Definition derive_emo_id (memory_id : json) : string :=
  UUID.uuid5 namespace_dns ("memory:" ++ py_str memory_id).

(** [_infer_emo_type] *)
Definition infer_emo_type (payload : json) : Eff.M unit string :=
  let* body := Dict.get payload "body" (JStr "") in
  let* content := Dict.get payload "content" body in
  let* title := Dict.get payload "title" (JStr "") in
  let* n := py_len content in
  let* doc := (if 1000 <? n then Eff.ret true
               else let* h1 := py_in "# " content in
                    if h1 then Eff.ret true else py_in "## " content) in
  if doc then Eff.ret "doc" else
  let* t := Dict.as_str title in
  if existsb (fun w => Py.contains w (Py.lower t)) ["fact"; "definition"; "rule"] then Eff.ret "fact" else
  let* t := Dict.as_str title in
  if existsb (fun w => Py.contains w (Py.lower t)) ["profile"; "person"; "contact"] then Eff.ret "profile" else
  Eff.ret "note".

(** [_extract_source_info] *)
Definition extract_source_info (envelope payload : json) : Eff.M unit json :=
  let* by_info := Dict.get envelope "by" (JObj []) in
  let* agent_info := Dict.get by_info "agent" (JStr "unknown") in
  let* is_user := (if json_eqb agent_info (JStr "user") then Eff.ret true
                   else let* a := Dict.as_str agent_info in Eff.ret (Py.contains "user" (Py.lower a))) in
  let* source_kind :=
    (if is_user then Eff.ret "user" else
     let* a := Dict.as_str agent_info in
     if Py.contains "ingest" (Py.lower a) then Eff.ret "ingest" else
     let* a := Dict.as_str agent_info in
     if Py.contains "import" (Py.lower a) then Eff.ret "ingest" else Eff.ret "agent") in
  let* u1 := Dict.get payload "source_uri" JNull in
  let* source_uri := (if truthy u1 then Eff.ret u1 else Dict.get payload "uri" JNull) in
  Eff.ret (JObj ([("kind", JStr source_kind)]
                 ++ (if truthy source_uri then [("uri", source_uri)] else []))%list).

(** [_infer_parents] *)
Definition infer_parents (payload : json) : Eff.M unit json :=
  let* parent_id := Dict.get payload "parent_id" JNull in
  let p1 := if truthy parent_id
            then [JObj [("emo_id", JStr (derive_emo_id parent_id)); ("rel", JStr "derived")]] else [] in
  let* supersedes_id := Dict.get payload "supersedes" JNull in
  let p2 := if truthy supersedes_id
            then [JObj [("emo_id", JStr (derive_emo_id supersedes_id)); ("rel", JStr "supersedes")]] else [] in
  let* merged_from := Dict.get payload "merged_from" (JList []) in
  let* ms := iter merged_from in
  let p3 := map (fun m => JObj [("emo_id", JStr (derive_emo_id m)); ("rel", JStr "merges")]) ms in
  Eff.ret (JList (p1 ++ p2 ++ p3)%list).

(** [_extract_links] *)
Definition extract_links (payload : json) : Eff.M unit json :=
  let* external_links := Dict.get payload "links" (JList []) in
  let* ls := iter external_links in
  let l1 := flat_map (fun link =>
              match link with
              | JStr _ => [JObj [("kind", JStr "uri"); ("ref", link)]]
              | JObj kv => match assoc "uri" kv with
                           | Some u => [JObj [("kind", JStr "uri"); ("ref", u)]]
                           | None => []
                           end
              | _ => []
              end) ls in
  let* emo_refs := Dict.get payload "references" (JList []) in
  let* rs := iter emo_refs in
  let l2 := map (fun r => JObj [("kind", JStr "emo"); ("ref", JStr (derive_emo_id r))]) rs in
  Eff.ret (JList (l1 ++ l2)%list).

(** [_extract_vector_meta] *)
Definition extract_vector_meta (payload : json) : Eff.M unit json :=
  let* embedding_info := Dict.get payload "embedding" JNull in
  if negb (truthy embedding_info) then Eff.ret JNull else
  let step (acc : list (string * json)) (k : string) : Eff.M unit (list (string * json)) :=
    let* present := py_in k embedding_info in
    if present then let* v := Dict.getitem embedding_info k in Eff.ret (acc ++ [(k, v)])%list
    else Eff.ret acc in
  let* m1 := step [] "model_id" in
  let* m2 := step m1 "embed_dim" in
  let* m3 := step m2 "model_version" in
  let* m4 := step m3 "template_id" in
  Eff.ret (match m4 with [] => JNull | _ => JObj m4 end).

(** The [emo_envelope] literal of [_translate_memory_upserted]. *)
Definition build_upsert_envelope (envelope payload world_id branch : json)
    (emo_id : string) (is_new : bool) (new_version : Z) : Eff.M unit (list (string * json)) :=
  let* by_ := Dict.getitem envelope "by" in
  let* emo_type := infer_emo_type payload in
  let* tenant_id := Dict.get envelope "tenant_id" world_id in
  let* source := extract_source_info envelope payload in
  let* mime_type := Dict.get payload "mime_type" (JStr "text/markdown") in
  let* body := Dict.get payload "body" (JStr "") in
  let* content := Dict.get payload "content" body in
  let* tags := Dict.get payload "tags" (JList []) in
  let* parents := infer_parents payload in
  let* links := extract_links payload in
  let* vector_meta := extract_vector_meta payload in
  let* occurred_at := Dict.get envelope "occurred_at" JNull in
  let* trace_id := Dict.get envelope "trace_id" JNull in
  Eff.ret [("world_id", world_id); ("branch", branch);
           ("kind", JStr (if is_new then "emo.created" else "emo.updated"));
           ("by", by_);
           ("payload", JObj [("emo_id", JStr emo_id); ("emo_type", JStr emo_type);
                             ("emo_version", JInt new_version); ("tenant_id", tenant_id);
                             ("world_id", world_id); ("branch", branch); ("source", source);
                             ("mime_type", mime_type); ("content", content); ("tags", tags);
                             ("parents", parents); ("links", links);
                             ("vector_meta", vector_meta); ("schema_version", JInt 1)]);
           ("occurred_at", occurred_at); ("trace_id", trace_id)].

(** The [emo_envelope] literal of [_translate_memory_deleted]. *)
Definition build_delete_envelope (envelope world_id branch : json)
    (emo_id : string) (current_version : Z) : Eff.M unit (list (string * json)) :=
  let* by_ := Dict.getitem envelope "by" in
  let* tenant_id := Dict.get envelope "tenant_id" world_id in
  let* occurred_at := Dict.get envelope "occurred_at" JNull in
  let* trace_id := Dict.get envelope "trace_id" JNull in
  Eff.ret [("world_id", world_id); ("branch", branch); ("kind", JStr "emo.deleted");
           ("by", by_);
           ("payload", JObj [("emo_id", JStr emo_id); ("emo_version", JInt current_version);
                             ("tenant_id", tenant_id); ("world_id", world_id);
                             ("branch", branch); ("schema_version", JInt 1)]);
           ("occurred_at", occurred_at); ("trace_id", trace_id)].

(** A row the translator inserts into [event_core.event_log]. *)
Record EmoEvent := {
  ev_event_id : string;
  ev_world_id : json;
  ev_branch : json;
  ev_kind : json;
  ev_envelope : list (string * json);
  ev_occurred_at : json;
  ev_payload_hash : string }.

(** The translator's state: its version cache [_emo_versions], the event
    log it appends to, and how many [uuid4()] it has drawn. *)
Record TState := {
  emo_versions : gmap string Z;
  event_log : list EmoEvent;
  uuid4_drawn : nat }.

Definition set_emo_versions (c : gmap string Z) (s : TState) : TState :=
  {| emo_versions := c; event_log := event_log s; uuid4_drawn := uuid4_drawn s |}.

Section Translation.

(** The [n]-th [uuid4()] drawn. *)
Variable uuid4 : nat -> string.
(** [SELECT emo_version FROM lens_emo.emo_current WHERE ... AND NOT deleted]:
    the value [fetchval] returns ([None] for no row), or the exception it raises. *)
Variable emo_current_query : string -> json -> json -> string + option Z.
(** The error the [INSERT INTO event_core.event_log] raises for a row, if any. *)
Variable insert_error : EmoEvent -> option string.

Definition cache_key (emo_id : string) (world_id branch : json) : string :=
  emo_id ++ ":" ++ py_str world_id ++ ":" ++ py_str branch.

(** [_get_emo_current_version]: the cache first, then the query; a failed
    query gives 0 and is not cached. *)
Definition get_emo_current_version (emo_id : string) (world_id branch : json) : Eff.M TState Z :=
  let k := cache_key emo_id world_id branch in
  let* s := Eff.get in
  match emo_versions s !! k with
  | Some v => Eff.ret v
  | None =>
      match emo_current_query emo_id world_id branch with
      | inl _ => Eff.ret 0
      | inr result =>
          let version := match result with Some v => if v =? 0 then 0 else v | None => 0 end in
          let* _ := Eff.modify (fun s => set_emo_versions (<[k := version]> (emo_versions s)) s) in
          Eff.ret version
      end
  end.

(** [_emit_emo_event] *)
Definition emit_emo_event (emo_envelope : list (string * json)) : Eff.M TState unit :=
  let* s := Eff.get in
  let event_id := uuid4 (uuid4_drawn s) in
  let* _ := Eff.put {| emo_versions := emo_versions s; event_log := event_log s;
                       uuid4_drawn := S (uuid4_drawn s) |} in
  let env := JObj emo_envelope in
  let* payload := lift (Dict.getitem env "payload") in
  let payload_hash := Hashlib.sha256_hexdigest (dumps_sorted payload) in
  let* w := lift (Dict.getitem env "world_id") in
  let* b := lift (Dict.getitem env "branch") in
  let* k := lift (Dict.getitem env "kind") in
  let* occ := lift (Dict.get env "occurred_at" JNull) in
  let row := {| ev_event_id := event_id; ev_world_id := w; ev_branch := b; ev_kind := k;
                ev_envelope := emo_envelope; ev_occurred_at := occ;
                ev_payload_hash := payload_hash |} in
  match insert_error row with
  | Some e => Eff.raise e
  | None => Eff.modify (fun s => {| emo_versions := emo_versions s;
                                   event_log := (event_log s ++ [row])%list;
                                   uuid4_drawn := uuid4_drawn s |})
  end.

(** [_translate_memory_upserted] *)
Definition translate_memory_upserted (envelope payload : json) : Eff.M TState unit :=
  let* memory_id := lift (Dict.getitem payload "id") in
  let* world_id := lift (Dict.getitem envelope "world_id") in
  let* branch := lift (Dict.getitem envelope "branch") in
  let emo_id := derive_emo_id memory_id in
  let* current_version := get_emo_current_version emo_id world_id branch in
  let is_new_emo := current_version =? 0 in
  let new_version := if is_new_emo then 1 else current_version + 1 in
  let* emo_envelope := lift (build_upsert_envelope envelope payload world_id branch
                                                   emo_id is_new_emo new_version) in
  let* _ := emit_emo_event emo_envelope in
  Eff.modify (fun s => set_emo_versions
                         (<[cache_key emo_id world_id branch := new_version]> (emo_versions s)) s).

(** [_translate_memory_deleted] *)
Definition translate_memory_deleted (envelope payload : json) : Eff.M TState unit :=
  let* memory_id := lift (Dict.getitem payload "id") in
  let* world_id := lift (Dict.getitem envelope "world_id") in
  let* branch := lift (Dict.getitem envelope "branch") in
  let emo_id := derive_emo_id memory_id in
  let* current_version := get_emo_current_version emo_id world_id branch in
  if current_version =? 0 then Eff.ret tt else
  let* emo_envelope := lift (build_delete_envelope envelope world_id branch emo_id current_version) in
  emit_emo_event emo_envelope.

(** [_translate_memory_embed]: reads two keys and logs. *)
Definition translate_memory_embed (payload : json) : Eff.M TState unit :=
  let* _ := lift (Dict.get payload "memory_id" JNull) in
  let* _ := lift (Dict.get payload "model_id" JNull) in
  Eff.ret tt.

(** The body of the [try] in [apply]. *)
Definition translate (kind : string) (envelope payload : json) : Eff.M TState unit :=
  if String.eqb kind "memory.item.upserted" then translate_memory_upserted envelope payload
  else if String.eqb kind "memory.item.deleted" then translate_memory_deleted envelope payload
  else if String.eqb kind "memory.embed.generated" then translate_memory_embed payload
  else Eff.ret tt.

(** [MemoryToEMOTranslator.apply]: exceptions of the translation are logged
    and dropped. *)
Definition apply (envelope : list (string * json)) (global_seq : Z) : Eff.M TState unit :=
  let env := JObj envelope in
  let* kind := lift (Dict.getitem env "kind") in
  let* payload := lift (Dict.getitem env "payload") in
  let* _ := lift (Dict.getitem env "world_id") in
  let* _ := lift (Dict.getitem env "branch") in
  let* k := lift (Dict.as_str kind) in
  if negb (String.prefix "memory." k) then Eff.ret tt else
  Eff.catch (translate k env payload) (fun _ => Eff.ret tt).

Definition name : string := "translator_memory_to_emo".

(** [TenancyManager is not None and self.db_pool is not None] for the
    translator's service. *)
Variable tenancy_manager : bool.

(** The translator's [POST /events] route. *)
Definition receive_event (ev : ProjectorSDK.EventPayload)
  : Eff.M (@ProjectorSDK.PState TState) ProjectorSDK.EventResponse :=
  ProjectorSDK.receive_event name apply tenancy_manager ev.

End Translation.

End Translator.

(* ------------------------------------------------------------------ *)
(** ** Envelope library (services/gateway/envelope.py) *)

Module Envelope.

Local Open Scope Z_scope.

(** [dict.pop(k)]: the first member with key [k] removed. *)
Fixpoint remove_key (k : string) (kv : list (string * json)) : list (string * json) :=
  match kv with
  | [] => []
  | (k', v) :: rest => if String.eqb k k' then rest else (k', v) :: remove_key k rest
  end.

Section Lib.

(** [EventEnvelope._validate_timestamp] returns on the value: [dateutil]
    parses it and the UTC check passes. *)
Variable validate_timestamp : json -> bool.

(** [EventEnvelope._validate]: [None] when it returns, else the message of
    the exception it raises. *)
Definition validate (data : list (string * json)) : option string :=
  match List.find (fun f => negb (bool_decide (is_Some (assoc f data))))
                  ["world_id"; "branch"; "kind"; "payload"; "by"] with
  | Some f => Some ("Missing required field: " ++ f)
  | None =>
  match (match assoc "world_id" data with
         | Some (JStr w) => if bool_decide (is_Some (Py.uuid_parse w)) then None
                            else Some "world_id must be valid UUID"
         | _ => Some "object has no attribute 'replace'"
         end) with
  | Some m => Some m
  | None =>
  match fst (Translator.py_in "agent" (default JNull (assoc "by" data)) tt) with
  | inl m => Some m
  | inr false => Some "by.agent is required for audit trail"
  | inr true =>
  match (match assoc "occurred_at" data with
         | Some t => if validate_timestamp t then None
                     else Some ("Invalid RFC3339 timestamp format: " ++ py_str t
                                ++ ". Expected: YYYY-MM-DDTHH:MM:SSZ")
         | None => None
         end) with
  | Some m => Some m
  | None =>
      let bad v := Some ("Unsupported envelope version: " ++ py_str v ++ ". Supported versions: 1, 2") in
      match assoc "version" data with
      | Some (JInt z) => if (z <? 1) || (2 <? z) then bad (JInt z) else None
      | Some (JBool b) => if b then None else bad (JBool b)
      | Some v => bad v
      | None => None
      end
  end
  end
  end
  end.

(** [EventEnvelope.compute_payload_hash]: the canonical JSON of
    [data.get("payload")] alone. *)
Definition compute_payload_hash (data : list (string * json)) : string :=
  Hashlib.sha256_hexdigest (canonical (default JNull (assoc "payload" data))).

(** [EventEnvelope.enrich_with_server_fields]; [stamp] is
    [datetime.utcnow().strftime("%Y-%m-%dT%H:%M:%S.%fZ")], of which [[:-3]]
    keeps all but the last three characters. *)
Definition enrich_with_server_fields (data : list (string * json)) (stamp : string)
    : list (string * json) :=
  let received_at := substring 0 (String.length stamp - 3) stamp ++ "Z" in
  set_key "payload_hash" (JStr (compute_payload_hash data))
    (set_key "received_at" (JStr received_at) data).

(** [EventEnvelope.verify_payload_hash]: [==] of a [str] with any value. *)
Definition verify_payload_hash (data : list (string * json)) (expected_hash : json) : bool :=
  json_eqb (JStr (compute_payload_hash data)) expected_hash.

(** [EventEnvelope.verify_envelope_integrity] on a dict argument (a JSON
    string argument is first decoded by [json.loads]); every exception gives
    [False]. *)
Definition verify_envelope_integrity (envelope_data : list (string * json)) : bool :=
  let expected_hash := default JNull (assoc "payload_hash" envelope_data) in
  let parsed := remove_key "payload_hash" envelope_data in
  if negb (truthy expected_hash) then false
  else match validate parsed with
       | Some _ => false
       | None => verify_payload_hash parsed expected_hash
       end.

End Lib.

End Envelope.

(* ------------------------------------------------------------------ *)
(** ** Properties the proofs are stated with *)

Module Props.

(** [m] leaves the part [f] of the state as it found it. *)
Definition keeps {S T A} (f : S -> T) (m : Eff.M S A) : Prop :=
  forall s, f (snd (m s)) = f s.

(** When [m] raises, the part [f] of the state is as it was before. *)
Definition safe {S T A} (f : S -> T) (m : Eff.M S A) : Prop :=
  forall s, match fst (m s) with inl _ => f (snd (m s)) = f s | inr _ => True end.

(** [m] never raises. *)
Definition nofail {S A} (m : Eff.M S A) : Prop :=
  forall s, exists a, fst (m s) = inr a.

(** The (world_id, branch, idempotency_key) of a log row that has a key. *)
Definition key_of (r : Gateway.LogRow) : option (string * string * string) :=
  match Gateway.lr_idempotency_key r with
  | Some k => Some (Gateway.lr_world_id r, Gateway.lr_branch r, k)
  | None => None
  end.

(** No two log rows share a (world_id, branch, idempotency_key). *)
Definition unique_keys (st : Gateway.Store) : Prop :=
  NoDup (omap key_of (Gateway.event_log st)).

(** The envelope a log row holds, and the [payload_hash] written into it. *)
Definition stored_env (r : Gateway.LogRow) : list (string * json) :=
  match Gateway.lr_envelope r with JObj kv => kv | _ => [] end.

Definition stored_hash (r : Gateway.LogRow) : option string :=
  match assoc "payload_hash" (stored_env r) with Some (JStr h) => Some h | _ => None end.

(** The [emo_envelope.payload] of an event the translator emitted. *)
Definition emitted_payload (r : Translator.EmoEvent) : list (string * json) :=
  match assoc "payload" (Translator.ev_envelope r) with Some (JObj p) => p | _ => [] end.

End Props.

(* ------------------------------------------------------------------ *)
(** ** Views of the state the further properties are stated with *)

Module Views.

Import Props.
Local Open Scope Z_scope.

(** The version [_get_emo_current_version] finds: the cached one, else the
    one the [emo_current] query returns, else 0. *)
Definition found_version (q : string -> json -> json -> string + option Z)
    (s : Translator.TState) (e : string) (w b : json) : Z :=
  match Translator.emo_versions s !! Translator.cache_key e w b with
  | Some v => v
  | None => match q e w b with inr (Some v) => v | _ => 0 end
  end.

(** The [kind] of an event the translator emitted, and the [emo_version] of
    its payload. *)
Definition emitted_kind (r : Translator.EmoEvent) : option json :=
  assoc "kind" (Translator.ev_envelope r).
Definition emitted_version (r : Translator.EmoEvent) : option json :=
  assoc "emo_version" (emitted_payload r).

(** Log rows ordered by [global_seq]. *)
Definition seq_le (a b : Gateway.LogRow) : Prop := Gateway.lr_global_seq a <= Gateway.lr_global_seq b.
Definition seq_lt (a b : Gateway.LogRow) : Prop := Gateway.lr_global_seq a < Gateway.lr_global_seq b.

(** The two halves of the [WHERE] clause of [list_events]: the world, branch
    and kind filter, and the [global_seq > after] filter (skipped when
    [after] is falsy). *)
Definition matches (w br : string) (kind : option string) (r : Gateway.LogRow) : bool :=
  String.eqb (Gateway.lr_world_id r) w && String.eqb (Gateway.lr_branch r) br
  && (if Gateway.truthy_opt kind then String.eqb (Gateway.lr_kind r) (default "" kind) else true).

Definition after_ok (after : option Z) (r : Gateway.LogRow) : bool :=
  match after with
  | Some a => if a =? 0 then true else a <? Gateway.lr_global_seq r
  | None => true
  end.

End Views.

(* ------------------------------------------------------------------ *)
(** ** Fixed inputs *)

Module Inputs.

Local Open Scope Z_scope.

Definition W0 : string := "11111111-2222-3333-4444-555555555555".
Definition corr0 : string := "aaaaaaaa-bbbb-4ccc-8ddd-eeeeeeeeeeee".
Definition eid0 : string := "99999999-8888-4777-8666-555555555555".
Definition eid1 : string := "99999999-8888-4777-8666-555555555556".
Definition now0 : string := "2026-10-17T12:00:00.000000Z".
Definition now1 : string := "2026-10-17T12:00:05.000000Z".

Definition e0 : Gateway.EventEnvelope :=
  {| Gateway.world_id := W0; Gateway.branch := "main"; Gateway.kind := "note.created";
     Gateway.payload := [("id", JStr "n1"); ("title", JStr "T")];
     Gateway.by_ := [("agent", JStr "t")]; Gateway.version := 1;
     Gateway.occurred_at := None; Gateway.causation_id := None |}.

Definition store0 : Gateway.Store :=
  {| Gateway.event_log := []; Gateway.outbox := []; Gateway.next_seq := 1 |}.

(** An [emo.created] event, and the relational state hash after running it
    alone from an empty lens, with [now()] reading [clock]. *)
Definition emo_created_ev : list (string * json) :=
  [("world_id", JStr W0); ("branch", JStr "main"); ("kind", JStr "emo.created");
   ("payload", JObj [("emo_id", JStr "840d60c2-0e54-5d2a-a9a4-e4d4066aabba");
                     ("emo_type", JStr "note"); ("emo_version", JInt 1); ("tenant_id", JStr W0);
                     ("content", JStr "Y"); ("source", JObj [("kind", JStr "agent")])])].

Definition pg_timestamptz (s : string) : option string := Some s.

Definition relational_hash (clock : string) (evs : list (list (string * json) * Z)) : string :=
  let l := snd (Relational.run pg_timestamptz (map (fun e => (fst e, snd e, clock)) evs)
                               (Relational.empty_lens clock)) in
  match fst (Relational.get_state_snapshot W0 "main" l) with
  | inr j => ProjectorSDK.compute_state_hash j
  | inl e => e
  end.

(** An [emo_current] row at version 3 with content "C". *)
Definition emo_row3 : Relational.EmoRow :=
  {| Relational.emo_id := "840d60c2-0e54-5d2a-a9a4-e4d4066aabba"; Relational.emo_type := JStr "note";
     Relational.emo_version := JInt 3; Relational.tenant_id := JStr W0;
     Relational.e_world := W0; Relational.e_branch := "main";
     Relational.mime_type := JStr "text/markdown"; Relational.content := JStr "C";
     Relational.tags := JList []; Relational.source_kind := JStr "agent"; Relational.source_uri := JNull;
     Relational.e_updated_at := "2026-10-17T12:00:00+00:00"; Relational.deleted := false;
     Relational.deleted_at := None; Relational.deletion_reason := JNull |}.

Definition lens3 : Relational.Lens :=
  {| Relational.notes := []; Relational.note_tags := []; Relational.links := [];
     Relational.emo_current := [emo_row3]; Relational.emo_history := []; Relational.emo_links := [];
     Relational.now := "2026-10-17T12:00:10+00:00" |}.

(** An [emo.updated] to version 2 with content "B". *)
Definition emo_updated_v2 : list (string * json) :=
  [("world_id", JStr W0); ("branch", JStr "main"); ("kind", JStr "emo.updated");
   ("payload", JObj [("emo_id", JStr "840d60c2-0e54-5d2a-a9a4-e4d4066aabba");
                     ("emo_version", JInt 2); ("content", JStr "B")])].

(** The translator's collaborators on these inputs: [uuid4()] values, an
    empty [emo_current], and an event log that accepts every insert. *)
Definition uuid4 (n : nat) : string := "00000000-0000-4000-8000-" ++ Hashlib.hex (Hashlib.be_bytes 6 (Z.of_nat n)).
Definition no_emo (e : string) (w b : json) : string + option Z := inr None.
Definition insert_ok (r : Translator.EmoEvent) : option string := None.
Definition insert_down (r : Translator.EmoEvent) : option string := Some "connection is closed".

Definition tstate0 : Translator.TState :=
  {| Translator.emo_versions := ∅; Translator.event_log := []; Translator.uuid4_drawn := 0 |}.

Definition memory_upserted (p : list (string * json)) : list (string * json) :=
  [("world_id", JStr W0); ("branch", JStr "main"); ("kind", JStr "memory.item.upserted");
   ("by", JObj [("agent", JStr "t")]); ("payload", JObj p)].

Definition mem1 : list (string * json) := [("id", JStr "mem1"); ("title", JStr "X"); ("body", JStr "Y")].

Definition note_ev (seq : Z) : ProjectorSDK.EventPayload :=
  {| ProjectorSDK.global_seq := seq; ProjectorSDK.event_id := eid0;
     ProjectorSDK.envelope := [("world_id", JStr W0); ("branch", JStr "main");
                               ("kind", JStr "note.created"); ("payload", JObj [("id", JStr "n1")])];
     ProjectorSDK.payload_hash := None |}.

Definition memory_ev (seq : Z) (p : list (string * json)) : ProjectorSDK.EventPayload :=
  {| ProjectorSDK.global_seq := seq; ProjectorSDK.event_id := eid0;
     ProjectorSDK.envelope := memory_upserted p; ProjectorSDK.payload_hash := None |}.

(** The translator projector with its watermark for (W0, main) at [seq]. *)
Definition at_watermark (seq : Z) : @ProjectorSDK.PState Translator.TState :=
  {| ProjectorSDK.lens := tstate0;
     ProjectorSDK.watermarks := <[(Translator.name, W0, "main") := seq]> ∅ |}.

(** [note_ev 1] with a [payload_hash] that does not match its payload. *)
Definition bad_hash_ev : ProjectorSDK.EventPayload :=
  {| ProjectorSDK.global_seq := 1; ProjectorSDK.event_id := eid0;
     ProjectorSDK.envelope := ProjectorSDK.envelope (note_ev 1);
     ProjectorSDK.payload_hash := Some "00" |}.
(** The relational projector on [lens3] with no watermarks. *)
Definition rel_state0 : @ProjectorSDK.PState Relational.Lens :=
  {| ProjectorSDK.lens := lens3; ProjectorSDK.watermarks := ∅ |}.
(** Payloads of tag, link, note and emo events. *)
Definition tag_kv : list (string * json) := [("id", JStr "n1"); ("tag", JStr "t1")].
Definition link_kv : list (string * json) := [("src", JStr "n1"); ("dst", JStr "n2")].
Definition note_kv (t : string) : list (string * json) := [("id", JStr "n1"); ("title", JStr t)].
Definition emo_kv : list (string * json) := [("emo_id", JStr "840d60c2-0e54-5d2a-a9a4-e4d4066aabba")].
(** An [emo.updated] payload whose [emo_version] is the string "2". *)
Definition emo_updated_str_version : list (string * json) :=
  [("emo_id", JStr "840d60c2-0e54-5d2a-a9a4-e4d4066aabba"); ("emo_version", JStr "2"); ("content", JStr "B")].
(** An [emo.deleted] payload with a reason. *)
Definition emo_deleted_kv : list (string * json) :=
  [("emo_id", JStr "840d60c2-0e54-5d2a-a9a4-e4d4066aabba"); ("deletion_reason", JStr "obsolete")].
(** The translator with version 3 cached for [mem1] in (W0, main). *)
Definition tstate3 : Translator.TState :=
  {| Translator.emo_versions :=
       <[Translator.cache_key (Translator.derive_emo_id (JStr "mem1")) (JStr W0) (JStr "main") := 3]> ∅;
     Translator.event_log := []; Translator.uuid4_drawn := 0 |}.
(** An envelope [_validate] accepts. *)
Definition valid_env : list (string * json) :=
  [("world_id", JStr W0); ("branch", JStr "main"); ("kind", JStr "note.created");
   ("payload", JObj [("id", JStr "n1")]); ("by", JObj [("agent", JStr "t")]); ("version", JInt 1)].

(** The store after accepting [e0], then [e0] again under a new event id. *)
Definition store1 : Gateway.Store := snd (Gateway.create_event store0 e0 None None corr0 now0 eid0).
Definition store2 : Gateway.Store := snd (Gateway.create_event store1 e0 None None corr0 now1 eid1).
(** An event of a kind the relational projector does not handle. *)
Definition unknown_ev : list (string * json) :=
  [("world_id", JStr W0); ("branch", JStr "main"); ("kind", JStr "note.archived");
   ("payload", JObj [("id", JStr "n1")])].

End Inputs.

(* ------------------------------------------------------------------ *)
(** ** The models against CPython on fixed inputs *)

Example sha256_abc :
  Hashlib.hex (Hashlib.sha256 (Hashlib.utf8 "abc")) =
  "ba7816bf8f01cfea414140de5dae2223b00361a396177a9cb410ff61f20015ad".
Proof. vm_compute. reflexivity. Qed.

Example sha256_empty :
  Hashlib.hex (Hashlib.sha256 []) =
  "e3b0c44298fc1c149afbf4c8996fb92427ae41e4649b934ca495991b7852b855".
Proof. vm_compute. reflexivity. Qed.

Example sha1_abc :
  Hashlib.hex (Hashlib.sha1 (Hashlib.utf8 "abc")) = "a9993e364706816aba3e25717850c26c9cd0d89d".
Proof. vm_compute. reflexivity. Qed.

Example sha256_two_blocks :
  Hashlib.hex (Hashlib.sha256 (repeat 97%Z 100)) =
  "2816597888e4a0d3a36b82b83316ab32680eb8f00f8cd3b904d681246d285a0e".
Proof. vm_compute. reflexivity. Qed.

Example canonical_sorts_keys :
  canonical (JObj [("b", JInt 1); ("a", JList [JStr "x"; JNull])]) =
  "{" ++ dq ++ "a" ++ dq ++ ":[" ++ dq ++ "x" ++ dq ++ ",null]," ++ dq ++ "b" ++ dq ++ ":1}".
Proof. reflexivity. Qed.

Example uuid_parse_upper :
  Py.uuid_parse "{6BA7B810-9DAD-11D1-80B4-00C04FD430C8}" = Some "6ba7b810-9dad-11d1-80b4-00c04fd430c8".
Proof. reflexivity. Qed.

Example uuid5_mem1 :
  Translator.derive_emo_id (JStr "mem1") = "840d60c2-0e54-5d2a-a9a4-e4d4066aabba".
Proof. vm_compute. reflexivity. Qed.

Example relational_hash_cpython :
  Inputs.relational_hash "2026-10-17T12:00:00+00:00" [(Inputs.emo_created_ev, 1%Z)] =
  "7ae021cad806202ee777af99905e1f2f36f51c30278f3df1c843b69ae36d963b".
Proof. vm_compute. reflexivity. Qed.

(* ------------------------------------------------------------------ *)
(** ** Lemmas on the effect monad and the handlers *)

Module Facts.

Import Props.

Section Generic.
Context {S T : Type} (f : S -> T).

Lemma keeps_ret {A} (a : A) : keeps f (Eff.ret a).
Proof. intros s; reflexivity. Qed.

Lemma keeps_raise {A} m : keeps f (@Eff.raise S A m).
Proof. intros s; reflexivity. Qed.

Lemma keeps_get : keeps f Eff.get.
Proof. intros s; reflexivity. Qed.

Lemma keeps_bind {A B} (m : Eff.M S A) (k : A -> Eff.M S B) :
  keeps f m -> (forall a, keeps f (k a)) -> keeps f (Eff.bind m k).
Proof.
  intros Hm Hk s; unfold Eff.bind; specialize (Hm s).
  destruct (m s) as [[e|a] s'] eqn:E; simpl in *; [exact Hm|].
  rewrite Hk; exact Hm.
Qed.

Lemma keeps_lift {A} (m : Eff.M unit A) : keeps f (Translator.lift m).
Proof. intros s; reflexivity. Qed.

Lemma keeps_modify (g : S -> S) : (forall s, f (g s) = f s) -> keeps f (Eff.modify g).
Proof. intros H s; apply H. Qed.

Lemma keeps_catch {A} (m : Eff.M S A) h :
  keeps f m -> (forall e, keeps f (h e)) -> keeps f (Eff.catch m h).
Proof.
  intros Hm Hh s; unfold Eff.catch; specialize (Hm s).
  destruct (m s) as [[e|a] s'] eqn:E; simpl in *; [rewrite Hh|]; exact Hm.
Qed.

Lemma keeps_getitem (d : json) k : keeps f (Dict.getitem d k).
Proof. intros s; destruct d; try reflexivity; simpl; destruct (Json.assoc k kv); reflexivity. Qed.

Lemma keeps_dget (d : json) k v : keeps f (Dict.get d k v).
Proof. intros s; destruct d; reflexivity. Qed.

Lemma keeps_as_str (v : json) : keeps f (Dict.as_str v).
Proof. intros s; destruct v; reflexivity. Qed.

Lemma safe_keeps {A} (m : Eff.M S A) : keeps f m -> safe f m.
Proof. intros H s; specialize (H s); destruct (fst (m s)); auto. Qed.

Lemma safe_bind_keeps {A B} (m : Eff.M S A) (k : A -> Eff.M S B) :
  keeps f m -> (forall a, safe f (k a)) -> safe f (Eff.bind m k).
Proof.
  intros Hm Hk s; unfold Eff.bind; specialize (Hm s).
  destruct (m s) as [[e|a] s'] eqn:E; simpl in *; [exact Hm|].
  specialize (Hk a s'); destruct (k a s') as [[e|b] s''] eqn:E2; simpl in *; [|exact I].
  rewrite Hk; exact Hm.
Qed.

Lemma safe_bind_tail {A B} (m : Eff.M S A) (k : A -> Eff.M S B) :
  safe f m -> (forall a, nofail (k a)) -> safe f (Eff.bind m k).
Proof.
  intros Hm Hk s; unfold Eff.bind; specialize (Hm s).
  destruct (m s) as [[e|a] s'] eqn:E; simpl in *; [exact Hm|].
  destruct (Hk a s') as [b Hb]; rewrite Hb; exact I.
Qed.

End Generic.

Lemma nofail_modify {S} (g : S -> S) : nofail (Eff.modify g).
Proof. intros s; exists tt; reflexivity. Qed.

Create HintDb keeps.

#[local] Hint Resolve keeps_ret keeps_raise keeps_get keeps_lift keeps_getitem keeps_dget keeps_as_str : keeps.

Ltac keeps_tac :=
  repeat (first [ apply keeps_bind; [|intro] | apply keeps_catch; [|intro]
                | progress eauto with keeps ]).

Section Trans.
Variables (u : nat -> string) (q : string -> json -> json -> string + option Z)
          (ie : Translator.EmoEvent -> option string).

Lemma version_keeps_log e w b :
  keeps Translator.event_log (Translator.get_emo_current_version q e w b).
Proof.
  intros s; unfold Translator.get_emo_current_version, Eff.bind, Eff.get; simpl.
  destruct (Translator.emo_versions s !! _); [reflexivity|].
  destruct (q e w b); reflexivity.
Qed.

Lemma emit_safe_log env :
  safe Translator.event_log (Translator.emit_emo_event u ie env).
Proof.
  intros s; unfold Translator.emit_emo_event, Eff.bind, Eff.get, Eff.put, Translator.lift; simpl.
  repeat match goal with
  | |- context [match fst (?m tt) with _ => _ end] => destruct (fst (m tt)); simpl
  end; try reflexivity.
  destruct (ie _); simpl; [reflexivity|exact I].
Qed.

Lemma upserted_safe_log env p :
  safe Translator.event_log (Translator.translate_memory_upserted u q ie env p).
Proof.
  unfold Translator.translate_memory_upserted.
  repeat (apply safe_bind_keeps; [first [apply keeps_lift | apply version_keeps_log] | intro]).
  apply safe_bind_tail; [apply emit_safe_log | intros; apply nofail_modify].
Qed.

Lemma deleted_safe_log env p :
  safe Translator.event_log (Translator.translate_memory_deleted u q ie env p).
Proof.
  unfold Translator.translate_memory_deleted.
  repeat (apply safe_bind_keeps; [first [apply keeps_lift | apply version_keeps_log] | intro]).
  destruct (_ =? 0)%Z; [apply safe_keeps, keeps_ret|].
  apply safe_bind_keeps; [apply keeps_lift | intro; apply emit_safe_log].
Qed.

Lemma translate_safe_log k env p :
  safe Translator.event_log (Translator.translate u q ie k env p).
Proof.
  unfold Translator.translate.
  destruct (String.eqb k _); [apply upserted_safe_log|].
  destruct (String.eqb k _); [apply deleted_safe_log|].
  destruct (String.eqb k _); apply safe_keeps; unfold Translator.translate_memory_embed; keeps_tac.
Qed.

End Trans.

Lemma getitem_obj {S} kv k v (s : S) : Json.assoc k kv = Some v -> Dict.getitem (JObj kv) k s = (inr v, s).
Proof. intros H; unfold Dict.getitem; rewrite H; reflexivity. Qed.

Lemma watermark_set_get wm n w b seq :
  ProjectorSDK.get_watermark (ProjectorSDK.set_watermark wm n w b seq) n w b = seq.
Proof. unfold ProjectorSDK.get_watermark, ProjectorSDK.set_watermark. by simplify_map_eq. Qed.

Lemma validate_headers_key idem c fresh h :
  Gateway.validate_headers idem c fresh = inr h ->
  Gateway.idempotency_key h = None \/
  exists k, Gateway.idempotency_key h = Some k /\ k <> "".
Proof.
  unfold Gateway.validate_headers.
  destruct (Gateway.truthy_opt idem && _)%bool eqn:E1; [discriminate|].
  destruct (Gateway.truthy_opt c && _)%bool; [discriminate|].
  intros Hh; injection Hh as <-; simpl.
  destruct (Gateway.truthy_opt idem) eqn:Et; [right|left; reflexivity].
  simpl in E1. eexists; split; [reflexivity|].
  intros Hs; rewrite Hs in E1; discriminate.
Qed.

Lemma find_some_of_in {A} (f : A -> bool) l r :
  In r l -> f r = true -> exists r', List.find f l = Some r'.
Proof.
  intros Hin Hf; destruct (List.find f l) eqn:E; [eauto|].
  rewrite (find_none f l E r Hin) in Hf; discriminate.
Qed.

Lemma not_in_keys st w b k :
  Gateway.check_idempotency st w b k = None ->
  (w, b, k) ∉ omap key_of (Gateway.event_log st).
Proof.
  unfold Gateway.check_idempotency; intros Hn Hin.
  apply list_elem_of_omap in Hin as [r [Hr Hk]].
  apply list_elem_of_In in Hr.
  pose proof (find_none _ _ Hn r Hr) as Hf; simpl in Hf.
  unfold key_of in Hk; destruct (Gateway.lr_idempotency_key r) eqn:Ek; [|discriminate].
  injection Hk as <- <- <-.
  rewrite !String.eqb_refl, bool_decide_true in Hf by reflexivity; discriminate.
Qed.

Lemma create_event_unique st e idem corr fc now eid :
  unique_keys st -> unique_keys (snd (Gateway.create_event st e idem corr fc now eid)).
Proof.
  intros Hu; unfold Gateway.create_event.
  destruct (Gateway.validate_headers _ _ _) as [err|h] eqn:Hv; [destruct err; exact Hu|].
  destruct (Gateway.validate_envelope e) as [err|e']; [destruct err; exact Hu|].
  unfold Gateway.store_event.
  destruct (Py.uuid_parse (Gateway.world_id e')) as [w|]; [|exact Hu].
  destruct (validate_headers_key _ _ _ _ Hv) as [Hk | [k [Hk Hne]]]; rewrite Hk.
  - simpl; unfold unique_keys; simpl.
    rewrite omap_app; simpl. rewrite app_nil_r. exact Hu.
  - assert (Gateway.truthy_opt (Some k) = true) as Ht
      by (simpl; destruct (String.eqb_spec k ""); [contradiction|reflexivity]).
    rewrite Ht.
    destruct (Gateway.check_idempotency st w (Gateway.branch e') k) eqn:Ec; [exact Hu|].
    simpl; unfold unique_keys; simpl.
    rewrite omap_app; simpl.
    apply NoDup_app; split; [exact Hu|]; split; [|constructor; [set_solver|constructor]].
    intros x Hx Hx'. apply list_elem_of_singleton in Hx'; subst x.
    exact (not_in_keys _ _ _ _ Ec Hx).
Qed.

Lemma bind_inr {S A B} (m : Eff.M S A) (k : A -> Eff.M S B) s a s' :
  m s = (inr a, s') -> Eff.bind m k s = k a s'.
Proof. intros H; unfold Eff.bind; rewrite H; reflexivity. Qed.

Lemma dget_obj {S} kv k d (s : S) : Dict.get (JObj kv) k d s = (inr (default d (Json.assoc k kv)), s).
Proof. reflexivity. Qed.

Lemma param_ok n enc v x (l : Relational.Lens) : enc v = inr x -> Relational.param n enc v l = (inr x, l).
Proof. intros H; unfold Relational.param; rewrite H; reflexivity. Qed.

Section Rel.
Context {T : Type} (f : Relational.Lens -> T).

Lemma param_keeps n enc v : keeps f (Relational.param n enc v).
Proof. unfold Relational.param; destruct (enc v); [apply keeps_raise|apply keeps_ret]. Qed.

Lemma uuid_param_keeps v : keeps f (Relational.uuid_param v).
Proof.
  unfold Relational.uuid_param; apply keeps_bind; [apply keeps_as_str|intros s].
  destruct (Py.uuid_parse s); [apply keeps_ret|apply keeps_raise].
Qed.

Lemma py_iter_keeps v : keeps f (Relational.py_iter v).
Proof. intros s; destruct v; reflexivity. Qed.

Lemma for_each_keeps {A} (l : list A) body :
  (forall x, keeps f (body x)) -> keeps f (Relational.for_each l body).
Proof.
  intros Hb; induction l as [|x l IH]; simpl; [apply keeps_ret|].
  apply keeps_bind; [apply Hb|intros; exact IH].
Qed.

End Rel.

#[local] Hint Resolve uuid_param_keeps py_iter_keeps : keeps.

Lemma emo_links_keeps_emos w b p : keeps Relational.emo_current (Relational.handle_emo_links w b p).
Proof.
  unfold Relational.handle_emo_links.
  repeat (first [ solve [eauto with keeps] | apply keeps_bind; [|intro] | apply for_each_keeps; intro
                | apply keeps_modify; reflexivity
                | progress unfold Relational.add_emo_link
                | match goal with |- keeps _ (if ?c then _ else _) => destruct c end ]).
Qed.

Lemma emo_updated_tail_keeps eid v w b p :
  keeps Relational.emo_current
    (let* c := Dict.get p "content" (JStr "") in
     let* h := Relational.compute_emo_content_hash c in
     let* _ := Relational.add_history eid v w b h in
     Relational.handle_emo_links w b p).
Proof.
  apply keeps_bind; [apply keeps_dget|intro c].
  apply keeps_bind; [unfold Relational.compute_emo_content_hash; apply keeps_bind;
                     [apply keeps_as_str | intro; apply keeps_ret] | intro h].
  apply keeps_bind; [unfold Relational.add_history; apply keeps_modify; reflexivity | intro].
  apply emo_links_keeps_emos.
Qed.

Lemma emit_appends u ie env s s' :
  Translator.emit_emo_event u ie env s = (inr tt, s') ->
  exists row, Translator.event_log s' = (Translator.event_log s ++ [row])%list /\
              Translator.ev_envelope row = env.
Proof.
  cbv [Translator.emit_emo_event Eff.bind Eff.get Eff.put Translator.lift Eff.modify Eff.raise Eff.ret].
  intros H; repeat (case_match; simplify_eq/=).
  eexists; split; reflexivity.
Qed.

Lemma build_upsert_shape envelope kv w b eid isnew nv env :
  fst (Translator.build_upsert_envelope envelope (JObj kv) w b eid isnew nv tt) = inr env ->
  exists P, Json.assoc "payload" env = Some (JObj P) /\
    Json.assoc "emo_id" P = Some (JStr eid) /\
    Json.assoc "content" P = Some (default (default (JStr "") (Json.assoc "body" kv)) (Json.assoc "content" kv)).
Proof.
  cbv [Translator.build_upsert_envelope Eff.bind Eff.ret Dict.get].
  intros H; repeat (case_match; simplify_eq/=).
  eexists; split; [reflexivity|]; split; reflexivity.
Qed.

Lemma upsert_emits u q ie envelope kv m s s' :
  Json.assoc "id" kv = Some m ->
  Translator.translate_memory_upserted u q ie envelope (JObj kv) s = (inr tt, s') ->
  exists row, Translator.event_log s' = (Translator.event_log s ++ [row])%list /\
    Json.assoc "emo_id" (emitted_payload row) = Some (JStr (Translator.derive_emo_id m)) /\
    Json.assoc "content" (emitted_payload row) =
      Some (default (default (JStr "") (Json.assoc "body" kv)) (Json.assoc "content" kv)).
Proof.
  intros Hm.
  unfold Translator.translate_memory_upserted.
  assert (Translator.lift (Dict.getitem (JObj kv) "id") s = (inr m, s)) as H1
    by (cbv [Translator.lift Dict.getitem]; rewrite Hm; reflexivity).
  unfold Eff.bind at 1; rewrite H1.
  unfold Eff.bind at 1; destruct (Translator.lift (Dict.getitem envelope "world_id") s) as [[?|w] s1] eqn:E1; [discriminate|].
  unfold Eff.bind at 1; destruct (Translator.lift (Dict.getitem envelope "branch") s1) as [[?|b] s2] eqn:E2; [discriminate|].
  unfold Translator.lift in E1, E2; simpl in E1, E2; injection E1 as _ <-; injection E2 as _ <-.
  pose proof (version_keeps_log q (Translator.derive_emo_id m) w b s) as Hk.
  unfold Eff.bind at 1; destruct (Translator.get_emo_current_version q _ _ _ s) as [[?|cur] s3] eqn:E3;
    [discriminate|]; simpl in Hk.
  unfold Eff.bind at 1; destruct (Translator.lift (Translator.build_upsert_envelope _ _ _ _ _ _ _) s3) as [[?|env] s4] eqn:E4; [discriminate|].
  unfold Translator.lift in E4; injection E4 as Eb <-.
  destruct (build_upsert_shape _ _ _ _ _ _ _ _ Eb) as [P [HP [Hid Hc]]].
  unfold Eff.bind at 1; destruct (Translator.emit_emo_event u ie env s3) as [[?|[]] s5] eqn:E5;
    [discriminate|].
  destruct (emit_appends _ _ _ _ _ E5) as [row [Hlog Henv]].
  unfold Eff.modify; intros Hfin; injection Hfin as <-.
  exists row; simpl; rewrite Hlog, Hk; split; [reflexivity|].
  unfold emitted_payload; rewrite Henv, HP; split; assumption.
Qed.

End Facts.

(* ------------------------------------------------------------------ *)
(** ** The specification's claims *)

Module Claims.

Import Props Facts Inputs.
Local Open Scope Z_scope.

(** C1: [store_event] writes into the envelope a [payload_hash] computed over
    the whole envelope as it stands after [received_at] is added, not over the
    payload alone. On the accepted append of [e0], the stored hash differs
    from SHA-256 of the canonical payload, and [_verify_payload_hash], which
    drops [received_at] and [payload_hash] before hashing, rejects the stored
    envelope with its own hash. *)
Theorem payload_hash_covers_received_at :
  (forall e now,
     assoc "payload_hash" (Gateway.enrich e now) =
     Some (JStr (Gateway.compute_payload_hash
                   (Gateway.envelope_dict e ++ [("received_at", JStr now)])%list))) /\
  exists r,
    Gateway.event_log (snd (Gateway.create_event store0 e0 None None corr0 now0 eid0)) = [r] /\
    stored_hash r <> Some (Hashlib.sha256_hexdigest (canonical (JObj (Gateway.payload e0)))) /\
    ProjectorSDK.verify_payload_hash (stored_env r) (default "" (stored_hash r)) = false.
Proof.
  split.
  - intros e now; reflexivity.
  - eexists; split; [vm_compute; reflexivity|].
    split; [vm_compute; congruence | vm_compute; reflexivity].
Qed.

(** C2: when the log already holds a row with the same (canonical world_id,
    branch, stripped idempotency key), [create_event] raises the 409 whose
    detail is {code: idempotency_conflict, message naming the key,
    correlation_id}, and leaves the store as it was; [http_exception_handler]
    answers it with status 409 and the body {code: http_error, message: the
    Python repr of that detail, correlation_id: null}; and every
    [create_event] keeps the log free of two rows with the same (world_id,
    branch, key). *)
Theorem idempotency_conflict_keeps_store st e idem corr fc now eid k w r :
  Gateway.validate_business_rules e = None ->
  Py.uuid_parse (Gateway.world_id e) = Some w ->
  idem = Some k -> String.length (Py.strip k) <> 0%nat ->
  is_Some (Py.uuid_parse (if Gateway.truthy_opt corr then default "" corr else fc)) ->
  In r (Gateway.event_log st) -> key_of r = Some (w, Gateway.branch e, Py.strip k) ->
  Gateway.create_event st e idem corr fc now eid =
    (Gateway.ErrorResponse 409 "idempotency_conflict" ("Duplicate idempotency key: " ++ Py.strip k)
       (if Gateway.truthy_opt corr then default "" corr else fc), st) /\
  Gateway.create_event_http (fst (Gateway.create_event st e idem corr fc now eid)) =
    (409, JObj [("code", JStr "http_error");
                ("message", JStr (Json.repr (JObj
                   [("code", JStr "idempotency_conflict");
                    ("message", JStr ("Duplicate idempotency key: " ++ Py.strip k));
                    ("correlation_id", JStr (if Gateway.truthy_opt corr then default "" corr else fc))])));
                ("correlation_id", JNull)]) /\
  (forall st' e' idem' corr' fc' now' eid',
     unique_keys st' -> unique_keys (snd (Gateway.create_event st' e' idem' corr' fc' now' eid'))).
Proof.
  intros Hrules Hw -> Hlen Hcorr Hin Hkey.
  enough (Gateway.create_event st e (Some k) corr fc now eid =
    (Gateway.ErrorResponse 409 "idempotency_conflict" ("Duplicate idempotency key: " ++ Py.strip k)
       (if Gateway.truthy_opt corr then default "" corr else fc), st)) as H1.
  { split; [exact H1|split; [|exact create_event_unique]]. rewrite H1; reflexivity. }
  assert (k <> "") as Hk by (intros ->; apply Hlen; reflexivity).
  assert (Py.strip k <> "") as Hsk by (intros Hs; apply Hlen; rewrite Hs; reflexivity).
  unfold Gateway.create_event.
  set (c := if Gateway.truthy_opt corr then default "" corr else fc) in *.
  assert (Gateway.validate_headers (Some k) (Some c) fc =
          inr {| Gateway.idempotency_key := Some (Py.strip k); Gateway.correlation_id := c |}) as Hv.
  { unfold Gateway.validate_headers; simpl.
    destruct (String.eqb_spec k ""); [contradiction|]; simpl.
    destruct (Nat.eqb_spec (String.length (Py.strip k)) 0); [contradiction|]; simpl.
    rewrite bool_decide_true by exact Hcorr; simpl.
    destruct (String.eqb_spec c "") as [Hc0|]; [|reflexivity].
    rewrite Hc0 in Hcorr; destruct Hcorr; discriminate. }
  rewrite Hv.
  unfold Gateway.validate_envelope; rewrite Hrules.
  unfold Gateway.store_event; rewrite Hw; simpl.
  destruct (String.eqb_spec (Py.strip k) ""); [contradiction|]; simpl.
  unfold key_of in Hkey; destruct (Gateway.lr_idempotency_key r) eqn:Ek; [|discriminate].
  injection Hkey as Hrw Hrb Hrk; subst.
  unfold Gateway.check_idempotency.
  destruct (find_some_of_in
              (fun r0 => String.eqb (Gateway.lr_world_id r0) (Gateway.lr_world_id r)
                         && String.eqb (Gateway.lr_branch r0) (Gateway.branch e)
                         && bool_decide (Gateway.lr_idempotency_key r0 = Some (Py.strip k)))
              _ r Hin) as [r' Hr'].
  { rewrite Hrb, !String.eqb_refl, Ek, bool_decide_true by reflexivity; reflexivity. }
  rewrite Hr'; reflexivity.
Qed.

Lemma idempotency_conflict_keeps_store_witness :
  let st := snd (Gateway.create_event store0 e0 (Some "k1") None corr0 now0 eid0) in
  Gateway.create_event st e0 (Some "k1") None corr0 now1 eid1 =
    (Gateway.ErrorResponse 409 "idempotency_conflict" ("Duplicate idempotency key: " ++ Py.strip "k1")
       (if Gateway.truthy_opt None then default "" None else corr0), st) /\
  Gateway.create_event_http (fst (Gateway.create_event st e0 (Some "k1") None corr0 now1 eid1)) =
    (409, JObj [("code", JStr "http_error");
                ("message", JStr (Json.repr (JObj
                   [("code", JStr "idempotency_conflict");
                    ("message", JStr ("Duplicate idempotency key: " ++ Py.strip "k1"));
                    ("correlation_id", JStr (if Gateway.truthy_opt None then default "" None else corr0))])));
                ("correlation_id", JNull)]) /\
  (forall st' e' idem' corr' fc' now' eid',
     unique_keys st' -> unique_keys (snd (Gateway.create_event st' e' idem' corr' fc' now' eid'))).
Proof.
  intros st.
  apply (idempotency_conflict_keeps_store st e0 (Some "k1") None corr0 now1 eid1 "k1" W0
           (List.hd {| Gateway.lr_global_seq := 0; Gateway.lr_event_id := ""; Gateway.lr_world_id := "";
                       Gateway.lr_branch := ""; Gateway.lr_kind := ""; Gateway.lr_envelope := JNull;
                       Gateway.lr_idempotency_key := None |} (Gateway.event_log st))).
  - vm_compute; reflexivity.
  - vm_compute; reflexivity.
  - reflexivity.
  - vm_compute; congruence.
  - eexists; vm_compute; reflexivity.
  - vm_compute; left; reflexivity.
  - vm_compute; reflexivity.
Defined.

(** C2 counterexample: the second append with key "k1" is not answered with
    the first event: it gets a 409 error response carrying no event, whose
    HTTP body has code [http_error] and a null correlation id. *)
Lemma second_append_gets_409_without_event :
  let '(r1, st1) := Gateway.create_event store0 e0 (Some "k1") None corr0 now0 eid0 in
  r1 = Gateway.Accepted eid0 1 now0 corr0 /\
  Gateway.create_event st1 e0 (Some "k1") None corr0 now1 eid1 =
    (Gateway.ErrorResponse 409 "idempotency_conflict" "Duplicate idempotency key: k1" corr0, st1) /\
  Gateway.create_event_http (fst (Gateway.create_event st1 e0 (Some "k1") None corr0 now1 eid1)) =
    (409, JObj [("code", JStr "http_error");
                ("message", JStr "{'code': 'idempotency_conflict', 'message': 'Duplicate idempotency key: k1', 'correlation_id': 'aaaaaaaa-bbbb-4ccc-8ddd-eeeeeeeeeeee'}");
                ("correlation_id", JNull)]).
Proof. vm_compute; split; [|split]; reflexivity. Qed.

(** C3: the relational snapshot carries [updated_at] values that come from
    [now()] at processing time: one [emo.created] event run from an empty
    lens at two different clocks gives two different state hashes. *)
Theorem snapshot_hash_depends_on_clock :
  relational_hash "2026-10-17T12:00:00+00:00" [(emo_created_ev, 1)] <>
  relational_hash "2026-10-17T12:00:01+00:00" [(emo_created_ev, 1)].
Proof. apply String.eqb_neq; vm_compute; reflexivity. Qed.

(** C4: after a reception that ends in [processed], the watermark of
    (name, world_id, branch) is the event's [global_seq], whatever it was
    before: the upsert overwrites, it does not take a maximum. *)
Theorem watermark_overwritten_on_success {L} (name : string) (apply : list (string * json) -> Z -> Eff.M L unit)
  (tenancy_manager : bool) (ev : ProjectorSDK.EventPayload) (p : ProjectorSDK.PState) (w b : string) (n : Z) :
  Json.assoc "world_id" (ProjectorSDK.envelope ev) = Some (JStr w) ->
  Json.assoc "branch" (ProjectorSDK.envelope ev) = Some (JStr b) ->
  fst (ProjectorSDK.receive_event name apply tenancy_manager ev p) = inr (ProjectorSDK.Processed n) ->
  n = ProjectorSDK.global_seq ev /\
  ProjectorSDK.get_watermark (ProjectorSDK.watermarks (snd (ProjectorSDK.receive_event name apply tenancy_manager ev p)))
    name w b = ProjectorSDK.global_seq ev.
Proof.
  destruct ev as [seq eid env ph]; simpl; intros Hw Hb.
  cbv [ProjectorSDK.receive_event ProjectorSDK.receive_body Eff.bind Eff.ret Eff.raise Eff.modify
       Eff.focus Eff.catch Dict.as_str Dict.getitem ProjectorSDK.set_lens
       Tenancy.set_world_context Tenancy.encode_text].
  cbn [ProjectorSDK.envelope ProjectorSDK.payload_hash ProjectorSDK.global_seq].
  rewrite Hw, Hb.
  repeat (case_match; simplify_eq/=).
  all: intros Hr; simplify_eq/=.
  all: split; [reflexivity | apply watermark_set_get].
Qed.

Lemma watermark_overwritten_on_success_witness :
  3 = ProjectorSDK.global_seq (note_ev 3) /\
  ProjectorSDK.get_watermark
    (ProjectorSDK.watermarks
       (snd (ProjectorSDK.receive_event Translator.name (Translator.apply uuid4 no_emo insert_ok) false
               (note_ev 3) (at_watermark 5))))
    Translator.name W0 "main" = ProjectorSDK.global_seq (note_ev 3).
Proof.
  apply (watermark_overwritten_on_success Translator.name (Translator.apply uuid4 no_emo insert_ok) false
           (note_ev 3) (at_watermark 5) W0 "main" 3);
    vm_compute; reflexivity.
Defined.

(** C4 counterexample: where [set_world_context] is not called
    ([TenancyManager] is [None]), a reception of [global_seq] 3 after the
    watermark reached 5 moves the watermark back to 3. *)
Lemma watermark_moves_back :
  ProjectorSDK.get_watermark (ProjectorSDK.watermarks (at_watermark 5)) Translator.name W0 "main" = 5 /\
  ProjectorSDK.get_watermark
    (ProjectorSDK.watermarks (snd (Translator.receive_event uuid4 no_emo insert_ok false (note_ev 3) (at_watermark 5))))
    Translator.name W0 "main" = 3.
Proof. split; vm_compute; reflexivity. Qed.

(** C5: a delivery counts as successful exactly when the projector answers
    200 or 202; an event is published only when every delivery succeeded. *)
Theorem delivery_success_iff_200_or_202 :
  (forall d, Publisher.send_to_projector d = inr tt <->
             exists text, d = Publisher.Status 200 text \/ d = Publisher.Status 202 text) /\
  (forall ds, Publisher.publish_event ds = true <->
              Forall (fun d => Publisher.send_to_projector d = inr tt) ds).
Proof.
  split.
  - intros [c text | m]; simpl; split.
    + destruct (Z.eqb_spec c 200); [subst; eauto|].
      destruct (Z.eqb_spec c 202); [subst; eauto|discriminate].
    + intros [t [H | H]]; injection H as -> ->; reflexivity.
    + discriminate.
    + intros [t [H | H]]; discriminate.
  - intros ds; unfold Publisher.publish_event; rewrite forallb_forall, List.Forall_forall.
    split; intros H d Hd; specialize (H d Hd);
      destruct (Publisher.send_to_projector d) as [|[]]; congruence.
Qed.

(** C5 counterexample: a 409 answer is a failed delivery, and the event it
    belongs to goes to [mark_retry]. *)
Lemma status_409_is_a_failure :
  Publisher.send_to_projector (Publisher.Status 409 "conflict") = inl "Projector returned 409: conflict" /\
  Publisher.publish_status [Publisher.Status 200 ""; Publisher.Status 409 "conflict"] =
    Publisher.MarkRetry "False".
Proof. split; vm_compute; reflexivity. Qed.




(** C7: the EMO event the translator emits for [memory.item.upserted] with
    payload id [m] carries [emo_id = uuid5(6ba7b810-..., "memory:" + str(m))],
    a function of [m] alone. *)
Theorem emo_id_is_uuid5_of_memory_id u q ie envelope kv m s s' :
  assoc "id" kv = Some m ->
  Translator.translate_memory_upserted u q ie envelope (JObj kv) s = (inr tt, s') ->
  Translator.namespace_dns = "6ba7b810-9dad-11d1-80b4-00c04fd430c8" /\
  exists row, Translator.event_log s' = (Translator.event_log s ++ [row])%list /\
    assoc "emo_id" (emitted_payload row) =
      Some (JStr (UUID.uuid5 Translator.namespace_dns ("memory:" ++ py_str m))).
Proof.
  intros Hm Hrun; split; [reflexivity|].
  destruct (upsert_emits u q ie envelope kv m s s' Hm Hrun) as [row [Hlog [Hid _]]].
  exists row; split; [exact Hlog | exact Hid].
Qed.

Lemma emo_id_is_uuid5_of_memory_id_witness :
  let s' := snd (Translator.translate_memory_upserted uuid4 no_emo insert_ok
                   (JObj (memory_upserted mem1)) (JObj mem1) tstate0) in
  Translator.namespace_dns = "6ba7b810-9dad-11d1-80b4-00c04fd430c8" /\
  exists row, Translator.event_log s' = (Translator.event_log tstate0 ++ [row])%list /\
    assoc "emo_id" (emitted_payload row) =
      Some (JStr (UUID.uuid5 Translator.namespace_dns ("memory:" ++ py_str (JStr "mem1")))).
Proof.
  apply (emo_id_is_uuid5_of_memory_id uuid4 no_emo insert_ok (JObj (memory_upserted mem1)) mem1
           (JStr "mem1") tstate0); vm_compute; reflexivity.
Defined.

(** C8: the emitted content is [payload.get("content", payload.get("body", ""))]:
    the title takes no part in it. *)
Theorem emitted_content_is_content_or_body u q ie envelope kv m s s' :
  assoc "id" kv = Some m ->
  Translator.translate_memory_upserted u q ie envelope (JObj kv) s = (inr tt, s') ->
  exists row, Translator.event_log s' = (Translator.event_log s ++ [row])%list /\
    assoc "content" (emitted_payload row) =
      Some (default (default (JStr "") (assoc "body" kv)) (assoc "content" kv)).
Proof.
  intros Hm Hrun.
  destruct (upsert_emits u q ie envelope kv m s s' Hm Hrun) as [row [Hlog [_ Hc]]].
  exists row; split; [exact Hlog | exact Hc].
Qed.

(** On the memory with title "X" and body "Y", the emitted content is "Y". *)
Lemma emitted_content_is_content_or_body_witness :
  let s' := snd (Translator.translate_memory_upserted uuid4 no_emo insert_ok
                   (JObj (memory_upserted mem1)) (JObj mem1) tstate0) in
  exists row, Translator.event_log s' = (Translator.event_log tstate0 ++ [row])%list /\
    assoc "content" (emitted_payload row) = Some (JStr "Y").
Proof.
  apply (emitted_content_is_content_or_body uuid4 no_emo insert_ok (JObj (memory_upserted mem1)) mem1
           (JStr "mem1") tstate0); vm_compute; reflexivity.
Defined.

(** C9: an [Idempotency-Key] header that is present but empty is handled as
    an absent one, by [validate_headers] and by the whole [create_event];
    only a non-empty key made of whitespace is rejected. *)
Theorem empty_idempotency_key_is_absent :
  (forall corr fresh, Gateway.validate_headers (Some "") corr fresh = Gateway.validate_headers None corr fresh) /\
  (forall st e corr fc now eid,
     Gateway.create_event st e (Some "") corr fc now eid = Gateway.create_event st e None corr fc now eid) /\
  (forall corr fresh, Gateway.validate_headers (Some " ") corr fresh =
                      inl (Gateway.ValidationError "Idempotency-Key cannot be empty string")).
Proof. split; [|split]; intros; reflexivity. Qed.




End Claims.

(* ------------------------------------------------------------------ *)
(** ** Further properties of the code *)

From Stdlib Require Import Sorted Permutation.

Module Extras.

Import Props Views Facts Inputs.
Local Open Scope Z_scope.

Module Common.

Lemma assoc_set_key k k' v l :
  assoc k (set_key k' v l) = if String.eqb k k' then Some v else assoc k l.
Proof.
  induction l as [|[k0 v0] l IH]; simpl.
  - destruct (String.eqb k k'); reflexivity.
  - destruct (String.eqb_spec k' k0) as [<-|Hne]; simpl.
    + destruct (String.eqb k k'); reflexivity.
    + rewrite IH. destruct (String.eqb_spec k k') as [->|]; [|reflexivity].
      apply String.eqb_neq in Hne; rewrite Hne; reflexivity.
Qed.

Lemma in_filter_bool {A} (f : A -> bool) l x : In x (filter (fun y => f y) l) <-> In x l /\ f x = true.
Proof.
  induction l as [|y l IH]; [simpl; tauto|].
  rewrite filter_cons; destruct (f y) eqn:Ey.
  - rewrite decide_True by exact I; simpl; rewrite IH; split.
    + intros [<-|[? ?]]; auto.
    + intros [[<-|?] ?]; auto.
  - rewrite decide_False by (intros Hc; exact Hc); simpl; rewrite IH; split.
    + intros [? ?]; auto.
    + intros [[<-|?] ?]; [congruence|auto].
Qed.

Lemma filter_cons_bool {A} (f : A -> bool) x l :
  filter (fun y => f y) (x :: l) = if f x then x :: filter (fun y => f y) l else filter (fun y => f y) l.
Proof.
  rewrite filter_cons. destruct (f x) eqn:E.
  - rewrite decide_True by exact I; reflexivity.
  - rewrite decide_False by (intros Hc; exact Hc); reflexivity.
Qed.

End Common.

Module Validation.

Import Common.
(** [validate_pagination_params] passes [(after, limit)] through unchanged exactly when [1 <= limit <= 1000] and [after] is absent or non-negative; otherwise it raises a [ValidationError]. *)
Theorem pagination_params_accepted after limit :
  (Gateway.validate_pagination_params after limit = inr (after, limit) <->
     (1 <= limit <= 1000 /\ forall a, after = Some a -> 0 <= a)) /\
  (forall r, Gateway.validate_pagination_params after limit = inr r -> r = (after, limit)) /\
  (forall err, Gateway.validate_pagination_params after limit = inl err ->
     exists m, err = Gateway.ValidationError m).
Proof.
  unfold Gateway.validate_pagination_params.
  destruct (Z.leb_spec limit 0); [|destruct (Z.ltb_spec 1000 limit)].
  - split; [split; [discriminate | lia]|]. split; [discriminate|]. intros err [= <-]; eauto.
  - split; [split; [discriminate | lia]|]. split; [discriminate|]. intros err [= <-]; eauto.
  - assert (Z.min limit 1000 = limit) as -> by lia.
    destruct after as [a|]; [destruct (Z.ltb_spec a 0)|]; cbn.
    + split; [split; [discriminate| intros [_ H']; specialize (H' a eq_refl); lia]|].
      split; [discriminate|]. intros err [= <-]; eauto.
    + split; [split; [intros _; split; [lia| intros a' [= <-]; lia] | reflexivity]|].
      split; [intros r [= <-]; reflexivity| discriminate].
    + split; [split; [intros _; split; [lia| discriminate] | reflexivity]|].
      split; [intros r [= <-]; reflexivity| discriminate].
Qed.

(** [create_event] writes only when it accepts: the accepted event gets the next [global_seq], one log row and one outbox entry; an error answer leaves the store as it was. *)
Theorem create_event_writes_only_on_accept st e idem corr fc now eid :
  match Gateway.create_event st e idem corr fc now eid with
  | (Gateway.Accepted eid' seq ra c, st') =>
      eid' = eid /\ seq = Gateway.next_seq st /\ ra = now /\
      Gateway.outbox st' = (Gateway.outbox st ++ [seq])%list /\ Gateway.next_seq st' = seq + 1 /\
      exists w, Py.uuid_parse (Gateway.world_id e) = Some w /\
      Gateway.event_log st' = (Gateway.event_log st ++
        [{| Gateway.lr_global_seq := seq; Gateway.lr_event_id := eid; Gateway.lr_world_id := w;
            Gateway.lr_branch := Gateway.branch e; Gateway.lr_kind := Gateway.kind e;
            Gateway.lr_envelope := JObj (Gateway.enrich e now);
            Gateway.lr_idempotency_key :=
              if Gateway.truthy_opt idem then Some (Py.strip (default "" idem)) else None |}])%list
  | (Gateway.ErrorResponse _ _ _ _, st') => st' = st
  end.
Proof.
  unfold Gateway.create_event.
  destruct (Gateway.validate_headers _ _ _) as [err|h] eqn:Eh; [destruct err; reflexivity|].
  destruct (Gateway.validate_envelope e) as [err|e'] eqn:Ev; [destruct err; reflexivity|].
  assert (e' = e) as ->.
  { unfold Gateway.validate_envelope in Ev. destruct (Gateway.validate_business_rules e); congruence. }
  unfold Gateway.store_event.
  destruct (Py.uuid_parse (Gateway.world_id e)) as [w|] eqn:Ew; [|reflexivity].
  destruct (match Gateway.idempotency_key h with Some k => _ | None => None end) as [r|];
    [reflexivity|].
  cbn. repeat split; try reflexivity. exists w; split; [reflexivity|].
  unfold Gateway.validate_headers in Eh.
  destruct (_ && _); [discriminate|]. destruct (_ && _); [discriminate|].
  injection Eh as <-. reflexivity.
Qed.

End Validation.

Module Reception.

Import Common.
Lemma receive_error_keeps_watermarks {L} name (apply : list (string * json) -> Z -> Eff.M L unit) t ev p :
  (forall env seq l a l', apply env seq l = (inr a, l') -> is_Some (Json.assoc "kind" env)) ->
  forall s m, fst (ProjectorSDK.receive_event name apply t ev p) = inr (ProjectorSDK.HttpError s m) ->
  ProjectorSDK.watermarks (snd (ProjectorSDK.receive_event name apply t ev p)) = ProjectorSDK.watermarks p.
Proof.
  intros Hk s m.
  destruct ev as [seq eid env ph].
  unfold ProjectorSDK.receive_event, ProjectorSDK.receive_body.
  cbv [Eff.catch Eff.bind Eff.ret Eff.raise Eff.modify Eff.focus Dict.getitem Dict.as_str
       ProjectorSDK.set_lens ProjectorSDK.envelope ProjectorSDK.payload_hash ProjectorSDK.global_seq
       Tenancy.set_world_context Tenancy.encode_text].
  destruct (Gateway.truthy_opt ph); [destruct (ProjectorSDK.verify_payload_hash env _)|]; cbn; try reflexivity;
  (destruct (Json.assoc "world_id" env) as [[]|]; cbn; try reflexivity);
  (destruct (Py.uuid_parse _); cbn; try reflexivity);
  (destruct t; cbn; try reflexivity);
  (destruct (apply env seq (ProjectorSDK.lens p)) as [[e|a] l'] eqn:Ea; cbn; try reflexivity);
  (destruct (Json.assoc "branch" env) as [[]|]; cbn; try reflexivity);
  (destruct (Hk _ _ _ _ _ Ea) as [v Hv]; rewrite Hv; cbn; discriminate).
Qed.

(** When the relational projector answers an event with an HTTP error, its watermarks are as they were. *)
Theorem relational_error_keeps_watermarks pg t ev p s m :
  fst (ProjectorSDK.receive_event "relational" (Relational.apply pg) t ev p) = inr (ProjectorSDK.HttpError s m) ->
  ProjectorSDK.watermarks (snd (ProjectorSDK.receive_event "relational" (Relational.apply pg) t ev p)) = ProjectorSDK.watermarks p.
Proof.
  apply receive_error_keeps_watermarks; intros env seq l a l' H.
  unfold Relational.apply, Eff.bind, Dict.getitem in H.
  destruct (Json.assoc "kind" env); [eauto|discriminate].
Qed.

(** When the translator answers an event with an HTTP error, its watermarks are as they were. *)
Theorem translator_error_keeps_watermarks u q ie t ev p s m :
  fst (Translator.receive_event u q ie t ev p) = inr (ProjectorSDK.HttpError s m) ->
  ProjectorSDK.watermarks (snd (Translator.receive_event u q ie t ev p)) = ProjectorSDK.watermarks p.
Proof.
  apply receive_error_keeps_watermarks; intros env seq l a l' H.
  unfold Translator.apply, Eff.bind, Translator.lift, Dict.getitem in H.
  destruct (Json.assoc "kind" env); [eauto|discriminate].
Qed.

(** An event whose non-empty [payload_hash] does not match its envelope is answered 500 with the detail "400: Payload hash mismatch", and the projector state is left as it was. *)
Lemma hash_mismatch_answers_500 {L} name (apply : list (string * json) -> Z -> Eff.M L unit) t ev p h :
  ProjectorSDK.payload_hash ev = Some h -> h <> "" ->
  ProjectorSDK.verify_payload_hash (ProjectorSDK.envelope ev) h = false ->
  ProjectorSDK.receive_event name apply t ev p = (inr (ProjectorSDK.HttpError 500 "400: Payload hash mismatch"), p).
Proof.
  intros Hh Hne Hv.
  unfold ProjectorSDK.receive_event, ProjectorSDK.receive_body, Eff.catch, Eff.bind.
  rewrite Hh. unfold Gateway.truthy_opt.
  destruct (String.eqb_spec h ""); [congruence|]. cbn. rewrite Hv. reflexivity.
Qed.


Lemma hash_mismatch_answers_500_witness :
  ProjectorSDK.receive_event "relational" (Relational.apply pg_timestamptz) true bad_hash_ev rel_state0 =
  (inr (ProjectorSDK.HttpError 500 "400: Payload hash mismatch"), rel_state0).
Proof.
  apply (hash_mismatch_answers_500 _ _ _ _ _ "00"); [reflexivity|discriminate|vm_compute; reflexivity].
Defined.

Lemma relational_error_keeps_watermarks_witness :
  ProjectorSDK.watermarks (snd (ProjectorSDK.receive_event "relational" (Relational.apply pg_timestamptz)
                                  true bad_hash_ev rel_state0)) = ProjectorSDK.watermarks rel_state0.
Proof.
  apply (relational_error_keeps_watermarks _ _ _ _ 500 "400: Payload hash mismatch").
  vm_compute; reflexivity.
Defined.

(** With [TenancyManager] imported and the pool open, [set_world_context]
    raises on every event that reaches it, so every reception is answered 500
    and leaves the projector state, lens and watermarks, as it was. *)
Theorem tenancy_step_rejects_every_event {L} name (apply : list (string * json) -> Z -> Eff.M L unit) ev p :
  exists m, ProjectorSDK.receive_event name apply true ev p = (inr (ProjectorSDK.HttpError 500 m), p).
Proof.
  destruct ev as [seq eid env ph].
  unfold ProjectorSDK.receive_event, ProjectorSDK.receive_body.
  cbv [Eff.catch Eff.bind Eff.ret Eff.raise Dict.getitem Dict.as_str
       ProjectorSDK.envelope ProjectorSDK.payload_hash ProjectorSDK.global_seq
       Tenancy.set_world_context Tenancy.encode_text].
  destruct (Gateway.truthy_opt ph); [destruct (ProjectorSDK.verify_payload_hash env _)|]; cbn;
    try (eexists; reflexivity);
  (destruct (Json.assoc "world_id" env) as [[]|]; cbn; try (eexists; reflexivity));
  (destruct (Py.uuid_parse _); cbn; eexists; reflexivity).
Qed.

Lemma translator_error_keeps_watermarks_witness :
  ProjectorSDK.watermarks (snd (Translator.receive_event uuid4 no_emo insert_ok false bad_hash_ev (at_watermark 0))) =
  ProjectorSDK.watermarks (at_watermark 0).
Proof.
  apply (translator_error_keeps_watermarks _ _ _ _ _ _ 500 "400: Payload hash mismatch").
  vm_compute; reflexivity.
Defined.

End Reception.

Module RelationalHandlers.

Import Common.
Import Relational.

#[local] Hint Resolve keeps_ret keeps_raise keeps_get keeps_lift keeps_getitem keeps_dget keeps_as_str
  uuid_param_keeps py_iter_keeps : keeps.

Lemma lens_eta l :
  {| notes := notes l; note_tags := note_tags l; links := links l; emo_current := emo_current l;
     emo_history := emo_history l; emo_links := emo_links l; now := now l |} = l.
Proof. destruct l; reflexivity. Qed.

Lemma text_param_keeps {T} (f : Lens -> T) v : keeps f (text_param v).
Proof. intros s; destruct v; reflexivity. Qed.

Lemma ts_or_now_keeps {T} (f : Lens -> T) pg v : keeps f (ts_or_now pg v).
Proof. intros s; destruct v; try reflexivity; simpl; destruct (pg s0); reflexivity. Qed.

#[local] Hint Resolve text_param_keeps ts_or_now_keeps : keeps.

(** [_handle_note_updated] adds and removes no note: the key and [created_at] of every note are as before. *)
Theorem note_updated_never_inserts pg w b p l :
  map (fun n => (n_world n, n_branch n, note_id n, created_at n))
      (notes (snd (handle_note_updated pg w b p l))) =
  map (fun n => (n_world n, n_branch n, note_id n, created_at n)) (notes l).
Proof.
  revert l. change (keeps (fun l => map (fun n => (n_world n, n_branch n, note_id n, created_at n)) (notes l))
                         (handle_note_updated pg w b p)).
  unfold handle_note_updated; keeps_tac.
  apply keeps_modify; intros l; simpl.
  rewrite map_map; apply map_ext; intros n.
  destruct (_ && _ && _) eqn:E; [|reflexivity].
  apply andb_true_iff in E as [[E1 % String.eqb_eq E2 % String.eqb_eq] % andb_true_iff E3 % String.eqb_eq].
  subst; reflexivity.
Qed.

Lemma filter_keep_all {A} (f : A -> bool) l : (forall x, In x l -> f x = true) -> filter f l = l.
Proof.
  induction l as [|x l IH]; intros H; [reflexivity|].
  rewrite filter_cons, decide_True by (rewrite (H x (or_introl eq_refl)); exact I).
  rewrite IH; [reflexivity|intros y Hy; apply H; right; exact Hy].
Qed.

Lemma existsb_false_of {A} (f : A -> bool) l : (forall x, In x l -> f x = false) -> existsb f l = false.
Proof.
  induction l as [|x l IH]; intros H; cbn [existsb]; [reflexivity|].
  rewrite (H x (or_introl eq_refl)); apply IH; intros y Hy; apply H; right; exact Hy.
Qed.

Lemma ts_or_now_state pg v l : snd (ts_or_now pg v l) = l.
Proof. exact (ts_or_now_keeps id pg v l). Qed.

Ltac eqb_split :=
  repeat match goal with
  | H : (_ && _)%bool = true |- _ => apply andb_true_iff in H as [? ?]
  | H : String.eqb _ _ = true |- _ => apply String.eqb_eq in H
  end.

(** Adding a tag the note does not have, then removing it, gives back the original lens. *)
Theorem tag_add_then_remove_restores pg w b kv id tg l l1 :
  Json.assoc "id" kv = Some (JStr id) -> Json.assoc "tag" kv = Some (JStr tg) ->
  ~ (exists r, In r (note_tags l) /\ t_world r = w /\ t_branch r = b /\ t_note_id r = id /\ tag r = tg) ->
  handle_tag_added pg w b (JObj kv) l = (inr tt, l1) ->
  handle_tag_removed w b (JObj kv) l1 = (inr tt, l).
Proof.
  intros Hid Htg Hnew.
  unfold handle_tag_added; cbv [Eff.bind Eff.ret Eff.modify Dict.getitem Dict.get Dict.as_str].
  rewrite Hid, Htg.
  pose proof (ts_or_now_state pg (default JNull (Json.assoc "applied_at" kv)) l) as Hs.
  destruct (ts_or_now pg _ l) as [[e|ts] l0]; simpl in Hs; subst l0; [discriminate|].
  unfold set_tags; cbn beta iota.
  rewrite existsb_false_of.
  2:{ intros r Hr; destruct (_ && _ && _ && _)%bool eqn:E; [|reflexivity].
      exfalso; apply Hnew; eqb_split; exists r; tauto. }
  intros H; injection H as <-.
  unfold handle_tag_removed; cbv [Eff.bind Eff.ret Eff.modify Dict.getitem Dict.get Dict.as_str].
  rewrite Hid, Htg; unfold set_tags; simpl.
  rewrite filter_app, filter_keep_all; simpl.
  - rewrite filter_cons, !String.eqb_refl; simpl; rewrite app_nil_r, lens_eta; reflexivity.
  - intros r Hr; destruct (_ && _ && _ && _)%bool eqn:E; [|reflexivity].
    exfalso; apply Hnew; eqb_split; exists r; tauto.
Qed.

(** Adding a link that does not exist yet, then removing it, gives back the original lens. *)
Theorem link_add_then_remove_restores pg w b kv s d lt l l1 :
  Json.assoc "src" kv = Some (JStr s) -> Json.assoc "dst" kv = Some (JStr d) ->
  default (JStr "default") (Json.assoc "link_type" kv) = JStr lt ->
  ~ (exists r, In r (links l) /\ l_world r = w /\ l_branch r = b /\ src_id r = s /\ dst_id r = d /\ link_type r = lt) ->
  handle_link_added pg w b (JObj kv) l = (inr tt, l1) ->
  handle_link_removed w b (JObj kv) l1 = (inr tt, l).
Proof.
  intros Hs Hd Hlt Hnew.
  unfold handle_link_added; cbv [Eff.bind Eff.ret Eff.modify Dict.getitem Dict.get Dict.as_str].
  rewrite Hs, Hd, Hlt.
  pose proof (ts_or_now_state pg (default JNull (Json.assoc "created_at" kv)) l) as Hst.
  destruct (ts_or_now pg _ l) as [[e|ts] l0]; simpl in Hst; subst l0; [discriminate|].
  unfold set_links; cbn beta iota.
  rewrite existsb_false_of.
  2:{ intros r Hr; destruct (_ && _ && _ && _ && _)%bool eqn:E; [|reflexivity].
      exfalso; apply Hnew; eqb_split; exists r; tauto. }
  intros H; injection H as <-.
  unfold handle_link_removed; cbv [Eff.bind Eff.ret Eff.modify Dict.getitem Dict.get Dict.as_str].
  rewrite Hs, Hd, Hlt; unfold set_links; simpl.
  rewrite filter_app, filter_keep_all; simpl.
  - rewrite filter_cons, !String.eqb_refl; simpl; rewrite app_nil_r, lens_eta; reflexivity.
  - intros r Hr; destruct (_ && _ && _ && _ && _)%bool eqn:E; [|reflexivity].
    exfalso; apply Hnew; eqb_split; exists r; tauto.
Qed.

Ltac eff_cases :=
  repeat match goal with
  | H : context [match ?x with _ => _ end] |- _ =>
      lazymatch x with
      | ts_or_now _ _ _ => fail
      | _ => destruct x eqn:?
      end
  | H : context [ts_or_now ?pg ?v ?l] |- _ =>
      let E := fresh "Ets" in
      pose proof (ts_or_now_state pg v l) as E;
      destruct (ts_or_now pg v l) as [[?|?] ?]; simpl in E; subst
  end; simplify_eq/=.

Lemma note_created_effect pg w b kv id l l1 :
  Json.assoc "id" kv = Some (JStr id) ->
  handle_note_created pg w b (JObj kv) l = (inr tt, l1) ->
  exists n, n_world n = w /\ n_branch n = b /\ note_id n = id /\
    l1 = set_notes (fun ns => if existsb (fun n => String.eqb (n_world n) w && String.eqb (n_branch n) b
                                                  && String.eqb (note_id n) id) ns
                              then ns else (ns ++ [n])%list) l.
Proof.
  intros Hid H.
  unfold handle_note_created, text_param in H;
  cbv [Eff.bind Eff.ret Eff.raise Eff.modify Dict.getitem Dict.get Dict.as_str] in H.
  rewrite Hid in H.
  eff_cases; match goal with |- context [(_ ++ [?r])%list] => exists r end; split_and!; reflexivity.
Qed.

Lemma safe_modify {S} (g : S -> S) : safe id (Eff.modify g).
Proof. intros s; exact I. Qed.

Ltac safe_tac :=
  repeat (first [ apply safe_modify
                | apply safe_bind_keeps; [solve [eauto with keeps] | intro] ]).

Lemma note_created_safe pg w b p : safe id (handle_note_created pg w b p).
Proof. unfold handle_note_created; safe_tac. Qed.

Lemma existsb_app_r {A} (f : A -> bool) l x : f x = true -> existsb f (l ++ [x]) = true.
Proof. intros H; rewrite existsb_app; simpl; rewrite H, orb_true_r; reflexivity. Qed.

(** After [note.created] the note exists, and a second [note.created] with the same id changes nothing ([ON CONFLICT DO NOTHING]). *)
Theorem note_created_first_write_wins pg w b kv kv2 id l l1 :
  Json.assoc "id" kv = Some (JStr id) -> Json.assoc "id" kv2 = Some (JStr id) ->
  handle_note_created pg w b (JObj kv) l = (inr tt, l1) ->
  (exists n, In n (notes l1) /\ n_world n = w /\ n_branch n = b /\ note_id n = id) /\
  snd (handle_note_created pg w b (JObj kv2) l1) = l1.
Proof.
  intros Hid Hid2 H1.
  destruct (note_created_effect _ _ _ _ _ _ _ Hid H1) as [n [Hw [Hb [Hn ->]]]].
  set (key := fun n0 => (String.eqb (n_world n0) w && String.eqb (n_branch n0) b && String.eqb (note_id n0) id)%bool).
  assert (existsb key (notes (set_notes (fun ns => if existsb key ns then ns else (ns ++ [n])%list) l)) = true) as Hex.
  { unfold set_notes; simpl. destruct (existsb key (notes l)) eqn:E; [exact E|].
    apply existsb_app_r; unfold key; subst; rewrite !String.eqb_refl; reflexivity. }
  split.
  - apply existsb_exists in Hex as [n' [Hin Hk]]; unfold key in Hk; eqb_split.
    exists n'; repeat split; assumption.
  - set (l1 := set_notes _ l) in *.
    destruct (handle_note_created pg w b (JObj kv2) l1) as [[e|[]] l2] eqn:E2; simpl.
    + pose proof (note_created_safe pg w b (JObj kv2) l1) as Hs; rewrite E2 in Hs; exact Hs.
    + destruct (note_created_effect _ _ _ _ _ _ _ Hid2 E2) as [n2 [_ [_ [_ ->]]]].
      fold key; unfold set_notes at 1; rewrite Hex; apply lens_eta.
Qed.

Lemma eqb3_false a b c a' b' c' :
  (String.eqb a a' && String.eqb b b' && String.eqb c c')%bool = false <-> ~ (a = a' /\ b = b' /\ c = c').
Proof.
  destruct (String.eqb_spec a a'), (String.eqb_spec b b'), (String.eqb_spec c c'); simpl;
    split; intros; try tauto; try discriminate; exfalso; tauto.
Qed.

(** [note.deleted] always succeeds, keeps every note row, and drops exactly the note's tags and the links from or to it. *)
Theorem note_deleted_drops_tags_and_links w b kv id l :
  Json.assoc "id" kv = Some (JStr id) ->
  fst (handle_note_deleted w b (JObj kv) l) = inr tt /\
  map (fun n => (n_world n, n_branch n, note_id n, title n, body n, created_at n))
      (notes (snd (handle_note_deleted w b (JObj kv) l))) =
  map (fun n => (n_world n, n_branch n, note_id n, title n, body n, created_at n)) (notes l) /\
  (forall t, In t (note_tags (snd (handle_note_deleted w b (JObj kv) l))) <->
             In t (note_tags l) /\ ~ (t_world t = w /\ t_branch t = b /\ t_note_id t = id)) /\
  (forall r, In r (links (snd (handle_note_deleted w b (JObj kv) l))) <->
             In r (links l) /\ ~ (l_world r = w /\ l_branch r = b /\ (src_id r = id \/ dst_id r = id))).
Proof.
  intros Hid.
  unfold handle_note_deleted;
  cbv [Eff.bind Eff.ret Eff.raise Eff.modify Eff.get Dict.getitem Dict.get Dict.as_str].
  rewrite Hid; simpl.
  split; [reflexivity|]. split; [|split].
  - rewrite map_map; apply map_ext; intros n.
    destruct (_ && _ && _)%bool eqn:E; [eqb_split; subst; reflexivity|reflexivity].
  - intros t; rewrite in_filter_bool, negb_true_iff, eqb3_false. reflexivity.
  - intros r; rewrite in_filter_bool, negb_true_iff.
    destruct (String.eqb_spec (l_world r) w), (String.eqb_spec (l_branch r) b),
             (String.eqb_spec (src_id r) id), (String.eqb_spec (dst_id r) id); simpl;
      intuition (try discriminate; try congruence).
Qed.


(** An [emo.updated] whose [emo_version], [content], [tags] or [mime_type]
    (after their defaults) fails its asyncpg encoder raises before the
    [UPDATE] runs, and the lens is left as it was. *)
Theorem emo_updated_ill_typed_keeps_lens w b kv l :
  (exists m, encode_int4 (default JNull (Json.assoc "emo_version" kv)) = inl m) \/
  (exists m, encode_text (default JNull (Json.assoc "content" kv)) = inl m) \/
  (exists m, encode_text_array (default (JList []) (Json.assoc "tags" kv)) = inl m) \/
  (exists m, encode_text (default (JStr "text/markdown") (Json.assoc "mime_type" kv)) = inl m) ->
  exists m, handle_emo_updated w b (JObj kv) l = (inl m, l).
Proof.
  intros H.
  unfold handle_emo_updated, uuid_param, param.
  cbv [Eff.bind Eff.ret Eff.raise Dict.getitem Dict.get Dict.as_str].
  destruct (Json.assoc "emo_version" kv) as [v|];
    [|destruct (Json.assoc "emo_id" kv); eexists; reflexivity].
  destruct (Json.assoc "emo_id" kv) as [[]|]; try (eexists; reflexivity).
  match goal with |- context [Py.uuid_parse ?x] => destruct (Py.uuid_parse x) end;
    [|eexists; reflexivity].
  simpl in H.
  destruct (encode_int4 v) eqn:E1; [eexists; reflexivity|].
  destruct (encode_text (default JNull (Json.assoc "content" kv))) eqn:E2; [eexists; reflexivity|].
  destruct (encode_text_array (default (JList []) (Json.assoc "tags" kv))) eqn:E3; [eexists; reflexivity|].
  destruct (encode_text (default (JStr "text/markdown") (Json.assoc "mime_type" kv))) eqn:E4;
    [eexists; reflexivity|].
  exfalso; destruct H as [[m Hm]|[[m Hm]|[[m Hm]|[m Hm]]]]; congruence.
Qed.

Lemma find_none_of {A} (f : A -> bool) l : (forall x, In x l -> f x = false) -> List.find f l = None.
Proof.
  induction l as [|x l IH]; intros H; simpl; [reflexivity|].
  rewrite (H x (or_introl eq_refl)); apply IH; intros y Hy; apply H; right; exact Hy.
Qed.

(** An event whose kind the relational projector does not handle leaves the lens as it was. *)
Theorem unknown_kind_keeps_lens pg env seq l ks :
  Json.assoc "kind" env = Some (JStr ks) ->
  ~ In ks ["note.created"; "note.updated"; "note.deleted"; "tag.added"; "tag.removed";
           "link.added"; "link.removed"; "emo.created"; "emo.updated"; "emo.linked"; "emo.deleted"] ->
  snd (apply pg env seq l) = l.
Proof.
  intros Hk Hn.
  unfold apply; cbv [Eff.bind Eff.ret Eff.raise Dict.getitem Dict.as_str].
  rewrite Hk.
  destruct (Json.assoc "payload" env); [|reflexivity].
  destruct (Json.assoc "world_id" env) as [[]|]; destruct (Json.assoc "branch" env) as [[]|];
    cbn [fst snd]; try reflexivity.
  rewrite !find_none_of; [reflexivity| |];
    intros h Hin; simpl in Hin;
    repeat destruct Hin as [<-|Hin]; try contradiction;
    apply String.eqb_neq; intros <-; apply Hn; simpl; tauto.
Qed.


Lemma tag_add_then_remove_restores_witness :
  Relational.handle_tag_removed W0 "main" (JObj tag_kv)
    (snd (Relational.handle_tag_added pg_timestamptz W0 "main" (JObj tag_kv) lens3)) = (inr tt, lens3).
Proof.
  apply (tag_add_then_remove_restores pg_timestamptz W0 "main" tag_kv "n1" "t1");
    [reflexivity|reflexivity|intros [r [[] _]]|vm_compute; reflexivity].
Defined.

Lemma link_add_then_remove_restores_witness :
  Relational.handle_link_removed W0 "main" (JObj link_kv)
    (snd (Relational.handle_link_added pg_timestamptz W0 "main" (JObj link_kv) lens3)) = (inr tt, lens3).
Proof.
  apply (link_add_then_remove_restores pg_timestamptz W0 "main" link_kv "n1" "n2" "default");
    [reflexivity|reflexivity|reflexivity|intros [r [[] _]]|vm_compute; reflexivity].
Defined.

Lemma note_created_first_write_wins_witness :
  let l1 := snd (Relational.handle_note_created pg_timestamptz W0 "main" (JObj (note_kv "T")) lens3) in
  (exists n, In n (Relational.notes l1) /\ Relational.n_world n = W0 /\ Relational.n_branch n = "main" /\
             Relational.note_id n = "n1") /\
  snd (Relational.handle_note_created pg_timestamptz W0 "main" (JObj (note_kv "U")) l1) = l1.
Proof.
  apply (note_created_first_write_wins pg_timestamptz W0 "main" (note_kv "T") (note_kv "U") "n1" lens3);
    [reflexivity|reflexivity|vm_compute; reflexivity].
Defined.

Lemma note_deleted_drops_tags_and_links_witness :
  let l := snd (Relational.handle_tag_added pg_timestamptz W0 "main" (JObj tag_kv) lens3) in
  fst (Relational.handle_note_deleted W0 "main" (JObj (note_kv "T")) l) = inr tt /\
  map (fun n => (Relational.n_world n, Relational.n_branch n, Relational.note_id n, Relational.title n,
                 Relational.body n, Relational.created_at n))
      (Relational.notes (snd (Relational.handle_note_deleted W0 "main" (JObj (note_kv "T")) l))) =
  map (fun n => (Relational.n_world n, Relational.n_branch n, Relational.note_id n, Relational.title n,
                 Relational.body n, Relational.created_at n)) (Relational.notes l) /\
  (forall t, In t (Relational.note_tags (snd (Relational.handle_note_deleted W0 "main" (JObj (note_kv "T")) l))) <->
             In t (Relational.note_tags l) /\
             ~ (Relational.t_world t = W0 /\ Relational.t_branch t = "main" /\ Relational.t_note_id t = "n1")) /\
  (forall r, In r (Relational.links (snd (Relational.handle_note_deleted W0 "main" (JObj (note_kv "T")) l))) <->
             In r (Relational.links l) /\
             ~ (Relational.l_world r = W0 /\ Relational.l_branch r = "main" /\
                (Relational.src_id r = "n1" \/ Relational.dst_id r = "n1"))).
Proof.
  apply (note_deleted_drops_tags_and_links W0 "main" (note_kv "T") "n1"); reflexivity.
Defined.


Lemma emo_updated_ill_typed_keeps_lens_witness :
  exists m, Relational.handle_emo_updated W0 "main" (JObj emo_updated_str_version) lens3 = (inl m, lens3).
Proof.
  apply emo_updated_ill_typed_keeps_lens; left; eexists; vm_compute; reflexivity.
Defined.

Lemma unknown_kind_keeps_lens_witness :
  snd (Relational.apply pg_timestamptz unknown_ev 7 lens3) = lens3.
Proof.
  apply (unknown_kind_keeps_lens pg_timestamptz unknown_ev 7 lens3 "note.archived");
    [reflexivity|].
  intros H; repeat (destruct H as [H|H]; [discriminate H|]); exact H.
Defined.

End RelationalHandlers.

Module Translation.

Import Common.
Import Translator.

Lemma emit_effect u ie env s s' :
  emit_emo_event u ie env s = (inr tt, s') ->
  exists row, event_log s' = (event_log s ++ [row])%list /\ ev_envelope row = env /\
              emo_versions s' = emo_versions s.
Proof.
  cbv [emit_emo_event Eff.bind Eff.get Eff.put lift Eff.modify Eff.raise Eff.ret].
  intros H; repeat (case_match; simplify_eq/=).
  eexists; split_and!; reflexivity.
Qed.

Lemma current_version_effect q e w b s :
  exists s1, get_emo_current_version q e w b s = (inr (found_version q s e w b), s1) /\
    event_log s1 = event_log s /\
    (forall k, k <> cache_key e w b -> emo_versions s1 !! k = emo_versions s !! k).
Proof.
  unfold get_emo_current_version, found_version; cbv [Eff.bind Eff.get Eff.ret Eff.modify].
  destruct (emo_versions s !! _) eqn:E; [eexists; split_and!; reflexivity|].
  destruct (q e w b) as [err|[v|]].
  - eexists; split_and!; reflexivity.
  - replace (if v =? 0 then 0 else v) with v by (destruct (Z.eqb_spec v 0); subst; reflexivity).
    eexists; split; [reflexivity|split; [reflexivity|]].
    intros k Hk; simpl; apply lookup_insert_ne; congruence.
  - eexists; split; [reflexivity|split; [reflexivity|]].
    intros k Hk; simpl; apply lookup_insert_ne; congruence.
Qed.

Lemma upsert_shape envelope p w b eid isnew nv env :
  fst (build_upsert_envelope envelope p w b eid isnew nv tt) = inr env ->
  Json.assoc "kind" env = Some (JStr (if isnew then "emo.created" else "emo.updated")) /\
  exists P, Json.assoc "payload" env = Some (JObj P) /\ Json.assoc "emo_version" P = Some (JInt nv).
Proof.
  cbv [build_upsert_envelope Eff.bind Eff.ret].
  intros H; repeat (case_match; simplify_eq/=).
  all: split; [reflexivity|]; eexists; split; reflexivity.
Qed.

Lemma delete_shape envelope w b eid v env :
  fst (build_delete_envelope envelope w b eid v tt) = inr env ->
  Json.assoc "kind" env = Some (JStr "emo.deleted") /\
  exists P, Json.assoc "payload" env = Some (JObj P) /\ Json.assoc "emo_version" P = Some (JInt v).
Proof.
  cbv [build_delete_envelope Eff.bind Eff.ret].
  intros H; repeat (case_match; simplify_eq/=).
  split; [reflexivity|]. eexists; split; reflexivity.
Qed.


Lemma upsert_effect u q ie ekv kv m w b s s' :
  Json.assoc "id" kv = Some m -> Json.assoc "world_id" ekv = Some w -> Json.assoc "branch" ekv = Some b ->
  translate_memory_upserted u q ie (JObj ekv) (JObj kv) s = (inr tt, s') ->
  let v := found_version q s (derive_emo_id m) w b in
  let nv := if v =? 0 then 1 else v + 1 in
  exists row, event_log s' = (event_log s ++ [row])%list /\
    emitted_kind row = Some (JStr (if v =? 0 then "emo.created" else "emo.updated")) /\
    emitted_version row = Some (JInt nv) /\
    emo_versions s' !! cache_key (derive_emo_id m) w b = Some nv.
Proof.
  intros Hm Hw Hb H v nv.
  unfold translate_memory_upserted in H.
  rewrite (bind_inr _ _ s m s) in H by (cbv [lift Dict.getitem]; rewrite Hm; reflexivity).
  rewrite (bind_inr _ _ s w s) in H by (cbv [lift Dict.getitem]; rewrite Hw; reflexivity).
  rewrite (bind_inr _ _ s b s) in H by (cbv [lift Dict.getitem]; rewrite Hb; reflexivity).
  destruct (current_version_effect q (derive_emo_id m) w b s) as [s1 [E1 [Hlog1 _]]].
  rewrite (bind_inr _ _ _ _ _ E1) in H. fold v nv in H.
  unfold Eff.bind at 1 in H.
  destruct (lift (build_upsert_envelope _ _ _ _ _ _ _) s1) as [[?|env] s2] eqn:E2; [discriminate|].
  unfold lift in E2; injection E2 as Eb <-.
  destruct (upsert_shape _ _ _ _ _ _ _ _ Eb) as [Hk [P [HP Hv]]].
  unfold Eff.bind at 1 in H.
  destruct (emit_emo_event u ie env s1) as [[?|[]] s3] eqn:E3; [discriminate|].
  destruct (emit_effect _ _ _ _ _ E3) as [row [Hlog [Henv _]]].
  unfold Eff.modify in H; injection H as <-.
  exists row; simpl; split_and!.
  - rewrite Hlog, Hlog1; reflexivity.
  - unfold emitted_kind; rewrite Henv, Hk; reflexivity.
  - unfold emitted_version, emitted_payload; rewrite Henv, HP; exact Hv.
  - apply lookup_insert_eq.
Qed.

Lemma delete_effect u q ie ekv kv m w b v s s' :
  Json.assoc "id" kv = Some m -> Json.assoc "world_id" ekv = Some w -> Json.assoc "branch" ekv = Some b ->
  emo_versions s !! cache_key (derive_emo_id m) w b = Some v ->
  translate_memory_deleted u q ie (JObj ekv) (JObj kv) s = (inr tt, s') ->
  emo_versions s' = emo_versions s /\
  (v = 0 -> s' = s) /\
  (v <> 0 -> exists row, event_log s' = (event_log s ++ [row])%list /\
                         emitted_kind row = Some (JStr "emo.deleted") /\
                         emitted_version row = Some (JInt v)).
Proof.
  intros Hm Hw Hb Hc H.
  unfold translate_memory_deleted in H.
  rewrite (bind_inr _ _ s m s) in H by (cbv [lift Dict.getitem]; rewrite Hm; reflexivity).
  rewrite (bind_inr _ _ s w s) in H by (cbv [lift Dict.getitem]; rewrite Hw; reflexivity).
  rewrite (bind_inr _ _ s b s) in H by (cbv [lift Dict.getitem]; rewrite Hb; reflexivity).
  rewrite (bind_inr _ _ s v s) in H
    by (unfold get_emo_current_version; cbv [Eff.bind Eff.get Eff.ret]; rewrite Hc; reflexivity).
  destruct (Z.eqb_spec v 0) as [->|Hv].
  - injection H as <-. split_and!; [reflexivity|reflexivity|]. intros []; reflexivity.
  - unfold Eff.bind at 1 in H.
    destruct (lift (build_delete_envelope _ _ _ _ _) s) as [[?|env] s2] eqn:E2; [discriminate|].
    unfold lift in E2; injection E2 as Eb <-.
    destruct (delete_shape _ _ _ _ _ _ Eb) as [Hk [P [HP Hver]]].
    destruct (emit_effect _ _ _ _ _ H) as [row [Hlog [Henv Hvs]]].
    split_and!; [exact Hvs|intros; contradiction|intros _].
    exists row; split_and!; [exact Hlog| |].
    + unfold emitted_kind; rewrite Henv, Hk; reflexivity.
    + unfold emitted_version, emitted_payload; rewrite Henv, HP; exact Hver.
Qed.

(** A successful [memory.item.upserted] emits one event: [emo.created] at version 1 when no version was found, else [emo.updated] at the next version, which it caches. *)
Theorem upsert_emits_next_version u q ie ekv kv m w b s s' :
  Json.assoc "id" kv = Some m -> Json.assoc "world_id" ekv = Some w -> Json.assoc "branch" ekv = Some b ->
  translate_memory_upserted u q ie (JObj ekv) (JObj kv) s = (inr tt, s') ->
  let v := found_version q s (derive_emo_id m) w b in
  let nv := if v =? 0 then 1 else v + 1 in
  exists row, event_log s' = (event_log s ++ [row])%list /\
    emitted_kind row = Some (JStr (if v =? 0 then "emo.created" else "emo.updated")) /\
    emitted_version row = Some (JInt nv) /\
    emo_versions s' !! cache_key (derive_emo_id m) w b = Some nv.
Proof. apply upsert_effect. Qed.

(** A successful [memory.item.deleted] leaves the version cache as it was; at version 0 it does nothing, else it emits one [emo.deleted] at the current version. *)
Theorem delete_keeps_version_cache u q ie ekv kv m w b v s s' :
  Json.assoc "id" kv = Some m -> Json.assoc "world_id" ekv = Some w -> Json.assoc "branch" ekv = Some b ->
  emo_versions s !! cache_key (derive_emo_id m) w b = Some v ->
  translate_memory_deleted u q ie (JObj ekv) (JObj kv) s = (inr tt, s') ->
  emo_versions s' = emo_versions s /\
  (v = 0 -> s' = s) /\
  (v <> 0 -> exists row, event_log s' = (event_log s ++ [row])%list /\
                         emitted_kind row = Some (JStr "emo.deleted") /\
                         emitted_version row = Some (JInt v)).
Proof. apply delete_effect. Qed.

(** An upsert after a delete of a cached memory emits [emo.updated] at the next version, not [emo.created]. *)
Theorem upsert_after_delete_is_update u q ie ekv kv m w b v s s1 s2 :
  Json.assoc "id" kv = Some m -> Json.assoc "world_id" ekv = Some w -> Json.assoc "branch" ekv = Some b ->
  emo_versions s !! cache_key (derive_emo_id m) w b = Some v -> v <> 0 ->
  translate_memory_deleted u q ie (JObj ekv) (JObj kv) s = (inr tt, s1) ->
  translate_memory_upserted u q ie (JObj ekv) (JObj kv) s1 = (inr tt, s2) ->
  exists r1 r2, event_log s2 = (event_log s ++ [r1; r2])%list /\
    emitted_kind r1 = Some (JStr "emo.deleted") /\
    emitted_kind r2 = Some (JStr "emo.updated") /\ emitted_version r2 = Some (JInt (v + 1)).
Proof.
  intros Hm Hw Hb Hc Hv H1 H2.
  destruct (delete_effect _ _ _ _ _ _ _ _ _ _ _ Hm Hw Hb Hc H1) as [Hvs [_ Hdel]].
  destruct (Hdel Hv) as [r1 [Hlog1 [Hk1 _]]].
  destruct (upsert_effect _ _ _ _ _ _ _ _ _ _ Hm Hw Hb H2) as [r2 [Hlog2 [Hk2 [Hv2 _]]]].
  unfold found_version in Hk2, Hv2; rewrite Hvs, Hc in Hk2, Hv2.
  apply Z.eqb_neq in Hv; rewrite Hv in Hk2, Hv2.
  exists r1, r2; split_and!; [|exact Hk1|exact Hk2|exact Hv2].
  rewrite Hlog2, Hlog1, <- app_assoc; reflexivity.
Qed.


Lemma upsert_emits_next_version_witness :
  let s' := snd (Translator.translate_memory_upserted uuid4 no_emo insert_ok
                   (JObj (memory_upserted mem1)) (JObj mem1) tstate3) in
  let v := found_version no_emo tstate3 (Translator.derive_emo_id (JStr "mem1")) (JStr W0) (JStr "main") in
  let nv := if v =? 0 then 1 else v + 1 in
  exists row, Translator.event_log s' = (Translator.event_log tstate3 ++ [row])%list /\
    emitted_kind row = Some (JStr (if v =? 0 then "emo.created" else "emo.updated")) /\
    emitted_version row = Some (JInt nv) /\
    Translator.emo_versions s' !! Translator.cache_key (Translator.derive_emo_id (JStr "mem1")) (JStr W0) (JStr "main")
      = Some nv.
Proof.
  intros s'.
  apply (upsert_emits_next_version uuid4 no_emo insert_ok (memory_upserted mem1) mem1
           (JStr "mem1") (JStr W0) (JStr "main") tstate3 s');
    [reflexivity|reflexivity|reflexivity|vm_compute; reflexivity].
Defined.

Lemma delete_keeps_version_cache_witness :
  let s' := snd (Translator.translate_memory_deleted uuid4 no_emo insert_ok
                   (JObj (memory_upserted mem1)) (JObj mem1) tstate3) in
  Translator.emo_versions s' = Translator.emo_versions tstate3 /\
  (3 = 0 -> s' = tstate3) /\
  (3 <> 0 -> exists row, Translator.event_log s' = (Translator.event_log tstate3 ++ [row])%list /\
                         emitted_kind row = Some (JStr "emo.deleted") /\
                         emitted_version row = Some (JInt 3)).
Proof.
  apply (delete_keeps_version_cache uuid4 no_emo insert_ok (memory_upserted mem1) mem1
           (JStr "mem1") (JStr W0) (JStr "main") 3 tstate3);
    [reflexivity|reflexivity|reflexivity|vm_compute; reflexivity|vm_compute; reflexivity].
Defined.

Lemma upsert_after_delete_is_update_witness :
  let s1 := snd (Translator.translate_memory_deleted uuid4 no_emo insert_ok
                   (JObj (memory_upserted mem1)) (JObj mem1) tstate3) in
  let s2 := snd (Translator.translate_memory_upserted uuid4 no_emo insert_ok
                   (JObj (memory_upserted mem1)) (JObj mem1) s1) in
  exists r1 r2, Translator.event_log s2 = (Translator.event_log tstate3 ++ [r1; r2])%list /\
    emitted_kind r1 = Some (JStr "emo.deleted") /\
    emitted_kind r2 = Some (JStr "emo.updated") /\ emitted_version r2 = Some (JInt (3 + 1)).
Proof.
  intros s1 s2.
  apply (upsert_after_delete_is_update uuid4 no_emo insert_ok (memory_upserted mem1) mem1
           (JStr "mem1") (JStr W0) (JStr "main") 3 tstate3 s1 s2);
    [reflexivity|reflexivity|reflexivity|vm_compute; reflexivity|discriminate|vm_compute; reflexivity|vm_compute; reflexivity].
Defined.

End Translation.

Module Publishing.

Import Common.
Import Publisher.

Lemma process_batch_flat_map mr batch :
  process_batch mr batch =
  flat_map (fun ev =>
    if publish_event (ob_deliveries ev) then [MarkPublishedCall (ob_global_seq ev)]
    else if mr (ob_global_seq ev) "False" then [MarkRetryCall (ob_global_seq ev) "False" 60]
    else [MarkRetryCall (ob_global_seq ev) "False" 60; MoveToDlqCall (ob_global_seq ev) "False"]) batch.
Proof.
  unfold process_batch, update_publish_status.
  induction batch as [|ev batch IH]; simpl; [reflexivity|].
  rewrite IH; reflexivity.
Qed.

(** [_process_batch] marks each event it delivers as published, and marks each other event for retry, moving it to the DLQ when [mark_retry] reports no retry left. *)
Theorem process_batch_actions mr batch a :
  In a (process_batch mr batch) <->
  exists ev, In ev batch /\
    ((a = MarkPublishedCall (ob_global_seq ev) /\ publish_event (ob_deliveries ev) = true) \/
     (a = MarkRetryCall (ob_global_seq ev) "False" 60 /\ publish_event (ob_deliveries ev) = false) \/
     (a = MoveToDlqCall (ob_global_seq ev) "False" /\ publish_event (ob_deliveries ev) = false /\
      mr (ob_global_seq ev) "False" = false)).
Proof.
  rewrite process_batch_flat_map, in_flat_map.
  split; intros [ev [Hin Ha]]; exists ev; split; try exact Hin.
  - destruct (publish_event _) eqn:Ep; [|destruct (mr _ _) eqn:Em];
      simpl in Ha; intuition (subst; auto).
  - destruct (publish_event _) eqn:Ep; [|destruct (mr _ _) eqn:Em]; simpl;
      intuition (subst; auto; try discriminate).
Qed.

End Publishing.

Module EnvelopeIntegrity.

Import Common.
Lemma assoc_remove_key k k' l :
  k <> k' -> Json.assoc k (Envelope.remove_key k' l) = Json.assoc k l.
Proof.
  intros Hne; induction l as [|[k0 v0] l IH]; simpl; [reflexivity|].
  destruct (String.eqb_spec k' k0) as [<-|]; simpl.
  - apply String.eqb_neq in Hne; rewrite Hne; reflexivity.
  - rewrite IH; reflexivity.
Qed.

Lemma hexdigest_nonempty s : Hashlib.sha256_hexdigest s <> "".
Proof.
  unfold Hashlib.sha256_hexdigest, Hashlib.sha256.
  destruct (fold_left _ _ _) as [a b c d e f g h]; simpl; discriminate.
Qed.

Lemma json_eqb_str s : json_eqb (JStr s) (JStr s) = true.
Proof. simpl. apply String.eqb_refl. Qed.

Lemma validate_congr vt d1 d2 :
  (forall k, k <> "payload_hash" -> k <> "received_at" -> Json.assoc k d1 = Json.assoc k d2) ->
  Envelope.validate vt d1 = Envelope.validate vt d2.
Proof.
  intros H; unfold Envelope.validate; cbn [List.find].
  rewrite !(H "world_id"), !(H "branch"), !(H "kind"), !(H "payload"), !(H "by"),
          !(H "occurred_at"), !(H "version") by discriminate.
  reflexivity.
Qed.

(** An envelope that [_validate] accepts, once enriched with the server fields, passes [verify_envelope_integrity]. *)
Theorem enriched_envelope_passes_integrity vt data stamp :
  Envelope.validate vt data = None ->
  Envelope.verify_envelope_integrity vt (Envelope.enrich_with_server_fields data stamp) = true.
Proof.
  intros Hv.
  unfold Envelope.verify_envelope_integrity, Envelope.enrich_with_server_fields.
  rewrite assoc_set_key, String.eqb_refl; cbn [default].
  unfold truthy. destruct (String.eqb_spec (Envelope.compute_payload_hash data) "") as [E|_];
    [exfalso; exact (hexdigest_nonempty _ E)|]; cbn [negb].
  set (parsed := Envelope.remove_key "payload_hash" _).
  assert (forall k, k <> "payload_hash" -> Json.assoc k parsed =
            if String.eqb k "received_at" then Some (JStr (substring 0 (String.length stamp - 3) stamp ++ "Z"))
            else Json.assoc k data) as Hp.
  { intros k Hk; unfold parsed; rewrite assoc_remove_key by exact Hk.
    rewrite assoc_set_key. apply String.eqb_neq in Hk; rewrite Hk, assoc_set_key; reflexivity. }
  rewrite (validate_congr vt parsed data), Hv.
  2:{ intros k H1 H2; rewrite Hp by exact H1; apply String.eqb_neq in H2; rewrite H2; reflexivity. }
  unfold Envelope.verify_payload_hash, Envelope.compute_payload_hash.
  rewrite Hp by discriminate; simpl.
  match goal with |- context [String.eqb ?h ""] =>
    destruct (String.eqb_spec h "") as [E|_]; [exfalso; exact (hexdigest_nonempty _ E)|] end.
  apply String.eqb_refl.
Qed.

Lemma str_app_assoc s1 s2 s3 : (s1 ++ s2 ++ s3 = (s1 ++ s2) ++ s3)%string.
Proof.
  induction s1 as [|c s1 IH]; [reflexivity|].
  change (String c (s1 ++ s2 ++ s3) = String c ((s1 ++ s2) ++ s3))%string. rewrite IH; reflexivity.
Qed.
Lemma string_length_app s1 s2 : String.length (s1 ++ s2) = (String.length s1 + String.length s2)%nat.
Proof.
  induction s1 as [|c s1 IH]; [reflexivity|].
  change (S (String.length (s1 ++ s2)) = S (String.length s1 + String.length s2))%nat. rewrite IH; reflexivity.
Qed.
Lemma substring_prefix date tail n :
  substring 0 (String.length date + n) (date ++ tail) = date ++ substring 0 n tail.
Proof.
  induction date as [|c date IH]; [reflexivity|].
  change (String c (substring 0 (String.length date + n) (date ++ tail)) = String c (date ++ substring 0 n tail)).
  rewrite IH; reflexivity.
Qed.

(** [enrich_with_server_fields] cuts a six-digit fraction of the timestamp to four digits in [received_at]. *)
Theorem received_at_keeps_four_fraction_digits data date frac :
  String.length frac = 6%nat ->
  Json.assoc "received_at" (Envelope.enrich_with_server_fields data (date ++ "." ++ frac ++ "Z")) =
  Some (JStr (date ++ "." ++ substring 0 4 frac ++ "Z")).
Proof.
  intros Hf. unfold Envelope.enrich_with_server_fields.
  rewrite assoc_set_key; simpl String.eqb; cbv iota. rewrite assoc_set_key, String.eqb_refl.
  rewrite string_length_app.
  destruct frac as [|c1 [|c2 [|c3 [|c4 [|c5 [|c6 [|]]]]]]]; simpl in Hf; try discriminate.
  simpl String.length.
  replace (String.length date + 8 - 3)%nat with (String.length date + 5)%nat by lia.
  rewrite substring_prefix; simpl.
  rewrite <- str_app_assoc; reflexivity.
Qed.


Lemma enriched_envelope_passes_integrity_witness :
  Envelope.verify_envelope_integrity (fun _ => true)
    (Envelope.enrich_with_server_fields valid_env now0) = true.
Proof.
  apply enriched_envelope_passes_integrity. vm_compute; reflexivity.
Defined.

Lemma received_at_keeps_four_fraction_digits_witness :
  Json.assoc "received_at" (Envelope.enrich_with_server_fields valid_env ("2026-10-17T12:00:00" ++ "." ++ "123456" ++ "Z")) =
  Some (JStr ("2026-10-17T12:00:00" ++ "." ++ "1234" ++ "Z")).
Proof.
  apply (received_at_keeps_four_fraction_digits valid_env "2026-10-17T12:00:00" "123456").
  reflexivity.
Defined.

End EnvelopeIntegrity.

Module ReadBack.

Import Common.
Lemma assoc_app k l1 l2 :
  Json.assoc k (l1 ++ l2) = match Json.assoc k l1 with Some v => Some v | None => Json.assoc k l2 end.
Proof.
  induction l1 as [|[k0 v0] l1 IH]; simpl; [reflexivity|].
  destruct (String.eqb k k0); [reflexivity|exact IH].
Qed.

Lemma assoc_jsonb_insert k kv l :
  Json.assoc k (Json.jsonb_insert kv l) = if String.eqb k (fst kv) then Some (snd kv) else Json.assoc k l.
Proof.
  destruct kv as [k' v]; simpl.
  induction l as [|[k0 v0] l IH]; simpl.
  - destruct (String.eqb k k'); reflexivity.
  - destruct (String.eqb_spec k0 k') as [->|Hne]; simpl.
    + destruct (String.eqb k k'); reflexivity.
    + destruct (Json.jsonb_key_ltb k0 k'); simpl.
      * rewrite IH. destruct (String.eqb_spec k k') as [->|]; [|reflexivity].
        destruct (String.eqb_spec k' k0); [congruence|reflexivity].
      * destruct (String.eqb k k'); reflexivity.
Qed.

Lemma assoc_fold_jsonb_insert k l acc :
  Json.assoc k (fold_left (fun acc kx => Json.jsonb_insert kx acc) l acc) =
  match Json.assoc k (rev l) with Some v => Some v | None => Json.assoc k acc end.
Proof.
  revert acc; induction l as [|[k0 v0] l IH]; intros acc; simpl; [reflexivity|].
  rewrite IH, assoc_app, assoc_jsonb_insert; simpl.
  destruct (Json.assoc k (rev l)); [reflexivity|].
  destruct (String.eqb k k0); reflexivity.
Qed.

Lemma jsonb_obj kv :
  jsonb (JObj kv) =
  JObj (fold_left (fun acc kx => Json.jsonb_insert kx acc) (map (fun kx => (fst kx, jsonb (snd kx))) kv) []).
Proof.
  simpl; do 2 f_equal.
  induction kv as [|[k x] kv IH]; simpl; [reflexivity|]. f_equal; exact IH.
Qed.

Lemma assoc_dict_merge k base extra :
  Json.assoc k (dict_merge base extra) =
  match Json.assoc k (rev extra) with Some v => Some v | None => Json.assoc k base end.
Proof.
  unfold dict_merge; revert base; induction extra as [|[k0 v0] extra IH]; intros base; simpl; [reflexivity|].
  rewrite IH, assoc_app, assoc_set_key; simpl.
  destruct (Json.assoc k (rev extra)); [reflexivity|].
  destruct (String.eqb k k0); reflexivity.
Qed.

Lemma assoc_rev_map_jsonb k kv :
  Json.assoc k (rev (map (fun kx => (fst kx, jsonb (snd kx))) kv)) = option_map jsonb (Json.assoc k (rev kv)).
Proof.
  rewrite <- map_rev. induction (rev kv) as [|[k0 v0] l IH]; simpl; [reflexivity|].
  destruct (String.eqb k k0); [reflexivity|exact IH].
Qed.

Lemma create_accept_effect st e idem corr fc now eid eid' seq ra c st' :
  Gateway.create_event st e idem corr fc now eid = (Gateway.Accepted eid' seq ra c, st') ->
  eid' = eid /\ seq = Gateway.next_seq st /\ ra = now /\
  Gateway.outbox st' = (Gateway.outbox st ++ [seq])%list /\ Gateway.next_seq st' = seq + 1 /\
  exists w, Py.uuid_parse (Gateway.world_id e) = Some w /\
  Gateway.event_log st' = (Gateway.event_log st ++
    [{| Gateway.lr_global_seq := seq; Gateway.lr_event_id := eid; Gateway.lr_world_id := w;
        Gateway.lr_branch := Gateway.branch e; Gateway.lr_kind := Gateway.kind e;
        Gateway.lr_envelope := JObj (Gateway.enrich e now);
        Gateway.lr_idempotency_key :=
          if Gateway.truthy_opt idem then Some (Py.strip (default "" idem)) else None |}])%list.
Proof.
  unfold Gateway.create_event.
  destruct (Gateway.validate_headers _ _ _) as [err|h] eqn:Eh; [destruct err; discriminate|].
  destruct (Gateway.validate_envelope e) as [err|e'] eqn:Ev; [destruct err; discriminate|].
  assert (e' = e) as ->.
  { unfold Gateway.validate_envelope in Ev. destruct (Gateway.validate_business_rules e); congruence. }
  unfold Gateway.store_event.
  destruct (Py.uuid_parse (Gateway.world_id e)) as [w|] eqn:Ew; [|discriminate].
  destruct (match Gateway.idempotency_key h with Some k => _ | None => None end) as [r|];
    [discriminate|].
  intros H; injection H as <- <- <- <- <-. cbn.
  split_and!; try reflexivity. exists w; split; [reflexivity|].
  unfold Gateway.validate_headers in Eh.
  destruct (_ && _)%bool; [discriminate|]. destruct (_ && _)%bool; [discriminate|].
  injection Eh as <-. reflexivity.
Qed.

Lemma find_last_fresh eid l r :
  ~ In eid (map Gateway.lr_event_id l) -> Gateway.lr_event_id r = eid ->
  List.find (fun r => String.eqb (Gateway.lr_event_id r) eid) (l ++ [r])%list = Some r.
Proof.
  intros Hf Hr; induction l as [|r0 l IH]; simpl.
  - rewrite Hr, String.eqb_refl; reflexivity.
  - simpl in Hf. destruct (String.eqb_spec (Gateway.lr_event_id r0) eid); [tauto|].
    apply IH; tauto.
Qed.

(** After [create_event] accepts an event under a fresh id, [get_event] returns it with its id, [global_seq], world, kind, payload and the envelope's [received_at]. *)
Theorem get_event_after_create rc st e idem corr fc now eid eid' seq ra c st' :
  Gateway.create_event st e idem corr fc now eid = (Gateway.Accepted eid' seq ra c, st') ->
  Py.uuid_parse eid = Some eid ->
  ~ In eid (map Gateway.lr_event_id (Gateway.event_log st)) ->
  exists d, Gateway.get_event rc st' eid = Gateway.Ok (JObj d) /\
    Json.assoc "event_id" d = Some (JStr eid) /\ Json.assoc "global_seq" d = Some (JInt seq) /\
    Json.assoc "world_id" d = Some (JStr (Gateway.world_id e)) /\
    Json.assoc "kind" d = Some (JStr (Gateway.kind e)) /\
    Json.assoc "payload" d = Some (jsonb (JObj (Gateway.payload e))) /\
    Json.assoc "received_at" d = Some (JStr now).
Proof.
  intros H Hu Hf.
  destruct (create_accept_effect _ _ _ _ _ _ _ _ _ _ _ _ H) as [_ [_ [_ [_ [_ [w [Hw Hlog]]]]]]].
  unfold Gateway.get_event, Gateway.validate_event_id, Gateway.Persistence.get_event_by_id.
  rewrite Hu, bool_decide_true by (eexists; reflexivity).
  rewrite Hlog, find_last_fresh by (assumption || reflexivity).
  unfold Gateway.Persistence.row_item; cbn [Gateway.lr_envelope].
  rewrite jsonb_obj.
  eexists; split; [reflexivity|].
  split_and!; reflexivity.
Qed.


Lemma get_event_after_create_witness :
  exists d, Gateway.get_event (fun _ => "2026-10-17T12:00:00.000") store1 eid0 = Gateway.Ok (JObj d) /\
    Json.assoc "event_id" d = Some (JStr eid0) /\ Json.assoc "global_seq" d = Some (JInt 1) /\
    Json.assoc "world_id" d = Some (JStr (Gateway.world_id e0)) /\
    Json.assoc "kind" d = Some (JStr (Gateway.kind e0)) /\
    Json.assoc "payload" d = Some (jsonb (JObj (Gateway.payload e0))) /\
    Json.assoc "received_at" d = Some (JStr now0).
Proof.
  apply (get_event_after_create _ store0 e0 None None corr0 now0 eid0 eid0 1 now0 corr0);
    [vm_compute; reflexivity|vm_compute; reflexivity|intros []].
Defined.

End ReadBack.

Module Paging.

Import Common.
Import Gateway.


Section Order.
Import Persistence.

Lemma insert_perm r l : Permutation (insert_by_seq r l) (r :: l).
Proof.
  induction l as [|x l IH]; simpl; [reflexivity|].
  destruct (lr_global_seq x <=? lr_global_seq r); [|reflexivity].
  rewrite IH; apply perm_swap.
Qed.

Lemma order_perm l : Permutation (order_by_seq l) l.
Proof.
  unfold order_by_seq; induction l as [|x l IH]; simpl; [reflexivity|].
  rewrite insert_perm, IH; reflexivity.
Qed.

Lemma insert_by_seq_sorted r l : StronglySorted seq_le l -> StronglySorted seq_le (insert_by_seq r l).
Proof.
  induction l as [|x l IH]; intros Hs; simpl; [repeat constructor|].
  apply StronglySorted_inv in Hs as [Hs Hf].
  destruct (Z.leb_spec (lr_global_seq x) (lr_global_seq r)).
  - constructor; [apply IH, Hs|].
    apply List.Forall_forall; intros y Hy.
    apply (Permutation_in _ (insert_perm r l)) in Hy as [<-|Hy]; [exact H|].
    rewrite List.Forall_forall in Hf; apply Hf, Hy.
  - constructor; [constructor; assumption|].
    constructor; [unfold seq_le; lia|].
    rewrite List.Forall_forall in Hf |- *; intros y Hy; unfold seq_le in *; specialize (Hf y Hy); lia.
Qed.

Lemma order_sorted l : StronglySorted seq_le (order_by_seq l).
Proof.
  unfold order_by_seq; induction l as [|x l IH]; simpl; [constructor|].
  apply insert_by_seq_sorted, IH.
Qed.

Lemma insert_head r l : (forall x, In x l -> lr_global_seq r < lr_global_seq x) -> insert_by_seq r l = r :: l.
Proof.
  destruct l as [|x l]; intros H; simpl; [reflexivity|].
  specialize (H x (or_introl eq_refl)).
  destruct (Z.leb_spec (lr_global_seq x) (lr_global_seq r)); [lia|reflexivity].
Qed.

Lemma filter_insert (f : LogRow -> bool) r l :
  StronglySorted seq_le l ->
  filter (fun y => f y) (insert_by_seq r l) =
  if f r then insert_by_seq r (filter (fun y => f y) l) else filter (fun y => f y) l.
Proof.
  induction l as [|x l IH]; intros Hs; simpl.
  - rewrite filter_cons_bool; destruct (f r); reflexivity.
  - apply StronglySorted_inv in Hs as [Hs Hf].
    destruct (Z.leb_spec (lr_global_seq x) (lr_global_seq r)).
    + rewrite !filter_cons_bool, IH by exact Hs.
      destruct (f x), (f r); simpl; try reflexivity.
      destruct (Z.leb_spec (lr_global_seq x) (lr_global_seq r)); [reflexivity|lia].
    + rewrite !filter_cons_bool.
      destruct (f r); [|reflexivity].
      symmetry; apply insert_head.
      intros y Hy. rewrite <- filter_cons_bool in Hy. apply in_filter_bool in Hy as [[<-|Hy] _]; [lia|].
      rewrite List.Forall_forall in Hf; specialize (Hf y Hy); unfold seq_le in Hf; lia.
Qed.

Lemma order_filter (f : LogRow -> bool) l :
  order_by_seq (filter (fun y => f y) l) = filter (fun y => f y) (order_by_seq l).
Proof.
  unfold order_by_seq; induction l as [|x l IH]; [reflexivity|].
  rewrite filter_cons_bool; simpl fold_right.
  rewrite filter_insert by apply order_sorted.
  destruct (f x); simpl; rewrite IH; reflexivity.
Qed.

End Order.

Lemma filter_and {A} (f g : A -> bool) (l : list A) :
  filter (fun y => f y && g y) l = filter (fun y => g y) (filter (fun y => f y) l).
Proof.
  induction l as [|x l IH]; [reflexivity|].
  rewrite !filter_cons_bool; destruct (f x); simpl; rewrite ?filter_cons_bool; destruct (g x) ; rewrite ?IH; reflexivity.
Qed.

Lemma filter_keep_all_bool {A} (f : A -> bool) (l : list A) : (forall x, In x l -> f x = true) -> filter (fun y => f y) l = l.
Proof.
  induction l as [|x l IH]; intros H; [reflexivity|].
  rewrite filter_cons_bool, (H x (or_introl eq_refl)), IH; [reflexivity|intros y Hy; apply H; right; exact Hy].
Qed.

Lemma filter_drop_all_bool {A} (f : A -> bool) (l : list A) : (forall x, In x l -> f x = false) -> filter (fun y => f y) l = [].
Proof.
  induction l as [|x l IH]; intros H; [reflexivity|].
  rewrite filter_cons_bool, (H x (or_introl eq_refl)), IH; [reflexivity|intros y Hy; apply H; right; exact Hy].
Qed.

Lemma select_split st w br kind after lim :
  Persistence.select_events st w br kind after lim =
  firstn (Z.to_nat lim) (filter (fun y => after_ok after y)
    (Persistence.order_by_seq (filter (fun y => matches w br kind y) (event_log st)))).
Proof. rewrite <- order_filter, <- filter_and. reflexivity. Qed.

Lemma nodup_map_filter (f : LogRow -> bool) l :
  NoDup (map lr_global_seq l) -> NoDup (map lr_global_seq (filter (fun y => f y) l)).
Proof.
  induction l as [|x l IH]; intros H; [constructor|].
  simpl in H; apply NoDup_cons in H as [Hn H].
  rewrite filter_cons_bool; destruct (f x); [|apply IH, H].
  simpl; apply NoDup_cons; split; [|apply IH, H].
  intros Hin; apply Hn. apply list_elem_of_In in Hin; apply list_elem_of_In.
  apply in_map_iff in Hin as [y [Hy Hin]]; apply in_filter_bool in Hin as [Hin _].
  apply in_map_iff; eauto.
Qed.

Lemma strict_of_nodup l :
  StronglySorted seq_le l -> NoDup (map lr_global_seq l) -> StronglySorted seq_lt l.
Proof.
  induction l as [|x l IH]; intros Hs Hn; [constructor|].
  apply StronglySorted_inv in Hs as [Hs Hf].
  simpl in Hn; apply NoDup_cons in Hn as [Hx Hn].
  constructor; [apply IH; assumption|].
  rewrite List.Forall_forall in Hf |- *; intros y Hy.
  specialize (Hf y Hy); unfold seq_le, seq_lt in *.
  assert (lr_global_seq x <> lr_global_seq y); [|lia].
  intros E; apply Hx; apply list_elem_of_In, in_map_iff; eauto.
Qed.

Lemma sorted_app_inv {A} (R : A -> A -> Prop) l1 l2 :
  StronglySorted R (l1 ++ l2) -> forall x y, In x l1 -> In y l2 -> R x y.
Proof.
  induction l1 as [|z l1 IH]; intros Hs x y Hx Hy; [destruct Hx|].
  simpl in Hs; apply StronglySorted_inv in Hs as [Hs Hf].
  destruct Hx as [<-|Hx]; [|eauto].
  rewrite List.Forall_forall in Hf; apply Hf, in_or_app; right; exact Hy.
Qed.

(** With distinct positive [global_seq] values, a full page of [n] events followed by the page after its last event equals the page of [n + m] events. *)
Theorem pages_concatenate st w br kind n m r :
  NoDup (map lr_global_seq (event_log st)) ->
  (forall x, In x (event_log st) -> 0 < lr_global_seq x) ->
  0 <= m ->
  length (Persistence.select_events st w br kind None n) = Z.to_nat n ->
  last (Persistence.select_events st w br kind None n) = Some r ->
  (Persistence.select_events st w br kind None n ++
   Persistence.select_events st w br kind (Some (lr_global_seq r)) m)%list =
  Persistence.select_events st w br kind None (n + m).
Proof.
  intros Hnd Hpos Hm.
  rewrite !select_split.
  set (S := Persistence.order_by_seq _).
  assert (forall l, filter (fun y => after_ok None y) l = l) as HN by (intros; apply filter_keep_all_bool; reflexivity).
  rewrite !HN.
  intros Hlen Hlast.
  assert (Hperm : Permutation S (filter (fun y => matches w br kind y) (event_log st))) by apply order_perm.
  assert (Hstrict : StronglySorted seq_lt S).
  { apply strict_of_nodup; [apply order_sorted|].
    apply NoDup_ListNoDup; eapply Permutation_NoDup; [apply Permutation_map; symmetry; exact Hperm|].
    apply NoDup_ListNoDup, nodup_map_filter, Hnd. }
  apply last_Some in Hlast as [P0 HP].
  assert (HrS : In r S).
  { rewrite <- (firstn_skipn (Z.to_nat n) S), HP; apply in_or_app; left; apply in_or_app; right; left; reflexivity. }
  assert (Hr0 : 0 < lr_global_seq r).
  { apply Hpos. apply (Permutation_in _ Hperm) in HrS. apply in_filter_bool in HrS as [H _]; exact H. }
  assert (Hn : 0 < n).
  { destruct (Z.ltb_spec 0 n); [assumption|]. rewrite HP, length_app in Hlen; simpl in Hlen.
    rewrite (Z2Nat.nonpos n) in Hlen by lia. lia. }
  assert (HS : S = (P0 ++ r :: skipn (Z.to_nat n) S)%list).
  { rewrite <- (firstn_skipn (Z.to_nat n) S) at 1. rewrite HP, <- app_assoc; reflexivity. }
  assert (Hafter : filter (fun y => after_ok (Some (lr_global_seq r)) y) S = skipn (Z.to_nat n) S).
  { rewrite HS at 1. rewrite HS in Hstrict.
    rewrite filter_app, filter_cons_bool, filter_drop_all_bool, filter_keep_all_bool.
    - unfold after_ok. destruct (Z.eqb_spec (lr_global_seq r) 0); [lia|].
      rewrite Z.ltb_irrefl; reflexivity.
    - intros y Hy. unfold after_ok. destruct (Z.eqb_spec (lr_global_seq r) 0); [lia|].
      apply Z.ltb_lt. change (seq_lt r y). apply (sorted_app_inv _ (P0 ++ [r]) (drop (Z.to_nat n) S)); [rewrite <- app_assoc; exact Hstrict| |exact Hy].
      apply in_or_app; right; left; reflexivity.
    - intros y Hy. unfold after_ok. destruct (Z.eqb_spec (lr_global_seq r) 0); [lia|].
      apply Z.ltb_ge. enough (seq_lt y r) by (unfold seq_lt in *; lia).
      apply (sorted_app_inv _ P0 (r :: skipn (Z.to_nat n) S)); [exact Hstrict|exact Hy|left; reflexivity]. }
  rewrite Hafter, Z2Nat.inj_add by lia.
  apply take_take_drop.
Qed.


Lemma pages_concatenate_witness :
  match last (Gateway.Persistence.select_events store2 W0 "main" None None 1) with
  | Some r => (Gateway.Persistence.select_events store2 W0 "main" None None 1 ++
               Gateway.Persistence.select_events store2 W0 "main" None (Some (Gateway.lr_global_seq r)) 1)%list =
              Gateway.Persistence.select_events store2 W0 "main" None None 2
  | None => False
  end.
Proof.
  destruct (last (Gateway.Persistence.select_events store2 W0 "main" None None 1)) as [r|] eqn:E;
    [|vm_compute in E; discriminate E].
  apply (pages_concatenate store2 W0 "main" None 1 1 r).
  - apply (bool_decide_unpack _); vm_compute; exact I.
  - intros x Hx; vm_compute in Hx; destruct Hx as [<-|[<-|[]]]; vm_compute; reflexivity.
  - lia.
  - vm_compute; reflexivity.
  - exact E.
Defined.

End Paging.

End Extras.
